(** * Personal finance tracker (week4.py): expense store and monthly reports

    A shallow embedding of [ExpenseTracker] and of the parts of the Python
    standard library its methods call ([str.strip], [str.lower], [float],
    [int], the [.2f] format, [round], [datetime.strptime] / [strftime],
    [csv.DictReader], [list.sort]), followed by the properties of the
    store and of the reports.

    How the program is modelled:
    - text is a [string] of ASCII characters (the rupee sign of the
      narrative export is kept as its UTF-8 bytes);
    - a Python [float] is an IEEE-754 binary64 value, a [spec_float] with
      precision 53 and maximal exponent 1024; [float(s)] and [round] are
      correctly rounded, ties to even, as CPython's conversions are;
    - the backing CSV file is the list of rows that [csv.reader] yields for
      it and that [csv.writer] writes to it; the tracker is the pair of
      that file and of the list [expenses] in memory, passed through every
      method, and a method that raises returns the tracker as it left it;
    - [uuid.uuid4()] and [datetime.today()] are arguments of [add_expense];
    - [list.sort] is a stable insertion sort, which agrees with Python's
      sort on keys that are totally ordered;
    - [strftime] is that of CPython on the GNU C library, which writes
      [%Y] without padding: a year below 1000 comes out with fewer than
      four digits, and [strptime], which wants four, rejects it;
    - the [datetime] constructor converts its arguments to C [int]s first
      and raises [OverflowError] for what does not fit;
    - a field longer than the [csv] module's field size limit (131072
      characters), which the reader refuses, and errors of the file system
      are not modelled. *)

From Stdlib Require Import ZArith List String Ascii Bool Lia Permutation Sorted.
From Stdlib Require Import Floats.SpecFloat.
Import ListNotations.

Open Scope string_scope.
Open Scope Z_scope.

(** ** Exceptions *)

Inductive exn : Type :=
| ValueError
| TypeError
| KeyError
| AttributeError
| OverflowError.

Inductive result (A : Type) : Type :=
| Ok (a : A)
| Raise (e : exn).

Arguments Ok {A} a.
Arguments Raise {A} e.

Definition bind {A B : Type} (r : result A) (k : A -> result B) : result B :=
  match r with
  | Ok a => k a
  | Raise e => Raise e
  end.

Notation "x <- r ;; k" := (bind r (fun x => k))
  (at level 61, r at next level, right associativity).

(** A Python value that is either [None] or a [str]: what a [DictReader]
    row maps a column name to. *)
Inductive value : Type :=
| PyNone
| PyStr (s : string).

(** ** Characters and strings *)

Definition code (c : ascii) : Z := Z.of_N (N_of_ascii c).

Definition chr (n : Z) : ascii := ascii_of_N (Z.to_N n).

Definition is_digit (c : ascii) : bool := (48 <=? code c) && (code c <=? 57).

Definition digit_val (c : ascii) : Z := code c - 48.

Definition digit_chr (d : Z) : ascii := chr (48 + d).

(** [str.isspace] on ASCII: TAB..CR, FS..US and the space. *)
Definition is_unicode_space (c : ascii) : bool :=
  ((9 <=? code c) && (code c <=? 13)) || ((28 <=? code c) && (code c <=? 32)).

(** C's [isspace], which [float] strips with: TAB..CR and the space. *)
Definition is_c_space (c : ascii) : bool :=
  ((9 <=? code c) && (code c <=? 13)) || (code c =? 32).

Fixpoint lstrip_with (sp : ascii -> bool) (s : string) : string :=
  match s with
  | String c s' => if sp c then lstrip_with sp s' else s
  | EmptyString => EmptyString
  end.

Fixpoint rstrip_with (sp : ascii -> bool) (s : string) : string :=
  match s with
  | String c s' =>
      match rstrip_with sp s' with
      | EmptyString => if sp c then EmptyString else String c EmptyString
      | t => String c t
      end
  | EmptyString => EmptyString
  end.

(** [s.strip()] *)
Definition strip (s : string) : string :=
  rstrip_with is_unicode_space (lstrip_with is_unicode_space s).

Definition lower_char (c : ascii) : ascii :=
  if (65 <=? code c) && (code c <=? 90) then chr (code c + 32) else c.

(** [s.lower()] *)
Fixpoint lower (s : string) : string :=
  match s with
  | String c s' => String (lower_char c) (lower s')
  | EmptyString => EmptyString
  end.

(** ["sep".join(ls)] *)
Definition join (sep : string) (ls : list string) : string := String.concat sep ls.

(** [c * n] for a one-character string *)
Fixpoint repeat_char (c : ascii) (n : nat) : string :=
  match n with
  | O => EmptyString
  | S n' => String c (repeat_char c n')
  end.

(** ** Decimal numerals *)

(** The decimal digits of [n], most significant first, prepended to [acc];
    [fuel] bounds the number of digits. *)
Fixpoint digits_acc (fuel : nat) (n : Z) (acc : string) : string :=
  match fuel with
  | O => acc
  | S fuel' =>
      let acc' := String (digit_chr (n mod 10)) acc in
      if n <? 10 then acc' else digits_acc fuel' (n / 10) acc'
  end.

(** Decimal numeral of a natural number [n >= 0]. *)
Definition digits (n : Z) : string :=
  digits_acc (S (Z.to_nat (Z.log2 n))) n EmptyString.

(** [str(n)] for an [int] *)
Definition str_int (n : Z) : string :=
  if n <? 0 then String "-" (digits (- n)) else digits n.

(** Reads a maximal run of digits: the accumulated value (starting from
    [acc]), how many digits were read, and the rest of the text. *)
Fixpoint read_digits (s : string) (acc : Z) (n : Z) : Z * Z * string :=
  match s with
  | String c s' =>
      if is_digit c then read_digits s' (10 * acc + digit_val c) (n + 1)
      else (acc, n, s)
  | EmptyString => (acc, n, s)
  end.

(** ** Dates: [datetime], [strptime] and [strftime] with ["%Y-%m-%d"] *)

Record datetime : Type := mk_datetime { year : Z; month : Z; day : Z }.

Definition is_leap (y : Z) : bool :=
  (y mod 4 =? 0) && (negb (y mod 100 =? 0) || (y mod 400 =? 0)).

Definition days_in_month (y m : Z) : Z :=
  if m =? 2 then (if is_leap y then 29 else 28)
  else if (m =? 4) || (m =? 6) || (m =? 9) || (m =? 11) then 30
  else 31.

(** The check of the [datetime(year, month, day)] constructor. *)
Definition valid_date (y m d : Z) : bool :=
  (1 <=? y) && (y <=? 9999) && (1 <=? m) && (m <=? 12) &&
  (1 <=? d) && (d <=? days_in_month y m).

(** The argument fits a C [int]. *)
Definition c_int (n : Z) : bool := (- 2 ^ 31 <=? n) && (n <? 2 ^ 31).

(** [datetime(y, m, d)]: the arguments are converted to C [int]s, which
    raises [OverflowError] for one that does not fit; then the constructor
    raises [ValueError] outside the calendar. *)
Definition new_datetime (y m d : Z) : result datetime :=
  if c_int y && c_int m && c_int d then
    if valid_date y m d then Ok (mk_datetime y m d) else Raise ValueError
  else Raise OverflowError.

Definition in_range (lo hi : Z) (c : ascii) : bool :=
  (lo <=? code c) && (code c <=? hi).

(** The alternatives of the regular expression that [strptime] compiles
    [%m] to, [1[0-2]|0[1-9]|[1-9]]: every alternative that matches a prefix
    of the text, in the order the matcher tries them, with the rest. *)
Definition re_month (s : string) : list (Z * string) :=
  (match s with
   | String c1 (String c2 r) =>
       if (code c1 =? 49) && in_range 48 50 c2 then [(10 + digit_val c2, r)] else []
   | _ => []
   end) ++
  (match s with
   | String c1 (String c2 r) =>
       if (code c1 =? 48) && in_range 49 57 c2 then [(digit_val c2, r)] else []
   | _ => []
   end) ++
  (match s with
   | String c1 r => if in_range 49 57 c1 then [(digit_val c1, r)] else []
   | _ => []
   end).

(** The same for [%d]: [3[01]|[12]\d|0[1-9]|[1-9]| [1-9]]. *)
Definition re_day (s : string) : list (Z * string) :=
  (match s with
   | String c1 (String c2 r) =>
       if (code c1 =? 51) && in_range 48 49 c2 then [(30 + digit_val c2, r)] else []
   | _ => []
   end) ++
  (match s with
   | String c1 (String c2 r) =>
       if in_range 49 50 c1 && is_digit c2
       then [(10 * digit_val c1 + digit_val c2, r)] else []
   | _ => []
   end) ++
  (match s with
   | String c1 (String c2 r) =>
       if (code c1 =? 48) && in_range 49 57 c2 then [(digit_val c2, r)] else []
   | _ => []
   end) ++
  (match s with
   | String c1 r => if in_range 49 57 c1 then [(digit_val c1, r)] else []
   | _ => []
   end) ++
  (match s with
   | String c1 (String c2 r) =>
       if (code c1 =? 32) && in_range 49 57 c2 then [(digit_val c2, r)] else []
   | _ => []
   end).

(** The first alternative whose continuation matches (backtracking). *)
Fixpoint first_match {A B : Type} (alts : list A) (k : A -> option B) : option B :=
  match alts with
  | [] => None
  | a :: alts' =>
      match k a with
      | Some b => Some b
      | None => first_match alts' k
      end
  end.

(** The match of [\d\d\d\d-(%m)-(%d)] at the start of the text: year,
    month, day and what is left after the match. *)
Definition re_date (s : string) : option (Z * Z * Z * string) :=
  match s with
  | String y1 (String y2 (String y3 (String y4 (String sep1 r1)))) =>
      if is_digit y1 && is_digit y2 && is_digit y3 && is_digit y4
         && (code sep1 =? 45)
      then
        let y := 1000 * digit_val y1 + 100 * digit_val y2
                 + 10 * digit_val y3 + digit_val y4 in
        first_match (re_month r1) (fun '(m, r2) =>
          match r2 with
          | String sep2 r3 =>
              if code sep2 =? 45
              then first_match (re_day r3) (fun '(d, r4) => Some (y, m, d, r4))
              else None
          | EmptyString => None
          end)
      else None
  | _ => None
  end.

(** [datetime.strptime(data_string, "%Y-%m-%d")]: the text must match the
    expression, nothing may remain after the match, and the fields must
    form a calendar date. *)
Definition strptime (data_string : string) : result datetime :=
  match re_date data_string with
  | Some (y, m, d, EmptyString) => new_datetime y m d
  | _ => Raise ValueError
  end.

(** [strptime] applied to a value that may be [None] ([TypeError]). *)
Definition strptime_value (v : value) : result datetime :=
  match v with
  | PyStr s => strptime s
  | PyNone => Raise TypeError
  end.

Definition pad2 (n : Z) : string :=
  String (digit_chr (n / 10 mod 10)) (String (digit_chr (n mod 10)) EmptyString).

(** [dt.strftime("%Y-%m-%d")]: the C library writes the year as a plain
    decimal number, without padding, the month and the day with two digits. *)
Definition strftime (dt : datetime) : string :=
  str_int (year dt) ++ "-" ++ pad2 (month dt) ++ "-" ++ pad2 (day dt).

Definition month_names : list string :=
  ["January"; "February"; "March"; "April"; "May"; "June"; "July";
   "August"; "September"; "October"; "November"; "December"].

(** [dt.strftime("%B %Y")] *)
Definition strftime_month_year (dt : datetime) : string :=
  nth (Z.to_nat (month dt - 1)) month_names "" ++ " " ++ str_int (year dt).

(** ** Floats: binary64 arithmetic, [float(s)], the [.2f] format, [round(x, 2)] *)

Definition float : Type := spec_float.

Definition prec : Z := 53.
Definition emax : Z := 1024.

(** [x + y], [x - y], [-x], [abs(x)], [x < y] and [x <= y] on floats *)
Definition fadd (x y : float) : float := SFadd prec emax x y.

Definition fsub (x y : float) : float := SFsub prec emax x y.

Definition fneg (x : float) : float := SFopp x.

Definition fabs (x : float) : float := SFabs x.

Definition flt (x y : float) : bool := SFltb x y.

Definition fle (x y : float) : bool := SFleb x y.

(** [n / d] rounded to the nearest integer, ties to even ([n >= 0], [d > 0]). *)
Definition div_rne (n d : Z) : Z :=
  let q := n / d in
  match 2 * (n mod d) ?= d with
  | Lt => q
  | Gt => q + 1
  | Eq => if Z.even q then q else q + 1
  end.

(** Numerator and denominator of [(n / d) / 2^e]. *)
Definition scaled_num (n e : Z) : Z := n * 2 ^ Z.max 0 (- e).
Definition scaled_den (d e : Z) : Z := d * 2 ^ Z.max 0 e.

(** The binary exponent at which the rational [n / d] ([n, d > 0]) is
    rounded: the unit in the last place of a 53-bit significand, not below
    the exponent of the subnormals. *)
Definition ratio_exponent (n d : Z) : Z :=
  let e0 := Z.log2 n - Z.log2 d - 53 in
  let e1 := if scaled_num n e0 / scaled_den d e0 <? 2 ^ 53 then e0 else e0 + 1 in
  Z.max e1 (-1074).

(** The binary64 value nearest to [(-1)^s * n / d] (ties to even), for
    [n, d > 0]: what a correctly rounded string-to-double conversion
    returns; overflow gives an infinity and underflow a signed zero. *)
Definition float_of_ratio (s : bool) (n d : Z) : float :=
  let e := ratio_exponent n d in
  let m := div_rne (scaled_num n e) (scaled_den d e) in
  match m with
  | Zpos p =>
      if m =? 2 ^ 53
      then (if e + 1 <=? 971 then S754_finite s (Z.to_pos (2 ^ 52)) (e + 1)
            else S754_infinity s)
      else (if e <=? 971 then S754_finite s p e else S754_infinity s)
  | _ => S754_zero s
  end.

(** The binary64 value nearest to [(-1)^s * m * 10^e], for [m >= 0]. *)
Definition float_of_decimal (s : bool) (m e : Z) : float :=
  if m =? 0 then S754_zero s
  else if 0 <=? e then float_of_ratio s (m * 10 ^ e) 1
  else float_of_ratio s m (10 ^ (- e)).

Definition parse_sign (s : string) : bool * string :=
  match s with
  | String c r =>
      if code c =? 45 then (true, r)
      else if code c =? 43 then (false, r)
      else (false, s)
  | EmptyString => (false, s)
  end.

(** An optional exponent part [e[+-]?digits]; it is consumed only when at
    least one digit follows. *)
Definition parse_exponent (s : string) : Z * string :=
  match s with
  | String c r =>
      if (code c =? 101) || (code c =? 69) then
        let (es, r1) := parse_sign r in
        let '(v, k, r2) := read_digits r1 0 0 in
        if k =? 0 then (0, s) else ((if es then - v else v), r2)
      else (0, s)
  | EmptyString => (0, s)
  end.

(** A decimal numeral: sign, digits with an optional point (at least one
    digit), optional exponent, and nothing after it. *)
Definition parse_decimal (s : string) : option float :=
  let (sg, s1) := parse_sign s in
  let '(ip, n1, s2) := read_digits s1 0 0 in
  let '(m, n2, s3) :=
    match s2 with
    | String c r => if code c =? 46 then read_digits r ip 0 else (ip, 0, s2)
    | EmptyString => (ip, 0, s2)
    end in
  if n1 + n2 =? 0 then None
  else
    let (ex, s4) := parse_exponent s3 in
    match s4 with
    | EmptyString => Some (float_of_decimal sg m (ex - n2))
    | _ => None
    end.

(** [inf], [infinity] and [nan] in any case, with an optional sign. *)
Definition parse_inf_or_nan (s : string) : option float :=
  let (sg, r) := parse_sign s in
  let l := lower r in
  if (l =? "inf")%string || (l =? "infinity")%string then Some (S754_infinity sg)
  else if (l =? "nan")%string then Some S754_nan
  else None.

(** Underscores are allowed between two digits only; they are removed. *)
Fixpoint remove_underscores (prev : ascii) (s : string) : option string :=
  match s with
  | String c s' =>
      if code c =? 95 then
        if is_digit prev then remove_underscores c s' else None
      else if (code prev =? 95) && negb (is_digit c) then None
      else option_map (String c) (remove_underscores c s')
  | EmptyString => if code prev =? 95 then None else Some EmptyString
  end.

(** [float(s)] for a [str]: [ValueError] when the text is no float literal. *)
Definition py_float (s : string) : result float :=
  let t := rstrip_with is_c_space (lstrip_with is_c_space s) in
  match remove_underscores (chr 0) t with
  | None => Raise ValueError
  | Some u =>
      match parse_decimal u with
      | Some x => Ok x
      | None =>
          match parse_inf_or_nan u with
          | Some x => Ok x
          | None => Raise ValueError
          end
      end
  end.

(** [float(v)] for a value that may be [None] ([TypeError]). *)
Definition py_float_value (v : value) : result float :=
  match v with
  | PyStr s => py_float s
  | PyNone => Raise TypeError
  end.

(** [int(s)] for a [str]: optional sign and decimal digits, surrounded by
    white space; underscores between digits are allowed. *)
Definition py_int (s : string) : result Z :=
  let t := rstrip_with is_c_space (lstrip_with is_c_space s) in
  let (sg, r) := parse_sign t in
  match remove_underscores (chr 0) r with
  | None => Raise ValueError
  | Some u =>
      match read_digits u 0 0 with
      | (v, k, EmptyString) =>
          if k =? 0 then Raise ValueError else Ok (if sg then - v else v)
      | _ => Raise ValueError
      end
  end.

(** The magnitude of a finite float in hundredths, rounded to the nearest
    integer (ties to even) on its exact value. *)
Definition cents (m : positive) (e : Z) : Z :=
  div_rne (scaled_num (100 * Zpos m) (- e)) (scaled_den 1 (- e)).

Definition sign_text (s : bool) : string := if s then "-" else "".

(** The numeral of [n] hundredths with two decimals. *)
Definition cents_text (n : Z) : string := digits (n / 100) ++ "." ++ pad2 (n mod 100).

(** [f"{x:.2f}"] *)
Definition format_2f (x : float) : string :=
  match x with
  | S754_nan => "nan"
  | S754_infinity s => sign_text s ++ "inf"
  | S754_zero s => sign_text s ++ cents_text 0
  | S754_finite s m e => sign_text s ++ cents_text (cents m e)
  end.

(** [round(x, 2)]: the float nearest to the two-decimal rounding of [x];
    infinities and NaN round to themselves. *)
Definition round2 (x : float) : float :=
  match x with
  | S754_finite s m e => float_of_decimal s (cents m e) (-2)
  | _ => x
  end.

(** ** [list.sort] *)

Section Sort.
Context {A K : Type}.
Variable lt : K -> K -> bool.
Variable key : A -> K.

(** Inserts [x], which stood before every element of [l], into the
    sorted [l]: after the elements whose key is smaller, before the rest. *)
Fixpoint insert (x : A) (l : list A) : list A :=
  match l with
  | [] => [x]
  | y :: l' => if lt (key y) (key x) then y :: insert x l' else x :: y :: l'
  end.

(** A stable ascending sort that compares keys with [<] only. *)
Fixpoint sort_stable (l : list A) : list A :=
  match l with
  | [] => []
  | x :: l' => insert x (sort_stable l')
  end.

(** [l.sort(key=key, reverse=reverse)]: with [reverse] the list is
    reversed, sorted and reversed again, which keeps equal keys in their
    original order. *)
Definition list_sort (reverse : bool) (l : list A) : list A :=
  if reverse then rev (sort_stable (rev l)) else sort_stable l.

(** [ascending a b]: [a] may stand before [b] in ascending order of the
    keys ([b]'s key is not below [a]'s); [descending] likewise. *)
Definition ascending (a b : A) : Prop := lt (key b) (key a) = false.

Definition descending (a b : A) : Prop := lt (key a) (key b) = false.
End Sort.

(** [l[:k]] *)
Definition slice_to {A : Type} (l : list A) (k : Z) : list A :=
  if k <? 0 then firstn (Z.to_nat (Z.of_nat (List.length l) + k)) l
  else firstn (Z.to_nat k) l.

(** ** [csv.DictReader] rows *)

(** A [dict] from column names to values, in insertion order. *)
Definition dict : Type := list (string * value).

Fixpoint dict_set (d : dict) (k : string) (v : value) : dict :=
  match d with
  | [] => [(k, v)]
  | (k', v') :: d' =>
      if (k =? k')%string then (k, v) :: d' else (k', v') :: dict_set d' k v
  end.

Fixpoint dict_get (d : dict) (k : string) : option value :=
  match d with
  | [] => None
  | (k', v') :: d' => if (k =? k')%string then Some v' else dict_get d' k
  end.

(** [dict(zip(fieldnames, row))], added to [d] *)
Fixpoint dict_zip (fieldnames row : list string) (d : dict) : dict :=
  match fieldnames, row with
  | f :: fs, x :: xs => dict_zip fs xs (dict_set d f (PyStr x))
  | _, _ => d
  end.

(** The [dict] that [DictReader] yields for a row: the columns the row is
    too short for map to [None] (the reader's [restval]).  The surplus
    fields of a longer row go under the key [None], which [load] never
    reads, and are left out. *)
Definition DictReader_row (fieldnames row : list string) : dict :=
  fold_left (fun d k => dict_set d k PyNone)
    (skipn (List.length row) fieldnames) (dict_zip fieldnames row []).

(** ** The expense store *)

Record Expense : Type := mk_Expense {
  id : value;
  date : string;
  amount : string;
  category : string;
  description : string
}.

(** The tracker: the rows of the CSV file named [data_file] and the list
    [expenses] held in memory. *)
Record ExpenseTracker : Type := mk_ExpenseTracker {
  data_file : list (list string);
  expenses : list Expense
}.

Definition header : list string := ["id"; "date"; "amount"; "category"; "description"].

(** How [csv.writer] writes a field: [None] as the empty string. *)
Definition csv_field (v : value) : string :=
  match v with
  | PyStr s => s
  | PyNone => ""
  end.

Definition expense_row (e : Expense) : list string :=
  [csv_field (id e); date e; amount e; category e; description e].

(** [_ensure_file]: a missing file is created with the header row. *)
Definition _ensure_file (file : option (list (list string))) : list (list string) :=
  match file with
  | Some rows => rows
  | None => [header]
  end.

Definition _append_to_file (expense : Expense) (self : ExpenseTracker) : ExpenseTracker :=
  mk_ExpenseTracker (data_file self ++ [expense_row expense]) (expenses self).

(** [add_expense(amount, category, date, description)].  [uuid4] is the
    identifier that [uuid.uuid4()] draws and [today] the date that
    [datetime.today()] reads.  Returns the outcome and the tracker as the
    call leaves it. *)
Definition add_expense (uuid4 : string) (today : datetime)
    (amount_arg category_arg : string) (date_arg : option string)
    (description_arg : string) (self : ExpenseTracker)
  : result Expense * ExpenseTracker :=
  match
    match date_arg with
    | None => Ok today
    | Some d => strptime d
    end
  with
  | Raise _ => (Raise ValueError, self)
  | Ok date_obj =>
      match py_float amount_arg with
      | Raise _ => (Raise ValueError, self)
      | Ok amt =>
          let new := mk_Expense (PyStr uuid4) (strftime date_obj)
                       (format_2f amt) (strip category_arg) (strip description_arg) in
          let self1 := mk_ExpenseTracker (data_file self) (expenses self ++ [new]) in
          (Ok new, _append_to_file new self1)
      end
  end.

(** [r[k]] *)
Definition dict_item (r : dict) (k : string) : result value :=
  match dict_get r k with
  | Some v => Ok v
  | None => Raise KeyError
  end.

(** [r.get(k, "").strip()] *)
Definition get_stripped (r : dict) (k : string) : result string :=
  match dict_get r k with
  | Some (PyStr s) => Ok (strip s)
  | Some PyNone => Raise AttributeError
  | None => Ok (strip "")
  end.

(** The loop of [load] over the rows after the header: [acc] is
    [self.expenses] so far.  A row is skipped when reading or converting
    its amount raises, or when parsing its date raises; any other
    exception leaves the loop. *)
Fixpoint load_rows (fieldnames : list string) (rows : list (list string))
    (acc : list Expense) : result unit * list Expense :=
  match rows with
  | [] => (Ok tt, acc)
  | [] :: rows' => load_rows fieldnames rows' acc
  | row :: rows' =>
      let r := DictReader_row fieldnames row in
      match (v <- dict_item r "amount" ;; py_float_value v) with
      | Raise _ => load_rows fieldnames rows' acc
      | Ok amt =>
          match dict_item r "date" with
          | Raise e => (Raise e, acc)
          | Ok date_str =>
              match strptime_value date_str with
              | Raise _ => load_rows fieldnames rows' acc
              | Ok _ =>
                  match
                    i <- dict_item r "id" ;;
                    c <- get_stripped r "category" ;;
                    d <- get_stripped r "description" ;;
                    Ok (mk_Expense i (csv_field date_str) (format_2f amt) c d)
                  with
                  | Raise e => (Raise e, acc)
                  | Ok exp => load_rows fieldnames rows' (acc ++ [exp])
                  end
              end
          end
      end
  end.

(** [load()]: the first row of the file gives the column names. *)
Definition load (self : ExpenseTracker) : result unit * ExpenseTracker :=
  match data_file self with
  | [] => (Ok tt, mk_ExpenseTracker (data_file self) [])
  | fieldnames :: rows =>
      let (r, exps) := load_rows fieldnames rows [] in
      (r, mk_ExpenseTracker (data_file self) exps)
  end.

(** [ExpenseTracker(data_file)] over a file that may not exist yet. *)
Definition init (file : option (list (list string))) : result unit * ExpenseTracker :=
  load (mk_ExpenseTracker (_ensure_file file) []).

(** The filter loop of [list_expenses]: [results] so far. *)
Fixpoint filter_expenses (year_arg month_arg : option Z) (category_arg : option string)
    (l : list Expense) (results : list Expense) : result (list Expense) :=
  match l with
  | [] => Ok results
  | e :: l' =>
      dt <- strptime (date e) ;;
      if match year_arg with Some y => negb (year dt =? y) | None => false end
      then filter_expenses year_arg month_arg category_arg l' results
      else if match month_arg with Some m => negb (month dt =? m) | None => false end
      then filter_expenses year_arg month_arg category_arg l' results
      else if match category_arg with
              | Some c => negb (lower (category e) =? lower c)%string
              | None => false
              end
      then filter_expenses year_arg month_arg category_arg l' results
      else filter_expenses year_arg month_arg category_arg l' (results ++ [e])
  end.

(** [list_expenses(year, month, category, limit)]; [if limit:] holds for
    a limit that is neither [None] nor zero. *)
Definition list_expenses (year_arg month_arg : option Z) (category_arg : option string)
    (limit : option Z) (self : ExpenseTracker) : result (list Expense) :=
  results <- filter_expenses year_arg month_arg category_arg (expenses self) [] ;;
  let results := list_sort String.ltb date true results in
  match limit with
  | Some k => if k =? 0 then Ok results else Ok (slice_to results k)
  | None => Ok results
  end.

(** [v != s] for a [str] [s] *)
Definition ne_str (v : value) (s : string) : bool :=
  match v with
  | PyStr t => negb (t =? s)%string
  | PyNone => true
  end.

(** [delete_expense(expense_id)] *)
Definition delete_expense (expense_id : string) (self : ExpenseTracker)
  : bool * ExpenseTracker :=
  let before := List.length (expenses self) in
  let kept := filter (fun e => ne_str (id e) expense_id) (expenses self) in
  let after := List.length kept in
  if Nat.eqb before after then (false, mk_ExpenseTracker (data_file self) kept)
  else (true, mk_ExpenseTracker (header :: map expense_row kept) kept).

(** ** Monthly report *)

(** The value a category maps to: [{"amount": ..., "count": ...}]. *)
Record vals : Type := mk_vals { vals_amount : float; vals_count : Z }.

(** A report: [{"year", "month", "categories", "total_spent"}];
    [categories] is a [dict], kept in insertion order. *)
Record Report : Type := mk_Report {
  r_year : Z;
  r_month : Z;
  categories : list (string * vals);
  total_spent : float
}.

Definition zero : float := S754_zero false.

(** [totals[cat]["amount"] += amt; totals[cat]["count"] += 1] on the
    [defaultdict]: a new category enters at the end with amount [0.0] and
    count [0] before the update. *)
Fixpoint totals_add (totals : list (string * vals)) (cat : string) (amt : float)
  : list (string * vals) :=
  match totals with
  | [] => [(cat, mk_vals (fadd zero amt) (0 + 1))]
  | (c, v) :: t =>
      if (cat =? c)%string
      then (c, mk_vals (fadd (vals_amount v) amt) (vals_count v + 1)) :: t
      else (c, v) :: totals_add t cat amt
  end.

(** The accumulation loop of [monthly_report]. *)
Fixpoint report_loop (l : list Expense) (totals : list (string * vals))
    (total : float) : result (list (string * vals) * float) :=
  match l with
  | [] => Ok (totals, total)
  | e :: l' =>
      amt <- py_float (amount e) ;;
      report_loop l' (totals_add totals (category e) amt) (fadd total amt)
  end.

Definition round_vals (cv : string * vals) : string * vals :=
  (fst cv, mk_vals (round2 (vals_amount (snd cv))) (vals_count (snd cv))).

(** [monthly_report(year, month)] *)
Definition monthly_report (year_arg month_arg : Z) (self : ExpenseTracker)
  : result Report :=
  l <- list_expenses (Some year_arg) (Some month_arg) None None self ;;
  tt <- report_loop l [] zero ;;
  Ok (mk_Report year_arg month_arg (map round_vals (fst tt)) (round2 (snd tt))).

(** ** Report export *)

Definition csv_row (cv : string * vals) : list string :=
  [fst cv; format_2f (vals_amount (snd cv)); str_int (vals_count (snd cv))].

(** [export_report_csv(report, filename)]: the rows written to the file. *)
Definition export_report_csv (report : Report) : list (list string) :=
  let rows := [["Category"; "Total Amount"; "Count"]] in
  let rows := fold_left (fun rows cv => rows ++ [csv_row cv])%list (categories report) rows in
  let rows := (rows ++ [[]])%list in
  let rows := (rows ++ [["Total"; format_2f (total_spent report); ""]])%list in
  rows.

Definition newline : string := String (chr 10) EmptyString.

Definition rupee : string := "₹".

Definition text_line (cv : string * vals) : string :=
  fst cv ++ ": " ++ rupee ++ format_2f (vals_amount (snd cv))
    ++ " (" ++ str_int (vals_count (snd cv)) ++ " items)".

(** The sort key of the narrative export: [-x[1]["amount"]]. *)
Definition neg_amount (cv : string * vals) : float := fneg (vals_amount (snd cv)).

(** The [lines] of [export_report_text] before they are joined; the
    [datetime] of the title raises [ValueError] outside the calendar. *)
Definition report_lines (report : Report) : result (list string) :=
  dt <- new_datetime (r_year report) (r_month report) 1 ;;
  let month_name := strftime_month_year dt in
  let lines := ["Monthly Report - " ++ month_name; repeat_char "=" 40; ""] in
  match categories report with
  | [] => Ok (lines ++ ["No expenses recorded for this month."])%list
  | _ =>
      let lines :=
        fold_left (fun lines cv => lines ++ [text_line cv])%list
          (list_sort flt neg_amount false (categories report)) lines in
      let lines := (lines ++ [""])%list in
      let total_line := "Total Spent: " ++ rupee ++ format_2f (total_spent report) in
      let lines := (lines ++ [total_line])%list in
      Ok lines
  end.

(** [export_report_text(report, filename)]: the text written to the file. *)
Definition export_report_text (report : Report) : result string :=
  lines <- report_lines report ;;
  Ok (join newline lines).

(** * Vocabulary of the properties *)

Open Scope list_scope.

(** The text parses as a date under ["%Y-%m-%d"]; as a number under [float]. *)
Definition parses_as_date (s : string) : Prop := exists dt, strptime s = Ok dt.

Definition parses_as_number (s : string) : Prop := exists x, py_float s = Ok x.

(** The filters of [list_expenses] on one record: the calendar year and
    month of its parsed date, and its category compared without case; a
    filter that is [None] accepts every record. *)
Definition matches (year_arg month_arg : option Z) (category_arg : option string)
    (e : Expense) : bool :=
  match strptime (date e) with
  | Ok dt =>
      match year_arg with Some y => year dt =? y | None => true end
      && match month_arg with Some m => month dt =? m | None => true end
      && match category_arg with
         | Some c => (lower (category e) =? lower c)%string
         | None => true
         end
  | Raise _ => false
  end.

(** Every record in memory carries a date that [strptime] accepts. *)
Definition dates_parse (l : list Expense) : Prop :=
  Forall (fun e => parses_as_date (date e)) l.

(** [a] stands before [b] in descending order of the date strings. *)
Definition date_descending (a b : Expense) : Prop := String.leb (date b) (date a) = true.

(** [math.isnan(x)] *)
Definition is_nan (x : float) : bool :=
  match x with
  | S754_nan => true
  | _ => false
  end.

(** A float that is not NaN as a point of [Z * Z * Z] in lexicographic
    order: the sign class, then the exponent, then the significand. *)
Definition rank (x : float) : Z * Z * Z :=
  match x with
  | S754_nan => (0, 0, 0)
  | S754_zero _ => (0, 0, 0)
  | S754_infinity s => (if s then -2 else 2, 0, 0)
  | S754_finite s m e => if s then (-1, - e, - Zpos m) else (1, e, Zpos m)
  end.

(** The strict lexicographic order of [Z * Z * Z]. *)
Definition lex_lt (p q : Z * Z * Z) : Prop :=
  let '(a1, b1, c1) := p in
  let '(a2, b2, c2) := q in
  a1 < a2 \/ (a1 = a2 /\ (b1 < b2 \/ (b1 = b2 /\ c1 < c2))).

(** No category amount is NaN. *)
Definition no_nan_amounts (l : list (string * vals)) : Prop :=
  Forall (fun cv => is_nan (vals_amount (snd cv)) = false) l.

(** [a] stands before [b] in descending order of the category amounts. *)
Definition amount_descending (a b : string * vals) : Prop :=
  fle (vals_amount (snd b)) (vals_amount (snd a)) = true.

(** Every character of the text satisfies [p]. *)
Fixpoint all_chars (p : ascii -> bool) (s : string) : bool :=
  match s with
  | String c s' => p c && all_chars p s'
  | EmptyString => true
  end.

(** The value of a run of digits read after the value [a]. *)
Fixpoint horner (s : string) (a : Z) : Z :=
  match s with
  | String c s' => horner s' (10 * a + digit_val c)
  | EmptyString => a
  end.

(** The text starts with a digit, so a run of digits before it goes on. *)
Definition starts_with_digit (s : string) : bool :=
  match s with
  | String c _ => is_digit c
  | EmptyString => false
  end.

(** [math.isfinite(x)] *)
Definition is_finite (x : float) : bool :=
  match x with
  | S754_zero _ | S754_finite _ _ _ => true
  | _ => false
  end.

(** The exact value of a finite binary64 float in units of [2^-1074],
    the spacing of the subnormals: an integer. *)
Definition ulps (x : float) : option Z :=
  match x with
  | S754_zero _ => Some 0
  | S754_finite s m e =>
      if e <? -1074 then None else Some (cond_Zopp s (Zpos m * 2 ^ (e + 1074)))
  | _ => None
  end.

(** [|x - y| <= 0.01] on the exact values of two finite floats. *)
Definition within_cent (x y : float) : bool :=
  match ulps x, ulps y with
  | Some a, Some b => 100 * Z.abs (a - b) <=? 2 ^ 1074
  | _, _ => false
  end.

(** A finite float of the binary64 format: a significand below [2^53] at
    an exponent between those of the subnormals and of the largest floats. *)
Definition representable (x : float) : Prop :=
  match x with
  | S754_zero _ => True
  | S754_finite _ m e => Zpos m < 2 ^ 53 /\ -1074 <= e <= 971
  | _ => False
  end.

(** The magnitude, in units of [2^-1074], that [n / d] is rounded to. *)
Definition rounded_ulps (n d : Z) : Z :=
  let e := ratio_exponent n d in
  div_rne (scaled_num n e) (scaled_den d e) * 2 ^ (e + 1074).

(** Modelled from the spec: the re-parsing of the tabular file, which the
    repository does not contain ("exportTabular(report) followed by re-parsing
    the tabular file reconstructs the same category totals").  The rows
    between the header and the blank row are read as category, amount
    ([float]) and count ([int]); [None] when the rows have another shape. *)
Fixpoint parse_category_rows (rows : list (list string)) : option (list (string * vals)) :=
  match rows with
  | [] :: _ => Some []
  | [cat; amt; cnt] :: rows' =>
      match py_float amt, py_int cnt, parse_category_rows rows' with
      | Ok a, Ok c, Some l => Some ((cat, mk_vals a c) :: l)
      | _, _, _ => None
      end
  | _ => None
  end.

(** The rows of a tabular report read back: the header row, then the
    category rows up to the blank row. *)
Definition parse_report_rows (rows : list (list string)) : option (list (string * vals)) :=
  match rows with
  | ["Category"; "Total Amount"; "Count"] :: rows' => parse_category_rows rows'
  | _ => None
  end.

(** The characters of a [.2f] numeral: digits, minus sign and point. *)
Definition numeric_char (c : ascii) : bool :=
  is_digit c || (code c =? 45) || (code c =? 46).

(** Every category amount is finite. *)
Definition finite_amounts (l : list (string * vals)) : Prop :=
  Forall (fun cv => is_finite (vals_amount (snd cv)) = true) l.

(** The entry [cv'] read back reconstructs the entry [cv] of the report:
    same category, same count, and the same amount or one within 0.01 (an
    infinity and NaN, which are at no distance from anything, read back as
    themselves). *)
Definition reconstructs (cv cv' : string * vals) : Prop :=
  fst cv' = fst cv
  /\ vals_count (snd cv') = vals_count (snd cv)
  /\ (vals_amount (snd cv') = vals_amount (snd cv)
      \/ within_cent (vals_amount (snd cv')) (vals_amount (snd cv)) = true).

(** A numeral with exactly two decimals: an optional minus sign, at least
    one digit, a point and two digits. *)
Definition two_decimals (s : string) : bool :=
  let r := match s with
           | String c r => if code c =? 45 then r else s
           | EmptyString => s
           end in
  match read_digits r 0 0 with
  | (_, k, String p (String d1 (String d2 EmptyString))) =>
      (0 <? k) && (code p =? 46) && is_digit d1 && is_digit d2
  | _ => false
  end.

(** What the code establishes for every record it stores: the date
    parses, and the amount is the [.2f] rendering of some float. *)
Definition well_formed (e : Expense) : Prop :=
  parses_as_date (date e) /\ exists x, amount e = format_2f x.

(** The four digits of a number from 1000 to 9999. *)
Definition pad4 (n : Z) : string :=
  String (digit_chr (n / 1000 mod 10)) (String (digit_chr (n / 100 mod 10)) (pad2 n)).

(** The date that [add_expense] is to store lies in the year 1000 or
    later: the date entered if there is one, today's otherwise. *)
Definition four_digit_year (today : datetime) (date_arg : option string) : Prop :=
  match date_arg with
  | Some d => forall dt, strptime d = Ok dt -> 1000 <= year dt
  | None => 1000 <= year today
  end.

(** The trackers that the public operations produce from any file, when
    no date before the year 1000 is added; [today] is a calendar date. *)
Inductive reachable : ExpenseTracker -> Prop :=
| reachable_init file self :
    init file = (Ok tt, self) -> reachable self
| reachable_load self r self' :
    reachable self -> load self = (r, self') -> reachable self'
| reachable_add self uuid4 today a c d desc r self' :
    reachable self ->
    valid_date (year today) (month today) (day today) = true ->
    four_digit_year today d ->
    add_expense uuid4 today a c d desc self = (r, self') ->
    reachable self'
| reachable_delete self expense_id :
    reachable self -> reachable (snd (delete_expense expense_id self)).

(** ** The delete entry of the menu *)

(** [s.startswith(prefix)] *)
Definition startswith (s prefix : string) : bool := String.prefix prefix s.

(** [[e for e in tracker.expenses if e.id.startswith(eid)]]; an id that is
    [None] has no [startswith] ([AttributeError]). *)
Fixpoint id_matches (eid : string) (l : list Expense) : result (list Expense) :=
  match l with
  | [] => Ok []
  | e :: l' =>
      match id e with
      | PyNone => Raise AttributeError
      | PyStr i =>
          rest <- id_matches eid l' ;;
          Ok (if startswith i eid then e :: rest else rest)
      end
  end.

(** The line printed for each of several matches. *)
Definition match_line (e : Expense) : string :=
  (csv_field (id e) ++ " | " ++ date e ++ " | " ++ category e ++ " | " ++ rupee
     ++ amount e ++ " | " ++ description e)%string.

(** Choice 5 of [main_menu]: [entry] is the line read for the id and
    [answer] the line read for the confirmation, when the menu asks for
    it.  The result is the list of lines that [print] writes (the prompts
    of [input] are not part of it) and the tracker afterwards. *)
Definition menu_delete (entry answer : string) (tracker : ExpenseTracker)
  : result (list string) * ExpenseTracker :=
  let eid := strip entry in
  match eid with
  | EmptyString => (Ok ["No id entered."], tracker)
  | _ =>
      match id_matches eid (expenses tracker) with
      | Raise e => (Raise e, tracker)
      | Ok [] => (Ok ["No expense found with that id prefix."], tracker)
      | Ok [m] =>
          let confirm := lower (strip answer) in
          if (confirm =? "y")%string then
            let (ok, tracker') := delete_expense (csv_field (id m)) tracker in
            if ok then (Ok ["Deleted."], tracker')
            else (Ok ["Failed to delete."], tracker')
          else (Ok ["Aborted."], tracker)
      | Ok matches =>
          (Ok ("Multiple matches found. Be more specific." :: map match_line matches),
           tracker)
      end
  end.

(** ** Vocabulary of the further properties *)

(** Memory and file agree: the file is the header row followed by the
    rows of the records in memory, in their order. *)
Definition in_sync (self : ExpenseTracker) : Prop :=
  data_file self = header :: map expense_row (expenses self).

(** A record that [load] reads back from its own row unchanged. *)
Definition storable (e : Expense) : Prop :=
  (exists i, id e = PyStr i)
  /\ parses_as_date (date e)
  /\ (exists x, py_float (amount e) = Ok x /\ format_2f x = amount e)
  /\ strip (category e) = category e
  /\ strip (description e) = description e.

(** The field size limit of the [csv] module: the reader refuses a field
    with more characters. *)
Definition field_size_limit : Z := 131072.

Definition within_field_size (s : string) : Prop :=
  Z.of_nat (String.length s) <= field_size_limit.

(** The trackers made from a new file by the public operations, when no
    date before the year 1000 is added and the ids, categories and
    descriptions added are fields that the [csv] reader accepts; [today] is
    a calendar date. *)
Inductive built : ExpenseTracker -> Prop :=
| built_new : built (snd (init None))
| built_load self : built self -> built (snd (load self))
| built_add self uuid4 today a c d desc :
    built self ->
    valid_date (year today) (month today) (day today) = true ->
    four_digit_year today d ->
    within_field_size uuid4 ->
    within_field_size (strip c) -> within_field_size (strip desc) ->
    built (snd (add_expense uuid4 today a c d desc self))
| built_delete self expense_id :
    built self -> built (snd (delete_expense expense_id self)).

(** The record that [load] makes of a row under the standard header, if
    it keeps the row: the row has the five fields, its amount and its date
    parse. *)
Definition row_expense (row : list string) : option Expense :=
  match row with
  | i :: d :: a :: c :: desc :: _ =>
      match py_float a, strptime d with
      | Ok amt, Ok _ => Some (mk_Expense (PyStr i) d (format_2f amt) (strip c) (strip desc))
      | _, _ => None
      end
  | _ => None
  end.

Definition kept_rows (rows : list (list string)) : list Expense :=
  flat_map (fun row => match row_expense row with Some e => [e] | None => [] end) rows.

(** The sum of the counts of a report's categories. *)
Definition sum_counts (l : list (string * vals)) : Z :=
  fold_right (fun cv n => vals_count (snd cv) + n) 0 l.

(** The number of records of [l] in the category [c]. *)
Definition count_cat (c : string) (l : list Expense) : Z :=
  Z.of_nat (List.length (filter (fun e => (category e =? c)%string) l)).

(** The count that a [totals] dict holds for a category; [0] when the
    category is not a key. *)
Definition count_of (totals : list (string * vals)) (c : string) : Z :=
  match find (fun cv => (fst cv =? c)%string) totals with
  | Some cv => vals_count (snd cv)
  | None => 0
  end.

(** A row of three or four fields whose amount and date parse: [load]
    gets as far as its category or description, which [DictReader] left
    at [None]. *)
Definition truncated (row : list string) : bool :=
  match row with
  | [_; d; a] | [_; d; a; _] =>
      match py_float a, strptime d with
      | Ok _, Ok _ => true
      | _, _ => false
      end
  | _ => false
  end.

(** The rows before the first truncated one. *)
Fixpoint before_truncated (rows : list (list string)) : list (list string) :=
  match rows with
  | [] => []
  | row :: rows' => if truncated row then [] else row :: before_truncated rows'
  end.

(** * Properties *)

(** ** The library model on examples *)

Example strptime_ok : strptime "2024-03-05" = Ok (mk_datetime 2024 3 5).
Proof. reflexivity. Qed.
Example strptime_short : strptime "2024-3- 5" = Ok (mk_datetime 2024 3 5).
Proof. reflexivity. Qed.
Example strptime_13 : strptime "2024-13-01" = Raise ValueError.
Proof. reflexivity. Qed.
Example strptime_feb : strptime "2023-02-29" = Raise ValueError.
Proof. reflexivity. Qed.
Example strftime_ok : strftime (mk_datetime 2024 3 5) = "2024-03-05".
Proof. reflexivity. Qed.
Example strftime_999 :
  strptime "0999-01-01" = Ok (mk_datetime 999 1 1)
  /\ strftime (mk_datetime 999 1 1) = "999-01-01"
  /\ strptime "999-01-01" = Raise ValueError
  /\ strftime_month_year (mk_datetime 999 3 1) = "March 999".
Proof. repeat split. Qed.
Example new_datetime_errors :
  new_datetime 2024 13 1 = Raise ValueError
  /\ new_datetime 0 1 1 = Raise ValueError
  /\ new_datetime (2 ^ 31 - 1) 1 1 = Raise ValueError
  /\ new_datetime (2 ^ 31) 13 1 = Raise OverflowError
  /\ new_datetime 2024 (- 2 ^ 31 - 1) 1 = Raise OverflowError.
Proof. repeat split. Qed.

Example py_float_50_005 :
  py_float "50.005" = Ok (S754_finite false 7037578105208177 (-47)).
Proof. vm_compute. reflexivity. Qed.
Example format_50_005 :
  (x <- py_float "50.005" ;; Ok (format_2f x)) = Ok "50.01".
Proof. vm_compute. reflexivity. Qed.
Example format_2_675 : (x <- py_float "2.675" ;; Ok (format_2f x)) = Ok "2.67".
Proof. vm_compute. reflexivity. Qed.
Example format_big : (x <- py_float " 1e22 " ;; Ok (format_2f x)) = Ok "10000000000000000000000.00".
Proof. vm_compute. reflexivity. Qed.
Example format_neg_small : (x <- py_float "-0.001" ;; Ok (format_2f x)) = Ok "-0.00".
Proof. vm_compute. reflexivity. Qed.
Example py_float_abc : py_float "abc" = Raise ValueError.
Proof. reflexivity. Qed.
Example py_float_nan : py_float "NaN" = Ok S754_nan.
Proof. reflexivity. Qed.
Example py_float_underscore : py_float "1_0.5" = py_float "10.5" /\ py_float "1__0" = Raise ValueError
  /\ py_float "1_" = Raise ValueError /\ py_float "1e" = Raise ValueError /\ py_float "." = Raise ValueError
  /\ py_float "1e400" = Ok (S754_infinity false) /\ py_float ".5" = py_float "5e-1"
  /\ py_float "1e-400" = Ok (S754_zero false)
  /\ py_float "4.9e-324" = Ok (S754_finite false 1 (-1074))
  /\ py_float "2.4703282292062328e-324" = Ok (S754_finite false 1 (-1074))
  /\ py_float "2.4703282292062327e-324" = Ok (S754_zero false)
  /\ py_float "1.7976931348623157e308" = Ok (S754_finite false 9007199254740991 971)
  /\ py_float "1.7976931348623158e308" = Ok (S754_finite false 9007199254740991 971)
  /\ py_float "1.7976931348623159e308" = Ok (S754_infinity false)
  /\ py_float "9007199254740993" = Ok (S754_finite false 4503599627370496 1).
Proof. vm_compute. repeat split. Qed.

Example rupee_bytes : String.length rupee = 3%nat.
Proof. reflexivity. Qed.

(** ** Calendar dates *)

Lemma valid_date_bounds (y m d : Z) :
  valid_date y m d = true -> 1 <= y <= 9999 /\ 1 <= m <= 12 /\ 1 <= d <= 31.
Proof.
  unfold valid_date, days_in_month. intros H.
  repeat (apply andb_prop in H; destruct H as [H ?]).
  repeat match goal with H : context [if ?b then _ else _] |- _ => destruct b end; lia.
Qed.

Lemma new_datetime_valid (y m d : Z) :
  valid_date y m d = true -> new_datetime y m d = Ok (mk_datetime y m d).
Proof.
  intros H. unfold new_datetime. rewrite H.
  apply valid_date_bounds in H.
  assert (E : forall n, 1 <= n <= 9999 -> c_int n = true).
  { intros n Hn. unfold c_int. apply andb_true_intro. split; [ apply Z.leb_le | apply Z.ltb_lt ]; lia. }
  rewrite !E by lia. reflexivity.
Qed.

Lemma new_datetime_inv (y m d : Z) (dt : datetime) :
  new_datetime y m d = Ok dt -> dt = mk_datetime y m d /\ valid_date y m d = true.
Proof.
  unfold new_datetime. destruct (c_int y && c_int m && c_int d); [ | discriminate ].
  destruct (valid_date y m d); [ | discriminate ].
  intros H. injection H as <-. now split.
Qed.

(** ** Adding an expense *)

(** C1: a call of [add_expense] whose date does not parse as YYYY-MM-DD, or
    whose amount does not parse as a number, raises the tracker's
    validation error ([ValueError]) and leaves the list in memory and the
    backing file exactly as they were. *)
Theorem add_expense_rejects_malformed :
  forall uuid4 today amount_arg category_arg date_arg description_arg self,
    (exists d, date_arg = Some d /\ ~ parses_as_date d)
    \/ ~ parses_as_number amount_arg ->
    add_expense uuid4 today amount_arg category_arg date_arg description_arg self
    = (Raise ValueError, self).
Proof.
  intros uuid4 today amount_arg category_arg date_arg description_arg self H.
  unfold add_expense.
  destruct H as [[d [-> Hd]] | Ha].
  - destruct (strptime d) as [dt | e] eqn:E; [ | reflexivity ].
    exfalso. apply Hd. exists dt. exact E.
  - destruct (match date_arg with None => Ok today | Some d => strptime d end);
      [ | reflexivity ].
    destruct (py_float amount_arg) as [x | e] eqn:E; [ | reflexivity ].
    exfalso. apply Ha. exists x. exact E.
Qed.

Lemma add_expense_rejects_malformed_witness :
  let self := mk_ExpenseTracker [header] [] in
  add_expense "u1" (mk_datetime 2026 11 3) "12.50" "Food" (Some "2024-13-01") "" self
  = (Raise ValueError, self)
  /\ add_expense "u1" (mk_datetime 2026 11 3) "abc" "Food" None "" self
     = (Raise ValueError, self).
Proof.
  split; apply add_expense_rejects_malformed.
  - left. exists "2024-13-01". split; [ reflexivity | ].
    intros [dt H]. vm_compute in H. discriminate H.
  - right. intros [x H]. vm_compute in H. discriminate H.
Defined.

(** ** Filtering by id *)

Lemma filter_length_eq {A : Type} (f : A -> bool) (l : list A) :
  List.length (filter f l) = List.length l -> filter f l = l.
Proof.
  induction l as [ | a l IH ]; simpl; intros H; [ reflexivity | ].
  destruct (f a); simpl in H.
  - f_equal. apply IH. lia.
  - pose proof (filter_length_le f l). lia.
Qed.

Lemma ne_str_false (v : value) (s : string) : ne_str v s = false <-> v = PyStr s.
Proof.
  destruct v as [ | t ]; simpl.
  - split; discriminate.
  - rewrite negb_false_iff, String.eqb_eq. split; congruence.
Qed.

(** ** Sorting *)

Lemma Forall_perm {A : Type} (P : A -> Prop) (l l' : list A) :
  Permutation l l' -> Forall P l -> Forall P l'.
Proof. intros Hp Hf. eapply Permutation_Forall; eassumption. Qed.

Section SortFacts.
Context {A K : Type}.
Variable lt : K -> K -> bool.
Variable key : A -> K.
(** The elements whose keys [lt] orders: asymmetric, and "not below" is
    transitive (a strict weak order on their keys). *)
Variable D : A -> Prop.
Hypothesis lt_asym :
  forall x y, D x -> D y -> lt (key x) (key y) = true -> lt (key y) (key x) = false.
Hypothesis not_lt_trans :
  forall x y z, D x -> D y -> D z ->
    lt (key y) (key x) = false -> lt (key z) (key y) = false ->
    lt (key z) (key x) = false.

Lemma insert_perm (x : A) (l : list A) : Permutation (insert lt key x l) (x :: l).
Proof.
  induction l as [ | y l IH ]; simpl; [ reflexivity | ].
  destruct (lt (key y) (key x)); [ | reflexivity ].
  rewrite IH. apply perm_swap.
Qed.

Lemma sort_stable_perm (l : list A) : Permutation (sort_stable lt key l) l.
Proof.
  induction l as [ | x l IH ]; simpl; [ reflexivity | ].
  rewrite insert_perm. now apply perm_skip.
Qed.

Lemma list_sort_perm (reverse : bool) (l : list A) :
  Permutation (list_sort lt key reverse l) l.
Proof.
  unfold list_sort. destruct reverse; [ | apply sort_stable_perm ].
  rewrite <- Permutation_rev, sort_stable_perm. symmetry. apply Permutation_rev.
Qed.

Lemma insert_sorted (x : A) (l : list A) :
  D x -> Forall D l ->
  StronglySorted (ascending lt key) l -> StronglySorted (ascending lt key) (insert lt key x l).
Proof.
  intros Dx Dl Hs. induction Hs as [ | y l Hs IH Hy ]; simpl.
  - constructor; constructor.
  - inversion Dl as [ | y' l' Dy Dl' ]; subst.
    destruct (lt (key y) (key x)) eqn:E.
    + constructor; [ now apply IH | ].
      apply (Forall_perm _ (x :: l)).
      * symmetry. apply insert_perm.
      * constructor; [ now apply lt_asym | exact Hy ].
    + constructor; [ now constructor | ].
      constructor; [ exact E | ].
      rewrite Forall_forall in *. intros z Hz.
      apply (not_lt_trans x y z); auto. now apply Hy.
Qed.

Lemma sort_stable_sorted (l : list A) :
  Forall D l -> StronglySorted (ascending lt key) (sort_stable lt key l).
Proof.
  induction l as [ | x l IH ]; simpl; intros Dl; [ constructor | ].
  inversion Dl; subst. apply insert_sorted; auto.
  apply (Forall_perm _ l); [ | assumption ].
  symmetry. apply sort_stable_perm.
Qed.

Lemma StronglySorted_snoc (R : A -> A -> Prop) (l : list A) (a : A) :
  StronglySorted R l -> Forall (fun x => R x a) l -> StronglySorted R (l ++ [a]).
Proof.
  induction 1 as [ | x l Hs IH Hx ]; simpl; intros Ha.
  - constructor; constructor.
  - inversion Ha; subst. constructor; [ now apply IH | ].
    apply Forall_app. split; [ exact Hx | now constructor ].
Qed.

Lemma StronglySorted_rev (R : A -> A -> Prop) (l : list A) :
  StronglySorted R l -> StronglySorted (fun a b => R b a) (rev l).
Proof.
  induction 1 as [ | x l Hs IH Hx ]; simpl; [ constructor | ].
  apply StronglySorted_snoc; [ exact IH | ].
  apply Forall_rev. exact Hx.
Qed.

(** A reversed sort leaves the list in descending order of the keys. *)
Lemma list_sort_reverse_sorted (l : list A) :
  Forall D l -> StronglySorted (descending lt key) (list_sort lt key true l).
Proof.
  intros Dl. unfold list_sort.
  apply (StronglySorted_rev (ascending lt key)). apply sort_stable_sorted.
  now apply Forall_rev.
Qed.

Lemma list_sort_sorted (l : list A) :
  Forall D l -> StronglySorted (ascending lt key) (list_sort lt key false l).
Proof. apply sort_stable_sorted. Qed.
End SortFacts.

(** The order of [str]: [String.ltb] is a strict total order. *)
Lemma string_compare_trans_le (a b c : string) :
  String.compare a b <> Gt -> String.compare b c <> Gt -> String.compare a c <> Gt.
Proof.
  revert b c. induction a as [ | x a IH ]; intros [ | y b ] [ | z c ]; simpl;
    try congruence.
  unfold Ascii.compare.
  destruct (N.compare_spec (N_of_ascii x) (N_of_ascii y)) as [Exy | Lxy | Gxy];
    destruct (N.compare_spec (N_of_ascii y) (N_of_ascii z)) as [Eyz | Lyz | Gyz];
    destruct (N.compare_spec (N_of_ascii x) (N_of_ascii z)) as [Exz | Lxz | Gxz];
    try congruence; try lia.
  apply IH.
Qed.

Lemma string_ltb_asym (a b : string) : String.ltb a b = true -> String.ltb b a = false.
Proof.
  unfold String.ltb. rewrite (String.compare_antisym b a).
  destruct (String.compare a b); simpl; congruence.
Qed.

Lemma string_ltb_false_iff (a b : string) :
  String.ltb a b = false <-> String.leb b a = true.
Proof.
  unfold String.ltb, String.leb. rewrite (String.compare_antisym b a).
  destruct (String.compare a b); simpl; split; congruence.
Qed.

Lemma string_not_ltb_trans (a b c : string) :
  String.ltb b a = false -> String.ltb c b = false -> String.ltb c a = false.
Proof.
  rewrite !string_ltb_false_iff. unfold String.leb.
  pose proof (string_compare_trans_le a b c) as H.
  destruct (String.compare a b), (String.compare b c), (String.compare a c);
    try congruence; intros; exfalso; apply H; congruence.
Qed.

(** ** Listing expenses *)

Lemma filter_expenses_spec (y m : option Z) (c : option string) (l results : list Expense) :
  dates_parse l ->
  filter_expenses y m c l results = Ok (results ++ filter (matches y m c) l).
Proof.
  revert results. induction l as [ | e l IH ]; intros results Hl; simpl.
  - now rewrite app_nil_r.
  - inversion Hl as [ | e' l' [dt He] Hl' ]; subst.
    unfold matches at 1. rewrite He. simpl.
    destruct (match y with Some y0 => year dt =? y0 | None => true end) eqn:Ey.
    + destruct (match m with Some m0 => month dt =? m0 | None => true end) eqn:Em.
      * destruct (match c with
                  | Some c0 => (lower (category e) =? lower c0)%string
                  | None => true
                  end) eqn:Ec.
        -- destruct y, m, c; simpl; rewrite ?Ey, ?Em, ?Ec; simpl;
             rewrite (IH _ Hl'), <- app_assoc; reflexivity.
        -- destruct y, m, c; simpl; rewrite ?Ey, ?Em, ?Ec; simpl;
             try discriminate; rewrite (IH _ Hl'); reflexivity.
      * destruct y, m; simpl; rewrite ?Ey, ?Em; simpl;
          try discriminate; rewrite (IH _ Hl'); reflexivity.
    + destruct y; simpl; rewrite ?Ey; simpl;
        try discriminate; rewrite (IH _ Hl'); reflexivity.
Qed.

Lemma sort_by_date_sorted (l : list Expense) :
  StronglySorted date_descending (list_sort String.ltb date true l).
Proof.
  assert (H : StronglySorted (descending String.ltb date) (list_sort String.ltb date true l)).
  { apply (list_sort_reverse_sorted String.ltb date (fun _ => True)).
    - intros x y _ _. apply string_ltb_asym.
    - intros x y z _ _ _. apply string_not_ltb_trans.
    - apply Forall_forall. trivial. }
  revert H. generalize (list_sort String.ltb date true l). intros l'.
  induction 1 as [ | a l0 Hs IH Ha ]; constructor; [ exact IH | ].
  rewrite Forall_forall in *. intros b Hb. unfold date_descending.
  apply string_ltb_false_iff. now apply Ha.
Qed.

(** C3: over records whose dates parse, [list_expenses] without a limit
    returns exactly the records that pass the year, month and category
    filters (each as often as it is stored), in descending order of the date
    strings; an empty store gives the empty list, and no error is raised. *)
Theorem list_expenses_spec :
  forall year_arg month_arg category_arg self,
    dates_parse (expenses self) ->
    exists l,
      list_expenses year_arg month_arg category_arg None self = Ok l
      /\ Permutation l (filter (matches year_arg month_arg category_arg) (expenses self))
      /\ (forall e, In e l <->
                    In e (expenses self)
                    /\ matches year_arg month_arg category_arg e = true)
      /\ StronglySorted date_descending l
      /\ (expenses self = [] -> l = []).
Proof.
  intros y m c self Hd. unfold list_expenses.
  rewrite (filter_expenses_spec y m c _ [] Hd). simpl.
  eexists. split; [ reflexivity | ].
  assert (Hp : Permutation (list_sort String.ltb date true (filter (matches y m c) (expenses self)))
                 (filter (matches y m c) (expenses self))) by apply list_sort_perm.
  split; [ exact Hp | split; [ | split ] ].
  - intros e. rewrite <- filter_In. split; intros H.
    + now apply (Permutation_in _ Hp).
    + now apply (Permutation_in _ (Permutation_sym Hp)).
  - apply sort_by_date_sorted.
  - intros ->. reflexivity.
Qed.

Lemma list_expenses_spec_witness :
  let e1 := mk_Expense (PyStr "u1") "2024-03-01" "100.00" "Food" "" in
  let e2 := mk_Expense (PyStr "u2") "2024-03-15" "50.01" "food" "" in
  let e3 := mk_Expense (PyStr "u3") "2024-04-07" "20.00" "Food" "" in
  let e4 := mk_Expense (PyStr "u4") "2024-03-09" "7.00" "Transport" "" in
  let self := mk_ExpenseTracker (header :: map expense_row [e1; e2; e3; e4]) [e1; e2; e3; e4] in
  exists l,
    list_expenses (Some 2024) (Some 3) (Some "FOOD") None self = Ok l
    /\ Permutation l [e1; e2]
    /\ (forall e, In e l <->
                  In e (expenses self)
                  /\ matches (Some 2024) (Some 3) (Some "FOOD") e = true)
    /\ StronglySorted date_descending l
    /\ (expenses self = [] -> l = []).
Proof.
  intros e1 e2 e3 e4 self.
  apply (list_expenses_spec (Some 2024) (Some 3) (Some "FOOD") self).
  repeat constructor; eexists; vm_compute; reflexivity.
Defined.

(** C6: the limit [0] is taken for no limit ([if limit:]), so the call
    returns the whole sorted list where the first [0] elements, none, were
    asked for; the filters test [is not None]. *)
Theorem list_expenses_limit_zero :
  let e1 := mk_Expense (PyStr "u1") "2024-03-01" "100.00" "Food" "" in
  let e2 := mk_Expense (PyStr "u2") "2024-03-15" "50.01" "Food" "" in
  let self := mk_ExpenseTracker (header :: map expense_row [e1; e2]) [e1; e2] in
  list_expenses None None None (Some 0) self = Ok [e2; e1]
  /\ list_expenses None None None (Some 1) self = Ok [e2].
Proof. vm_compute. split; reflexivity. Qed.

(** A limit other than zero cuts the sorted list as the slice [[:limit]]
    does: to its first [limit] elements when the limit is positive. *)
Lemma list_expenses_positive_limit :
  forall year_arg month_arg category_arg k self l,
    0 < k ->
    list_expenses year_arg month_arg category_arg None self = Ok l ->
    list_expenses year_arg month_arg category_arg (Some k) self
    = Ok (firstn (Z.to_nat k) l).
Proof.
  intros y m c k self l Hk. unfold list_expenses.
  destruct (filter_expenses y m c (expenses self) []) as [res | e]; simpl;
    [ | discriminate ].
  intros H. injection H as <-.
  destruct (Z.eqb_spec k 0) as [-> | _]; [ lia | ].
  unfold slice_to. destruct (Z.ltb_spec k 0); [ lia | reflexivity ].
Qed.

(** ** Loading the file *)

(** C5: a row with a valid date and amount but fewer fields than the
    header makes [load] raise [AttributeError] ([DictReader] maps the
    missing category to [None], and [r.get("category", "")] returns that
    [None]); the rows after it are not loaded. *)
Theorem load_short_row_raises :
  let file := [header; ["x1"; "2024-03-01"; "10"];
               ["x2"; "2024-03-02"; "5.5"; "Food"; "lunch"]] in
  load (mk_ExpenseTracker file []) = (Raise AttributeError, mk_ExpenseTracker file []).
Proof. vm_compute. reflexivity. Qed.

(** Rows whose amount or date does not parse are skipped, and a full row
    that parses is loaded. *)
Example load_skips_bad_rows :
  let file := [header; ["x1"; "2024-03-01"; "abc"; "Food"; ""];
               ["x2"; "2024-13-01"; "5.5"; "Food"; ""];
               ["x3"; "2024-03-02"; " 5.5 "; " Food "; "lunch"]] in
  load (mk_ExpenseTracker file [])
  = (Ok tt, mk_ExpenseTracker file [mk_Expense (PyStr "x3") "2024-03-02" "5.50" "Food" "lunch"]).
Proof. vm_compute. reflexivity. Qed.

(** ** The rows of the tabular export *)

Lemma fold_left_snoc {A B : Type} (f : A -> B) (l : list A) (init : list B) :
  fold_left (fun acc x => acc ++ [f x]) l init = init ++ map f l.
Proof.
  revert init. induction l as [ | x l IH ]; intros init; simpl.
  - now rewrite app_nil_r.
  - rewrite IH, <- app_assoc. reflexivity.
Qed.

Lemma export_report_csv_rows (report : Report) :
  export_report_csv report
  = ["Category"; "Total Amount"; "Count"]
      :: map csv_row (categories report)
      ++ [[]; ["Total"; format_2f (total_spent report); ""]].
Proof.
  unfold export_report_csv. rewrite fold_left_snoc. simpl.
  rewrite <- app_assoc. reflexivity.
Qed.

(** ** The order of floats *)

Lemma SFcompare_rank (x y : float) :
  is_nan x = false -> is_nan y = false ->
  (SFcompare x y = Some Lt <-> lex_lt (rank x) (rank y))
  /\ (SFcompare x y = Some Gt <-> lex_lt (rank y) (rank x)).
Proof.
  intros Hx Hy.
  destruct x as [sx | sx | | sx mx ex], y as [sy | sy | | sy my ey];
    try discriminate; unfold rank, lex_lt; simpl;
    try (destruct sx); try (destruct sy); simpl;
    try change (Pos.compare_cont Eq mx my) with (Pos.compare mx my);
    try (destruct (Z.compare_spec ex ey) as [E | L | G]);
    try (destruct (Pos.compare_spec mx my) as [E' | L' | G']); simpl;
    split; split; intros H;
    try discriminate H; try reflexivity; try (exfalso; lia); try lia.
Qed.

Lemma flt_rank (x y : float) :
  is_nan x = false -> is_nan y = false ->
  (flt x y = true <-> lex_lt (rank x) (rank y)).
Proof.
  intros Hx Hy. destruct (SFcompare_rank x y Hx Hy) as [H _].
  rewrite <- H. unfold flt, SFltb.
  destruct (SFcompare x y) as [[ | | ] | ]; split; congruence.
Qed.

Lemma fle_rank (x y : float) :
  is_nan x = false -> is_nan y = false ->
  (fle x y = true <-> ~ lex_lt (rank y) (rank x)).
Proof.
  intros Hx Hy. destruct (SFcompare_rank x y Hx Hy) as [_ H].
  rewrite <- H. unfold fle, SFleb.
  destruct x, y; try discriminate; simpl;
    repeat match goal with |- context [if ?b then _ else _] => destruct b end;
    repeat match goal with |- context [match ?c with Eq => _ | Lt => _ | Gt => _ end] =>
                             destruct c end;
    split; congruence.
Qed.

Lemma rank_fneg (x : float) :
  rank (fneg x) = (let '(a, b, c) := rank x in (- a, - b, - c)).
Proof.
  destruct x as [s | s | | s m e]; simpl; try reflexivity; destruct s; simpl;
    rewrite ?Z.opp_involutive; reflexivity.
Qed.

Lemma is_nan_fneg (x : float) : is_nan (fneg x) = is_nan x.
Proof. destruct x; reflexivity. Qed.

Lemma lex_lt_opp (p q : Z * Z * Z) :
  lex_lt (let '(a, b, c) := p in (- a, - b, - c)) (let '(a, b, c) := q in (- a, - b, - c))
  <-> lex_lt q p.
Proof. destruct p as [[a1 b1] c1], q as [[a2 b2] c2]. simpl. lia. Qed.

Lemma lex_lt_asym (p q : Z * Z * Z) : lex_lt p q -> ~ lex_lt q p.
Proof. destruct p as [[a1 b1] c1], q as [[a2 b2] c2]. simpl. lia. Qed.

Lemma lex_not_lt_trans (p q r : Z * Z * Z) :
  ~ lex_lt q p -> ~ lex_lt r q -> ~ lex_lt r p.
Proof. destruct p as [[a1 b1] c1], q as [[a2 b2] c2], r as [[a3 b3] c3]. simpl. lia. Qed.

(** ** Sorting the categories by amount *)

Lemma sort_by_neg_amount_sorted (l : list (string * vals)) :
  no_nan_amounts l ->
  StronglySorted amount_descending (list_sort flt neg_amount false l).
Proof.
  intros Hl.
  assert (H : StronglySorted (ascending flt neg_amount) (list_sort flt neg_amount false l)).
  { apply (list_sort_sorted flt neg_amount
             (fun cv => is_nan (vals_amount (snd cv)) = false)); [ | | exact Hl ].
    - intros x y Dx Dy. unfold neg_amount. intros H.
      apply flt_rank in H; rewrite ?is_nan_fneg; auto.
      destruct (flt (fneg (vals_amount (snd y))) (fneg (vals_amount (snd x)))) eqn:E;
        [ | reflexivity ].
      apply flt_rank in E; rewrite ?is_nan_fneg; auto.
      exfalso. exact (lex_lt_asym _ _ H E).
    - intros x y z Dx Dy Dz. unfold neg_amount. intros H1 H2.
      destruct (flt (fneg (vals_amount (snd z))) (fneg (vals_amount (snd x)))) eqn:E;
        [ | reflexivity ].
      apply flt_rank in E; rewrite ?is_nan_fneg; auto.
      exfalso. revert E. apply (lex_not_lt_trans _ (rank (fneg (vals_amount (snd y))))).
      + intros H. apply flt_rank in H; rewrite ?is_nan_fneg; auto. congruence.
      + intros H. apply flt_rank in H; rewrite ?is_nan_fneg; auto. congruence. }
  assert (Hd : no_nan_amounts (list_sort flt neg_amount false l)).
  { apply (Forall_perm _ l); [ | exact Hl ]. symmetry. apply list_sort_perm. }
  revert H Hd. generalize (list_sort flt neg_amount false l). intros l'.
  induction 1 as [ | a l0 Hs IH Ha ]; intros Hd; constructor.
  - apply IH. now inversion Hd.
  - inversion Hd as [ | a' l0' Da Dl0 ]; subst.
    rewrite Forall_forall in *. intros b Hb.
    specialize (Ha b Hb). specialize (Dl0 b Hb). simpl in Da, Dl0.
    unfold ascending, neg_amount in Ha. unfold amount_descending.
    apply fle_rank; auto. intros H.
    assert (E : flt (fneg (vals_amount (snd b))) (fneg (vals_amount (snd a))) = true).
    { apply flt_rank; rewrite ?is_nan_fneg; auto.
      rewrite !rank_fneg. apply lex_lt_opp. exact H. }
    congruence.
Qed.

(** ** Digits and dates: printing and parsing agree *)

Lemma code_chr (n : Z) : 0 <= n < 256 -> code (chr n) = n.
Proof.
  intros H. unfold code, chr. rewrite N_ascii_embedding; lia.
Qed.

Lemma code_digit_chr (d : Z) : 0 <= d <= 9 -> code (digit_chr d) = 48 + d.
Proof. intros H. unfold digit_chr. apply code_chr. lia. Qed.

Lemma is_digit_digit_chr (d : Z) : 0 <= d <= 9 -> is_digit (digit_chr d) = true.
Proof.
  intros H. unfold is_digit. rewrite code_digit_chr by exact H.
  apply andb_true_iff. split; apply Z.leb_le; lia.
Qed.

Lemma digit_val_digit_chr (d : Z) : 0 <= d <= 9 -> digit_val (digit_chr d) = d.
Proof. intros H. unfold digit_val. rewrite code_digit_chr by exact H. lia. Qed.

Lemma strptime_valid (s : string) (dt : datetime) :
  strptime s = Ok dt -> valid_date (year dt) (month dt) (day dt) = true.
Proof.
  unfold strptime.
  destruct (re_date s) as [[[[y m] d] [ | c r]] | ]; try discriminate.
  intros H. apply new_datetime_inv in H. destruct H as [-> H]. exact H.
Qed.

Lemma re_month_pad2 (m : Z) (r : string) (B : Type) (k : Z * string -> option B) (b : B) :
  1 <= m <= 12 ->
  k (m, r) = Some b ->
  first_match (re_month (pad2 m ++ String "-" r)%string)
    (fun '(m', r2) =>
       match r2 with
       | String sep2 r3 => if code sep2 =? 45 then k (m', r3) else None
       | EmptyString => None
       end)
  = Some b.
Proof.
  intros H Hk.
  assert (E : m = 1 \/ m = 2 \/ m = 3 \/ m = 4 \/ m = 5 \/ m = 6 \/ m = 7 \/ m = 8
              \/ m = 9 \/ m = 10 \/ m = 11 \/ m = 12) by lia.
  repeat (destruct E as [-> | E]); try subst m;
    cbv - [first_match]; cbn [first_match]; rewrite Hk; reflexivity.
Qed.

Lemma re_day_pad2 (d : Z) :
  1 <= d <= 31 -> hd_error (re_day (pad2 d)) = Some (d, EmptyString).
Proof.
  intros H.
  assert (E : exists n : nat, (n < 31)%nat /\ d = 1 + Z.of_nat n).
  { exists (Z.to_nat (d - 1)). lia. }
  destruct E as [n [Hn ->]].
  do 31 (destruct n as [ | n ]; [ reflexivity | ]). lia.
Qed.

Lemma first_match_hd {A B : Type} (alts : list A) (a : A) (k : A -> option B) (b : B) :
  hd_error alts = Some a -> k a = Some b -> first_match alts k = Some b.
Proof.
  destruct alts as [ | a' alts ]; simpl; [ discriminate | ].
  intros H. injection H as ->. intros ->. reflexivity.
Qed.

Lemma digits_acc_last (fuel : nat) (n : Z) (acc : string) :
  n < 10 -> digits_acc (S fuel) n acc = String (digit_chr (n mod 10)) acc.
Proof.
  intros H. cbn [digits_acc]. destruct (Z.ltb_spec n 10); [ reflexivity | lia ].
Qed.

Lemma digits_acc_step (fuel : nat) (n : Z) (acc : string) :
  10 <= n ->
  digits_acc (S fuel) n acc = digits_acc fuel (n / 10) (String (digit_chr (n mod 10)) acc).
Proof.
  intros H. cbn [digits_acc]. destruct (Z.ltb_spec n 10); [ lia | reflexivity ].
Qed.

Lemma digits_fuel (n : Z) (k : nat) :
  2 ^ Z.of_nat k <= n -> exists f, S (Z.to_nat (Z.log2 n)) = S (k + f).
Proof.
  intros H.
  assert (L : Z.of_nat k <= Z.log2 n).
  { apply Z.log2_le_pow2; [ | exact H ].
    pose proof (Z.pow_pos_nonneg 2 (Z.of_nat k)). lia. }
  exists (Z.to_nat (Z.log2 n) - k)%nat. lia.
Qed.

(** The numerals of the years: four digits from 1000 on, fewer below. *)
Lemma str_int_year (y : Z) :
  1 <= y <= 9999 ->
  str_int y
  = if y <? 10 then String (digit_chr (y mod 10)) EmptyString
    else if y <? 100 then pad2 y
    else if y <? 1000 then String (digit_chr (y / 100 mod 10)) (pad2 y)
    else pad4 y.
Proof.
  intros H. unfold str_int, digits, pad4, pad2.
  destruct (Z.ltb_spec y 0); [ lia | ].
  destruct (Z.ltb_spec y 10).
  { now rewrite digits_acc_last. }
  destruct (digits_fuel y 3) as [f ->]; [ simpl; lia | ].
  cbn [Nat.add]. rewrite digits_acc_step by lia.
  destruct (Z.ltb_spec y 100).
  { cbn [Nat.add]. rewrite digits_acc_last by (Z.div_mod_to_equations; lia).
    reflexivity. }
  rewrite digits_acc_step by (Z.div_mod_to_equations; lia).
  rewrite !Z.div_div by lia. change (10 * 10) with 100.
  destruct (Z.ltb_spec y 1000).
  { cbn [Nat.add]. rewrite digits_acc_last by (Z.div_mod_to_equations; lia).
    reflexivity. }
  rewrite digits_acc_step by (Z.div_mod_to_equations; lia).
  rewrite !Z.div_div by lia. change (100 * 10) with 1000.
  cbn [Nat.add]. rewrite digits_acc_last by (Z.div_mod_to_equations; lia).
  reflexivity.
Qed.

(** A date of the year 1000 or later printed by [strftime] is parsed back
    by [strptime]. *)
Lemma strptime_strftime (dt : datetime) :
  valid_date (year dt) (month dt) (day dt) = true -> 1000 <= year dt ->
  strptime (strftime dt) = Ok dt.
Proof.
  destruct dt as [y m d]. simpl. intros Hv H1000.
  destruct (valid_date_bounds _ _ _ Hv) as [Hy [Hm Hd]].
  unfold strptime, strftime. simpl year. simpl month. simpl day.
  rewrite (str_int_year y Hy).
  destruct (Z.ltb_spec y 10); [ lia | ]. destruct (Z.ltb_spec y 100); [ lia | ].
  destruct (Z.ltb_spec y 1000); [ lia | ].
  unfold pad4. unfold pad2 at 1. cbn [append re_date].
  rewrite !is_digit_digit_chr, !digit_val_digit_chr
    by (Z.div_mod_to_equations; lia).
  change (code "-" =? 45) with true. cbn [andb].
  set (Y := 1000 * (y / 1000 mod 10) + 100 * (y / 100 mod 10)
            + 10 * (y / 10 mod 10) + y mod 10).
  match goal with
  | |- match ?t with _ => _ end = _ =>
      assert (E : t = Some (Y, m, d, EmptyString))
  end.
  { apply (re_month_pad2 m (pad2 d) _
             (fun p => first_match (re_day (snd p))
                         (fun '(d0, r4) => Some (Y, fst p, d0, r4))) _ Hm).
    simpl. apply (first_match_hd _ _ _ _ (re_day_pad2 d Hd)). reflexivity. }
  rewrite E.
  replace Y with y by (unfold Y; Z.div_mod_to_equations; lia).
  now apply new_datetime_valid.
Qed.

(** A date before the year 1000 is printed with fewer than four digits of
    the year, and [strptime] rejects what [strftime] printed. *)
Lemma strptime_strftime_short (dt : datetime) :
  valid_date (year dt) (month dt) (day dt) = true -> year dt < 1000 ->
  strptime (strftime dt) = Raise ValueError.
Proof.
  destruct dt as [y m d]. simpl. intros Hv H1000.
  destruct (valid_date_bounds _ _ _ Hv) as [Hy [Hm Hd]].
  unfold strptime, strftime. simpl year. simpl month. simpl day.
  rewrite (str_int_year y Hy).
  assert (Hminus : is_digit "-" = false) by reflexivity.
  destruct (Z.ltb_spec y 10).
  { unfold pad2. cbn [append re_date]. rewrite Hminus, andb_false_r. reflexivity. }
  destruct (Z.ltb_spec y 100).
  { unfold pad2. cbn [append re_date]. rewrite Hminus, andb_false_r. reflexivity. }
  destruct (Z.ltb_spec y 1000); [ | lia ].
  unfold pad2. cbn [append re_date]. rewrite Hminus, andb_false_r. reflexivity.
Qed.

(** ** The report of March 2024 *)

Lemma add_expense_ok (uuid4 : string) (today : datetime) (amount_arg category_arg d
    description_arg : string) (self : ExpenseTracker) (dt : datetime) (amt : float) :
  strptime d = Ok dt ->
  py_float amount_arg = Ok amt ->
  let new := mk_Expense (PyStr uuid4) (strftime dt) (format_2f amt)
               (strip category_arg) (strip description_arg) in
  add_expense uuid4 today amount_arg category_arg (Some d) description_arg self
  = (Ok new, mk_ExpenseTracker (data_file self ++ [expense_row new])
               (expenses self ++ [new])).
Proof. intros Hd Ha. unfold add_expense. rewrite Hd, Ha. reflexivity. Qed.

Lemma Permutation_length_3_inv {A : Type} (a b c : A) (l : list A) :
  Permutation l [a; b; c] ->
  l = [a; b; c] \/ l = [a; c; b] \/ l = [b; a; c] \/ l = [b; c; a]
  \/ l = [c; a; b] \/ l = [c; b; a].
Proof.
  intros H. pose proof (Permutation_length H) as Hlen.
  destruct l as [ | x [ | y [ | z [ | w l ] ] ] ]; try discriminate Hlen.
  assert (Hx : In x [a; b; c]) by (apply (Permutation_in _ H); now left).
  assert (two : forall p q, Permutation [y; z] [p; q] ->
                            [y; z] = [p; q] \/ [y; z] = [q; p]).
  { intros p q Hp. apply Permutation_sym, Permutation_length_2_inv in Hp. exact Hp. }
  destruct Hx as [-> | [-> | [-> | []]]].
  - apply Permutation_cons_inv in H. destruct (two _ _ H) as [E | E];
      injection E as -> ->; auto.
  - assert (H' : Permutation (x :: [y; z]) (x :: [a; c])).
    { rewrite H. apply perm_swap. }
    apply Permutation_cons_inv in H'. destruct (two _ _ H') as [E | E];
      injection E as -> ->; auto 6.
  - assert (H' : Permutation (x :: [y; z]) (x :: [a; b])).
    { rewrite H. symmetry. apply (Permutation_cons_append [a; b] x). }
    apply Permutation_cons_inv in H'. destruct (two _ _ H') as [E | E];
      injection E as -> ->; auto 7.
Qed.

Lemma filter_all {A : Type} (f : A -> bool) (l : list A) :
  Forall (fun x => f x = true) l -> filter f l = l.
Proof.
  induction 1 as [ | x l Hx Hl IH ]; simpl; [ reflexivity | ].
  rewrite Hx, IH. reflexivity.
Qed.

(** C4: for a store that holds exactly the three records that [add_expense]
    makes of the amounts 100.00 and 50.005 in category Food and 20.00 in
    category Transport, all dated in March 2024 (whatever their days, ids,
    descriptions and the order in which they were added), the report of
    March 2024 has exactly the categories Food, with amount 150.01 and count
    2, and Transport, with amount 20.00 and count 1, and the total 170.01;
    the amount 50.005 is stored as 50.01. *)
Theorem monthly_report_march_2024 :
  forall today u1 u2 u3 d1 d2 d3 k1 k2 k3 desc1 desc2 desc3 s1 s2 s3 e1 e2 e3 self,
    strptime d1 = Ok (mk_datetime 2024 3 k1) ->
    strptime d2 = Ok (mk_datetime 2024 3 k2) ->
    strptime d3 = Ok (mk_datetime 2024 3 k3) ->
    fst (add_expense u1 today "100.00" "Food" (Some d1) desc1 s1) = Ok e1 ->
    fst (add_expense u2 today "50.005" "Food" (Some d2) desc2 s2) = Ok e2 ->
    fst (add_expense u3 today "20.00" "Transport" (Some d3) desc3 s3) = Ok e3 ->
    Permutation (expenses self) [e1; e2; e3] ->
    exists report food transport,
      monthly_report 2024 3 self = Ok report
      /\ Permutation (categories report) [("Food", food); ("Transport", transport)]
      /\ py_float "150.01" = Ok (vals_amount food) /\ vals_count food = 2
      /\ py_float "20.00" = Ok (vals_amount transport) /\ vals_count transport = 1
      /\ py_float "170.01" = Ok (total_spent report)
      /\ amount e2 = "50.01".
Proof.
  intros today u1 u2 u3 d1 d2 d3 k1 k2 k3 desc1 desc2 desc3 s1 s2 s3 e1 e2 e3 self
    Hd1 Hd2 Hd3 He1 He2 He3 Hperm.
  assert (F1 : py_float "100.00" = Ok (S754_finite false 7036874417766400 (-46)))
    by (vm_compute; reflexivity).
  assert (F2 : py_float "50.005" = Ok (S754_finite false 7037578105208177 (-47)))
    by (vm_compute; reflexivity).
  assert (F3 : py_float "20.00" = Ok (S754_finite false 5629499534213120 (-48)))
    by (vm_compute; reflexivity).
  rewrite (add_expense_ok _ _ _ _ _ _ _ _ _ Hd1 F1) in He1.
  rewrite (add_expense_ok _ _ _ _ _ _ _ _ _ Hd2 F2) in He2.
  rewrite (add_expense_ok _ _ _ _ _ _ _ _ _ Hd3 F3) in He3.
  simpl in He1, He2, He3. injection He1 as <-. injection He2 as <-. injection He3 as <-.
  set (e1 := mk_Expense (PyStr u1) (strftime (mk_datetime 2024 3 k1)) _ _ _) in *.
  set (e2 := mk_Expense (PyStr u2) (strftime (mk_datetime 2024 3 k2)) _ _ _) in *.
  set (e3 := mk_Expense (PyStr u3) (strftime (mk_datetime 2024 3 k3)) _ _ _) in *.
  assert (Hm : Forall (fun e => matches (Some 2024) (Some 3) None e = true) [e1; e2; e3]).
  { repeat constructor; unfold matches; simpl date;
      rewrite strptime_strftime; try reflexivity; try (simpl; lia);
      first [ exact (strptime_valid _ _ Hd1) | exact (strptime_valid _ _ Hd2)
            | exact (strptime_valid _ _ Hd3) ]. }
  assert (Hm' : Forall (fun e => matches (Some 2024) (Some 3) None e = true) (expenses self)).
  { apply (Forall_perm _ [e1; e2; e3]); [ now symmetry | exact Hm ]. }
  assert (Hdp : dates_parse (expenses self)).
  { unfold dates_parse. rewrite Forall_forall in *. intros e He.
    specialize (Hm' e He). unfold matches in Hm'. unfold parses_as_date.
    destruct (strptime (date e)) as [dt | ]; [ now exists dt | discriminate ]. }
  unfold monthly_report, list_expenses.
  rewrite (filter_expenses_spec _ _ _ _ [] Hdp). simpl app.
  rewrite (filter_all _ _ Hm'). unfold bind at 2. unfold bind at 2.
  assert (Hl : Permutation (list_sort String.ltb date true (expenses self)) [e1; e2; e3]).
  { rewrite list_sort_perm. exact Hperm. }
  apply Permutation_length_3_inv in Hl.
  destruct Hl as [-> | [-> | [-> | [-> | [-> | ->]]]]];
    vm_compute; do 3 eexists;
    (split; [ reflexivity | ]);
    (split; [ first [ reflexivity | apply perm_swap ] | ]);
    repeat split.
Qed.

Lemma monthly_report_march_2024_witness :
  let today := mk_datetime 2026 11 3 in
  let r1 := add_expense "u1" today "100.00" "Food" (Some "2024-03-01") "" (snd (init None)) in
  let r2 := add_expense "u2" today "50.005" " Food " (Some "2024-3-15") "lunch" (snd r1) in
  let r3 := add_expense "u3" today "20.00" "Transport" (Some "2024-03-07") "" (snd r2) in
  exists report food transport,
    monthly_report 2024 3 (snd r3) = Ok report
    /\ Permutation (categories report) [("Food", food); ("Transport", transport)]
    /\ py_float "150.01" = Ok (vals_amount food) /\ vals_count food = 2
    /\ py_float "20.00" = Ok (vals_amount transport) /\ vals_count transport = 1
    /\ py_float "170.01" = Ok (total_spent report)
    /\ amount (mk_Expense (PyStr "u2") "2024-03-15" "50.01" "Food" "lunch") = "50.01"%string.
Proof.
  intros today r1 r2 r3.
  apply (monthly_report_march_2024 today "u1" "u2" "u3"
           "2024-03-01" "2024-3-15" "2024-03-07" 1 15 7 "" "lunch" ""
           (snd (init None)) (snd r1) (snd r2)
           (mk_Expense (PyStr "u1") "2024-03-01" "100.00" "Food" "")
           (mk_Expense (PyStr "u2") "2024-03-15" "50.01" "Food" "lunch")
           (mk_Expense (PyStr "u3") "2024-03-07" "20.00" "Transport" "")
           (snd r3));
    vm_compute; reflexivity.
Defined.

(** ** Decimal numerals: printing and reading agree *)

Lemma string_app_assoc (s1 s2 s3 : string) :
  ((s1 ++ s2) ++ s3 = s1 ++ (s2 ++ s3))%string.
Proof. induction s1 as [ | c s1 IH ]; simpl; [ reflexivity | now rewrite IH ]. Qed.

Lemma string_app_nil_r (s : string) : (s ++ "" = s)%string.
Proof. induction s as [ | c s IH ]; simpl; [ reflexivity | now rewrite IH ]. Qed.

Lemma string_length_app (s1 s2 : string) :
  String.length (s1 ++ s2) = (String.length s1 + String.length s2)%nat.
Proof. induction s1 as [ | c s1 IH ]; simpl; [ reflexivity | now rewrite IH ]. Qed.

Lemma all_chars_app (p : ascii -> bool) (s1 s2 : string) :
  all_chars p (s1 ++ s2) = all_chars p s1 && all_chars p s2.
Proof.
  induction s1 as [ | c s1 IH ]; simpl; [ reflexivity | ].
  rewrite IH. apply andb_assoc.
Qed.

Lemma all_chars_impl (p q : ascii -> bool) (s : string) :
  (forall c, p c = true -> q c = true) -> all_chars p s = true -> all_chars q s = true.
Proof.
  intros Hpq. induction s as [ | c s IH ]; simpl; [ reflexivity | ].
  rewrite !andb_true_iff. intros [Hc Hs]. split; auto.
Qed.

Lemma horner_app (s1 s2 : string) (a : Z) :
  horner (s1 ++ s2) a = horner s2 (horner s1 a).
Proof.
  revert a. induction s1 as [ | c s1 IH ]; intros a; simpl; [ reflexivity | apply IH ].
Qed.

Lemma read_digits_run (s rest : string) (a k : Z) :
  all_chars is_digit s = true ->
  starts_with_digit rest = false ->
  read_digits (s ++ rest) a k = (horner s a, k + Z.of_nat (String.length s), rest).
Proof.
  revert a k. induction s as [ | c s IH ]; intros a k Hs Hr.
  - simpl. replace (k + 0) with k by lia.
    destruct rest as [ | c r ]; simpl in *; [ reflexivity | now rewrite Hr ].
  - simpl in Hs. apply andb_true_iff in Hs. destruct Hs as [Hc Hs].
    cbn [append read_digits horner]. rewrite Hc, (IH _ _ Hs Hr).
    f_equal. f_equal. cbn [String.length]. lia.
Qed.

Lemma digits_acc_spec (fuel : nat) :
  forall n acc, (0 < fuel)%nat -> 0 <= n < 10 ^ Z.of_nat fuel ->
    exists pre,
      digits_acc fuel n acc = (pre ++ acc)%string
      /\ all_chars is_digit pre = true
      /\ pre <> EmptyString
      /\ forall a, horner pre a = a * 10 ^ Z.of_nat (String.length pre) + n.
Proof.
  induction fuel as [ | fuel IH ]; intros n acc Hf Hn; [ lia | ].
  cbn [digits_acc].
  assert (Hmod : 0 <= n mod 10 <= 9) by (Z.div_mod_to_equations; lia).
  destruct (Z.ltb_spec n 10) as [Hlt | Hge].
  - exists (String (digit_chr (n mod 10)) EmptyString).
    split; [ reflexivity | ]. split; [ | split; [ discriminate | ] ].
    + simpl. now rewrite is_digit_digit_chr.
    + intros a. cbn [horner String.length].
      rewrite digit_val_digit_chr by exact Hmod.
      change (Z.of_nat 1) with 1. rewrite Z.pow_1_r, Z.mod_small by lia. lia.
  - assert (Hn' : 0 <= n / 10 < 10 ^ Z.of_nat fuel).
    { rewrite Nat2Z.inj_succ, Z.pow_succ_r in Hn by lia.
      Z.div_mod_to_equations. lia. }
    assert (Hf' : (0 < fuel)%nat).
    { destruct fuel; [ | lia ]. simpl in Hn'. Z.div_mod_to_equations. lia. }
    destruct (IH (n / 10) (String (digit_chr (n mod 10)) acc) Hf' Hn')
      as [pre [E [Hd [Hne Hh]]]].
    exists (pre ++ String (digit_chr (n mod 10)) EmptyString)%string.
    split; [ | split; [ | split ] ].
    + rewrite E, string_app_assoc. reflexivity.
    + rewrite all_chars_app, Hd. simpl. now rewrite is_digit_digit_chr.
    + destruct pre; [ now contradiction Hne | discriminate ].
    + intros a. rewrite horner_app, Hh. cbn [horner].
      rewrite digit_val_digit_chr by exact Hmod.
      rewrite string_length_app. cbn [String.length].
      replace (Z.of_nat (String.length pre + 1)) with (Z.succ (Z.of_nat (String.length pre)))
        by lia.
      rewrite Z.pow_succ_r by lia. Z.div_mod_to_equations. lia.
Qed.

Lemma digits_spec (n : Z) :
  0 <= n ->
  all_chars is_digit (digits n) = true
  /\ digits n <> EmptyString
  /\ forall a, horner (digits n) a = a * 10 ^ Z.of_nat (String.length (digits n)) + n.
Proof.
  intros Hn. unfold digits.
  destruct (digits_acc_spec (S (Z.to_nat (Z.log2 n))) n EmptyString) as [pre [E H]].
  - lia.
  - split; [ exact Hn | ].
    destruct (Z.eq_dec n 0) as [-> | Hnz]; [ reflexivity | ].
    pose proof (Z.log2_spec n ltac:(lia)) as [_ Hlog].
    pose proof (Z.log2_nonneg n) as Hl.
    rewrite Nat2Z.inj_succ, Z2Nat.id by exact Hl.
    apply (Z.lt_le_trans _ _ _ Hlog). apply Z.pow_le_mono_l. lia.
  - rewrite E, string_app_nil_r. exact H.
Qed.

(** ** Rounding to nearest *)

Lemma div_rne_cases (n d : Z) :
  0 <= n -> 0 < d ->
  (div_rne n d = n / d \/ div_rne n d = n / d + 1)
  /\ - d <= 2 * (div_rne n d * d - n) <= d.
Proof.
  intros Hn Hd. unfold div_rne.
  pose proof (Z.div_mod n d ltac:(lia)) as E.
  pose proof (Z.mod_pos_bound n d Hd) as Hr.
  set (q := n / d) in *. set (r := n mod d) in *.
  destruct (Z.compare_spec (2 * r) d) as [H | H | H]; [ destruct (Z.even q) | | ];
    split; auto; lia.
Qed.

Lemma div_rne_nonneg (n d : Z) : 0 <= n -> 0 < d -> 0 <= div_rne n d.
Proof.
  intros Hn Hd. destruct (div_rne_cases n d Hn Hd) as [[E | E] _]; rewrite E;
    pose proof (Z.div_pos n d Hn Hd); lia.
Qed.

(** [div_rne n d] is an integer nearest to [n / d]. *)
Lemma div_rne_nearest (n d j : Z) :
  0 <= n -> 0 < d -> Z.abs (div_rne n d * d - n) <= Z.abs (j * d - n).
Proof.
  intros Hn Hd.
  destruct (div_rne_cases n d Hn Hd) as [Hc Hh].
  pose proof (Z.div_mod n d ltac:(lia)) as E.
  pose proof (Z.mod_pos_bound n d Hd) as Hr.
  set (q := n / d) in *. set (r := n mod d) in *. clearbody q r.
  set (m := div_rne n d) in *. clearbody m.
  destruct (Z_le_gt_dec j q) as [Hj | Hj].
  - assert (j * d <= q * d) by (apply Z.mul_le_mono_nonneg_r; lia).
    destruct Hc as [-> | ->]; nia.
  - assert ((q + 1) * d <= j * d) by (apply Z.mul_le_mono_nonneg_r; lia).
    destruct Hc as [-> | ->]; nia.
Qed.

Lemma pow2_pos (e : Z) : 0 < 2 ^ Z.max 0 e.
Proof. apply Z.pow_pos_nonneg; lia. Qed.

Lemma scaled_den_pos (d e : Z) : 0 < d -> 0 < scaled_den d e.
Proof. intros H. unfold scaled_den. pose proof (pow2_pos e). nia. Qed.

Lemma scaled_num_nonneg (n e : Z) : 0 <= n -> 0 <= scaled_num n e.
Proof. intros H. unfold scaled_num. pose proof (pow2_pos (- e)). nia. Qed.

(** [scaled_num n e / scaled_den d e] is [(n * 2^B) / (d * 2^(e + B))]
    for every [B] that makes the exponent non-negative. *)
Lemma scaled_cross (n d e B : Z) :
  0 <= B -> - B <= e ->
  scaled_num n e * (d * 2 ^ (e + B)) = n * 2 ^ B * scaled_den d e.
Proof.
  intros HB He. unfold scaled_num, scaled_den.
  destruct (Z_le_gt_dec 0 e) as [H | H].
  - rewrite (Z.max_l 0 (- e)), (Z.max_r 0 e) by lia.
    rewrite Z.pow_add_r by lia. change (2 ^ 0) with 1. ring.
  - rewrite (Z.max_r 0 (- e)), (Z.max_l 0 e) by lia.
    replace (2 ^ B) with (2 ^ (- e) * 2 ^ (e + B)).
    + change (2 ^ 0) with 1. ring.
    + rewrite <- Z.pow_add_r by lia. f_equal. lia.
Qed.

Lemma scaled_le_iff (n d e B L : Z) :
  0 <= B -> - B <= e -> 0 < d ->
  (L * scaled_den d e <= scaled_num n e <-> L * (d * 2 ^ (e + B)) <= n * 2 ^ B).
Proof.
  intros HB He Hd.
  pose proof (scaled_cross n d e B HB He) as E.
  pose proof (scaled_den_pos d e Hd) as Hden.
  assert (HP : 0 < d * 2 ^ (e + B)).
  { apply Z.mul_pos_pos; [ exact Hd | apply Z.pow_pos_nonneg; lia ]. }
  set (den := scaled_den d e) in *. set (num := scaled_num n e) in *.
  set (D := d * 2 ^ (e + B)) in *. set (X := n * 2 ^ B) in *.
  split; intros H.
  - apply (Z.mul_le_mono_pos_r _ _ den Hden).
    rewrite <- E. replace (L * D * den) with (L * den * D) by ring.
    apply Z.mul_le_mono_nonneg_r; lia.
  - apply (Z.mul_le_mono_pos_r _ _ D HP).
    rewrite E. replace (L * den * D) with (L * D * den) by ring.
    apply Z.mul_le_mono_nonneg_r; lia.
Qed.

Lemma scaled_lt_iff (n d e B U : Z) :
  0 <= B -> - B <= e -> 0 < d ->
  (scaled_num n e < U * scaled_den d e <-> n * 2 ^ B < U * (d * 2 ^ (e + B))).
Proof.
  intros HB He Hd.
  pose proof (scaled_cross n d e B HB He) as E.
  pose proof (scaled_den_pos d e Hd) as Hden.
  assert (HP : 0 < d * 2 ^ (e + B)).
  { apply Z.mul_pos_pos; [ exact Hd | apply Z.pow_pos_nonneg; lia ]. }
  set (den := scaled_den d e) in *. set (num := scaled_num n e) in *.
  set (D := d * 2 ^ (e + B)) in *. set (X := n * 2 ^ B) in *.
  split; intros H.
  - apply (Z.mul_lt_mono_pos_r den _ _ Hden).
    rewrite <- E. replace (U * D * den) with (U * den * D) by ring.
    apply Z.mul_lt_mono_pos_r; lia.
  - apply (Z.mul_lt_mono_pos_r D _ _ HP).
    rewrite E. replace (U * den * D) with (U * D * den) by ring.
    apply Z.mul_lt_mono_pos_r; lia.
Qed.

(** The exponent chosen for [n / d] leaves a significand below [2^53]
    and, above the subnormal exponent, not below [2^52]. *)
Lemma ratio_exponent_spec (n d : Z) :
  0 < n -> 0 < d ->
  let e := ratio_exponent n d in
  -1074 <= e
  /\ scaled_num n e < 2 ^ 53 * scaled_den d e
  /\ (e = -1074 \/ 2 ^ 52 * scaled_den d e <= scaled_num n e).
Proof.
  intros Hn Hd. unfold ratio_exponent.
  pose proof (Z.log2_spec n Hn) as Ha. pose proof (Z.log2_spec d Hd) as Hb.
  pose proof (Z.log2_nonneg n) as Ha0. pose proof (Z.log2_nonneg d) as Hb0.
  set (a := Z.log2 n) in *. set (b := Z.log2 d) in *.
  set (e0 := a - b - 53).
  set (B := Z.abs e0 + 1075).
  assert (HB : 0 <= B) by (unfold B; lia).
  assert (He0 : - B <= e0) by (unfold B; lia).
  assert (He1 : - B <= e0 + 1) by (unfold B; lia).
  assert (Hw : 0 < 2 ^ B) by (apply Z.pow_pos_nonneg; lia).
  assert (Hp : 0 < 2 ^ (e0 + B)) by (apply Z.pow_pos_nonneg; lia).
  assert (Hp1 : 2 ^ (e0 + 1 + B) = 2 * 2 ^ (e0 + B)).
  { replace (e0 + 1 + B) with (Z.succ (e0 + B)) by lia. apply Z.pow_succ_r. lia. }
  assert (Hab : 2 ^ a * 2 ^ B = 2 ^ 53 * 2 ^ b * 2 ^ (e0 + B)).
  { rewrite <- !Z.pow_add_r by lia. f_equal. unfold e0. lia. }
  rewrite Z.pow_succ_r in Ha, Hb by lia.
  assert (F1 : 2 ^ 52 * (d * 2 ^ (e0 + B)) <= n * 2 ^ B).
  { clearbody a b e0 B. change (2 ^ 53) with (2 * 2 ^ 52) in Hab.
    set (A := 2 ^ a) in *. set (Bb := 2 ^ b) in *.
    set (w := 2 ^ B) in *. set (p := 2 ^ (e0 + B)) in *. clearbody A Bb w p.
    nia. }
  assert (F2 : n * 2 ^ B < 2 ^ 54 * (d * 2 ^ (e0 + B))).
  { clearbody a b e0 B. change (2 ^ 54) with (2 * 2 ^ 53).
    set (A := 2 ^ a) in *. set (Bb := 2 ^ b) in *.
    set (w := 2 ^ B) in *. set (p := 2 ^ (e0 + B)) in *. clearbody A Bb w p.
    nia. }
  pose proof (scaled_den_pos d e0 Hd) as Hden0.
  set (e1 := if scaled_num n e0 / scaled_den d e0 <? 2 ^ 53 then e0 else e0 + 1).
  assert (H1 : - B <= e1
               /\ n * 2 ^ B < 2 ^ 53 * (d * 2 ^ (e1 + B))
               /\ 2 ^ 52 * (d * 2 ^ (e1 + B)) <= n * 2 ^ B).
  { unfold e1. destruct (Z.ltb_spec (scaled_num n e0 / scaled_den d e0) (2 ^ 53)) as [Hk | Hk].
    - split; [ exact He0 | split; [ | exact F1 ] ].
      apply (scaled_lt_iff n d e0 B (2 ^ 53) HB He0 Hd).
      pose proof (Z.mul_succ_div_gt (scaled_num n e0) (scaled_den d e0) Hden0).
      nia.
    - split; [ exact He1 | ]. rewrite Hp1.
      assert (Hge : 2 ^ 53 * (d * 2 ^ (e0 + B)) <= n * 2 ^ B).
      { apply (scaled_le_iff n d e0 B (2 ^ 53) HB He0 Hd).
        pose proof (Z.mul_div_le (scaled_num n e0) (scaled_den d e0) Hden0).
        nia. }
      change (2 ^ 53) with (2 * 2 ^ 52) in Hge.
      change (2 ^ 54) with (2 * 2 ^ 53) in F2.
      split; nia. }
  clearbody e1. destruct H1 as [HBe1 [U1 L1]].
  destruct (Z.max_spec e1 (-1074)) as [[Hlt ->] | [Hge ->]].
  - split; [ lia | ]. split; [ | now left ].
    apply (scaled_lt_iff n d (-1074) B (2 ^ 53) HB ltac:(unfold B; lia) Hd).
    assert (2 ^ (e1 + B) <= 2 ^ (-1074 + B)) by (apply Z.pow_le_mono_r; lia).
    nia.
  - split; [ lia | ]. split.
    + apply (scaled_lt_iff n d e1 B (2 ^ 53) HB HBe1 Hd). exact U1.
    + right. apply (scaled_le_iff n d e1 B (2 ^ 52) HB HBe1 Hd). exact L1.
Qed.

(** ** The rounded value of a ratio *)

Lemma abs_scale (c a : Z) : 0 <= c -> c * Z.abs a = Z.abs (c * a).
Proof. intros H. rewrite Z.abs_mul, (Z.abs_eq c) by exact H. reflexivity. Qed.

(** No magnitude of the format is nearer to [n / d] than the rounded one. *)
Lemma rounded_ulps_nearest (n d mu eu : Z) :
  0 < n -> 0 < d -> 0 <= mu < 2 ^ 53 -> -1074 <= eu ->
  Z.abs (rounded_ulps n d * d - n * 2 ^ 1074)
  <= Z.abs (mu * 2 ^ (eu + 1074) * d - n * 2 ^ 1074).
Proof.
  intros Hn Hd Hmu Heu. unfold rounded_ulps.
  destruct (ratio_exponent_spec n d Hn Hd) as [He [Hup Hlow]].
  set (e := ratio_exponent n d) in *. clearbody e.
  pose proof (scaled_cross n d e 1074 ltac:(lia) ltac:(lia)) as E.
  pose proof (scaled_den_pos d e Hd) as Hden.
  pose proof (scaled_num_nonneg n e ltac:(lia)) as Hnum.
  assert (HP : 0 < 2 ^ (e + 1074)) by (apply Z.pow_pos_nonneg; lia).
  assert (step : forall j,
             Z.abs (div_rne (scaled_num n e) (scaled_den d e) * 2 ^ (e + 1074) * d
                    - n * 2 ^ 1074)
             <= Z.abs (j * 2 ^ (e + 1074) * d - n * 2 ^ 1074)).
  { intros j.
    pose proof (div_rne_nearest (scaled_num n e) (scaled_den d e) j Hnum Hden) as Hj.
    set (m := div_rne (scaled_num n e) (scaled_den d e)) in *. clearbody m.
    set (den := scaled_den d e) in *. set (num := scaled_num n e) in *.
    set (P := 2 ^ (e + 1074)) in *. set (X := n * 2 ^ 1074) in *.
    clearbody den num P X.
    apply (Z.mul_le_mono_pos_l _ _ den Hden).
    rewrite !abs_scale by lia.
    replace (den * (m * P * d - X)) with ((m * den - num) * (d * P)) by lia.
    replace (den * (j * P * d - X)) with ((j * den - num) * (d * P)) by lia.
    rewrite !Z.abs_mul. apply Z.mul_le_mono_nonneg_r; [ | exact Hj ].
    apply Z.mul_nonneg_nonneg; apply Z.abs_nonneg. }
  destruct (Z_le_gt_dec e eu) as [Hle | Hgt].
  - specialize (step (mu * 2 ^ (eu - e))).
    replace (mu * 2 ^ (eu - e) * 2 ^ (e + 1074)) with (mu * 2 ^ (eu + 1074)) in step.
    + exact step.
    + rewrite <- Z.mul_assoc, <- Z.pow_add_r by lia. do 2 f_equal. lia.
  - destruct Hlow as [-> | Hlow]; [ lia | ].
    apply (scaled_le_iff n d e 1074 (2 ^ 52) ltac:(lia) ltac:(lia) Hd) in Hlow.
    specialize (step (2 ^ 52)).
    assert (Hu : mu * 2 ^ (eu + 1074) <= 2 ^ 52 * 2 ^ (e + 1074)).
    { assert (H1 : 2 * 2 ^ (eu + 1074) <= 2 ^ (e + 1074)).
      { rewrite <- Z.pow_succ_r by lia. apply Z.pow_le_mono_r; lia. }
      assert (H2 : 0 < 2 ^ (eu + 1074)) by (apply Z.pow_pos_nonneg; lia).
      change (2 ^ 53) with (2 * 2 ^ 52) in Hmu.
      set (a := 2 ^ (eu + 1074)) in *. set (b := 2 ^ (e + 1074)) in *.
      set (c := 2 ^ 52) in *. assert (0 < c) by (unfold c; lia).
      clearbody a b c. nia. }
    set (m := div_rne (scaled_num n e) (scaled_den d e)) in *. clearbody m.
    set (P := 2 ^ (e + 1074)) in *. set (X := n * 2 ^ 1074) in *.
    set (U := mu * 2 ^ (eu + 1074)) in *. set (c := 2 ^ 52) in *.
    clearbody P X U c.
    assert (U * d <= c * P * d) by (apply Z.mul_le_mono_nonneg_r; lia).
    lia.
Qed.

Lemma cond_Zopp_0 (s : bool) : cond_Zopp s 0 = 0.
Proof. destruct s; reflexivity. Qed.

(** [float_of_ratio] returns the rounded magnitude when it is below
    [2^1024] (that is [2^2098] units), and an infinity otherwise. *)
Lemma float_of_ratio_spec (s : bool) (n d : Z) :
  0 < n -> 0 < d ->
  (rounded_ulps n d < 2 ^ 2098 ->
   is_finite (float_of_ratio s n d) = true
   /\ ulps (float_of_ratio s n d) = Some (cond_Zopp s (rounded_ulps n d))
   /\ representable (float_of_ratio s n d))
  /\ (2 ^ 2098 <= rounded_ulps n d -> float_of_ratio s n d = S754_infinity s).
Proof.
  intros Hn Hd. unfold rounded_ulps, float_of_ratio.
  destruct (ratio_exponent_spec n d Hn Hd) as [He [Hup Hlow]].
  set (e := ratio_exponent n d) in *. clearbody e.
  pose proof (scaled_den_pos d e Hd) as Hden.
  pose proof (scaled_num_nonneg n e ltac:(lia)) as Hnum.
  destruct (div_rne_cases _ _ Hnum Hden) as [Hc _].
  pose proof (div_rne_nonneg _ _ Hnum Hden) as Hm0.
  assert (Hk : scaled_num n e / scaled_den d e < 2 ^ 53).
  { apply Z.div_lt_upper_bound; [ exact Hden | lia ]. }
  assert (Hk' : e <> -1074 -> 2 ^ 52 <= scaled_num n e / scaled_den d e).
  { intros Hne. destruct Hlow as [ | Hlow ]; [ contradiction | ].
    apply Z.div_le_lower_bound; [ exact Hden | lia ]. }
  set (m := div_rne (scaled_num n e) (scaled_den d e)) in *.
  assert (Hm : m <= 2 ^ 53) by lia.
  assert (Hm' : e <> -1074 -> 2 ^ 52 <= m) by (intros Hne; specialize (Hk' Hne); lia).
  clearbody m. clear Hc Hk Hk' Hup Hlow Hden Hnum.
  assert (HP : 0 < 2 ^ (e + 1074)) by (apply Z.pow_pos_nonneg; lia).
  assert (Hbig : 2 ^ 2098 = 2 ^ 53 * 2 ^ 2045) by reflexivity.
  assert (Hbig' : 2 ^ 2045 = 2 * 2 ^ 2044) by reflexivity.
  assert (H53 : 2 ^ 53 = 2 * 2 ^ 52) by reflexivity.
  assert (Hc52 : 0 < 2 ^ 52) by reflexivity.
  assert (Hc2044 : 0 < 2 ^ 2044) by reflexivity.
  assert (Psucc : 2 ^ (e + 1 + 1074) = 2 * 2 ^ (e + 1074)).
  { replace (e + 1 + 1074) with (Z.succ (e + 1074)) by lia. apply Z.pow_succ_r. lia. }
  assert (Ple : forall c, e + 1074 <= c -> 2 ^ (e + 1074) <= 2 ^ c).
  { intros c Hc. apply Z.pow_le_mono_r; lia. }
  assert (Pge : forall c, 0 <= c <= e + 1074 -> 2 ^ c <= 2 ^ (e + 1074)).
  { intros c Hc. apply Z.pow_le_mono_r; lia. }
  destruct m as [ | p | p ]; [ | | lia ].
  - rewrite Z.mul_0_l. split; [ | lia ].
    intros _. simpl. now rewrite cond_Zopp_0.
  - destruct (Z.eqb_spec (Zpos p) (2 ^ 53)) as [E | NE].
    + rewrite E. destruct (Z.leb_spec (e + 1) 971) as [H | H].
      * split.
        -- intros _. split; [ reflexivity | ]. split.
           ++ unfold ulps. destruct (Z.ltb_spec (e + 1) (-1074)); [ lia | ].
              rewrite Z2Pos.id by reflexivity. rewrite Psucc, H53. do 2 f_equal. ring.
           ++ unfold representable. split; [ reflexivity | lia ].
        -- intros Hov. exfalso. specialize (Ple 2044 ltac:(lia)).
           set (P := 2 ^ (e + 1074)) in *. set (c := 2 ^ 2044) in *.
           set (a := 2 ^ 53) in *. set (b := 2 ^ 52) in *. clearbody P c a b.
           rewrite Hbig, Hbig' in Hov. nia.
      * split; [ | reflexivity ].
        intros Hfin. exfalso. specialize (Pge 2045 ltac:(lia)).
        set (P := 2 ^ (e + 1074)) in *. set (c := 2 ^ 2045) in *.
        set (a := 2 ^ 53) in *. clearbody P c a.
        rewrite Hbig in Hfin. nia.
    + destruct (Z.leb_spec e 971) as [H | H].
      * split.
        -- intros _. split; [ reflexivity | ]. split.
           ++ unfold ulps. destruct (Z.ltb_spec e (-1074)); [ lia | reflexivity ].
           ++ simpl. split; lia.
        -- intros Hov. exfalso. specialize (Ple 2045 ltac:(lia)).
           set (P := 2 ^ (e + 1074)) in *. set (c := 2 ^ 2045) in *.
           set (a := 2 ^ 53) in *. clearbody P c a.
           rewrite Hbig in Hov. nia.
      * split; [ | reflexivity ].
        intros Hfin. exfalso. specialize (Pge 2046 ltac:(lia)).
        specialize (Hm' ltac:(lia)).
        change (2 ^ 2046) with (2 * 2 ^ 2045) in Pge.
        set (P := 2 ^ (e + 1074)) in *. set (c := 2 ^ 2045) in *.
        set (a := 2 ^ 53) in *. set (b := 2 ^ 52) in *. clearbody P c a b.
        rewrite Hbig in Hfin. nia.
Qed.

(** The hundredths of a finite float are within half a hundredth of it. *)
Lemma cents_half (m : positive) (e : Z) :
  -1074 <= e ->
  0 <= cents m e
  /\ - 2 ^ 1074 <= 2 * (cents m e * 2 ^ 1074 - 100 * (Zpos m * 2 ^ (e + 1074))) <= 2 ^ 1074.
Proof.
  intros He. unfold cents.
  set (a := scaled_num (100 * Zpos m) (- e)). set (b := scaled_den 1 (- e)).
  assert (Ha : 0 <= a) by (apply scaled_num_nonneg; lia).
  assert (Hb : 0 < b) by (apply scaled_den_pos; lia).
  destruct (div_rne_cases a b Ha Hb) as [_ Hh].
  pose proof (div_rne_nonneg a b Ha Hb) as H0.
  split; [ exact H0 | ].
  assert (E : a * 2 ^ 1074 = 100 * (Zpos m * 2 ^ (e + 1074)) * b).
  { unfold a, b, scaled_num, scaled_den. rewrite Z.opp_involutive.
    destruct (Z_le_gt_dec 0 e) as [H | H].
    - rewrite (Z.max_r 0 e), (Z.max_l 0 (- e)) by lia.
      rewrite (Z.pow_add_r 2 e 1074) by lia. change (2 ^ 0) with 1. ring.
    - rewrite (Z.max_l 0 e), (Z.max_r 0 (- e)) by lia.
      replace (2 ^ 1074) with (2 ^ (e + 1074) * 2 ^ (- e)) at 1.
      + change (2 ^ 0) with 1. ring.
      + rewrite <- Z.pow_add_r by lia. f_equal. lia. }
  assert (HW : 0 < 2 ^ 1074) by reflexivity.
  set (N := div_rne a b) in *. set (W := 2 ^ 1074) in *.
  set (U := Zpos m * 2 ^ (e + 1074)) in *. clearbody N W U a b.
  split.
  - apply (Z.mul_le_mono_pos_r _ _ b Hb). nia.
  - apply (Z.mul_le_mono_pos_r _ _ b Hb). nia.
Qed.

Lemma abs_cond_Zopp (s : bool) (a b : Z) :
  Z.abs (cond_Zopp s a - cond_Zopp s b) = Z.abs (a - b).
Proof. destruct s; simpl; lia. Qed.

(** [round(x, 2)] of a finite binary64 float is a finite binary64 float
    within 0.01 of it (within 0.005, up to the rounding back to binary). *)
Lemma round2_close (x : float) :
  is_finite x = true -> representable x ->
  is_finite (round2 x) = true
  /\ representable (round2 x)
  /\ within_cent (round2 x) x = true.
Proof.
  destruct x as [s | s | | s m e]; try discriminate; intros _ Hr.
  - repeat split.
  - destruct Hr as [Hm He].
    destruct (cents_half m e ltac:(lia)) as [HN Hh].
    unfold round2, float_of_decimal. set (N := cents m e) in *. clearbody N.
    assert (HU : Zpos m * 2 ^ (e + 1074) <= (2 ^ 53 - 1) * 2 ^ 2045).
    { assert (2 ^ (e + 1074) <= 2 ^ 2045) by (apply Z.pow_le_mono_r; lia).
      assert (0 < 2 ^ (e + 1074)) by (apply Z.pow_pos_nonneg; lia).
      nia. }
    assert (HW : 2 ^ 1074 <= 2 ^ 2045) by (apply Z.pow_le_mono_r; lia).
    assert (HW0 : 0 < 2 ^ 1074) by reflexivity.
    assert (Hbig : 2 ^ 2098 = 2 ^ 53 * 2 ^ 2045) by reflexivity.
    assert (Hne : ulps (S754_finite s m e)
                  = Some (cond_Zopp s (Zpos m * 2 ^ (e + 1074)))).
    { unfold ulps. destruct (Z.ltb_spec e (-1074)); [ lia | reflexivity ]. }
    destruct (Z.eqb_spec N 0) as [-> | HN0].
    + split; [ reflexivity | ]. split; [ exact I | ].
      unfold within_cent. rewrite Hne. cbn [ulps].
      rewrite <- (cond_Zopp_0 s) at 1. rewrite abs_cond_Zopp.
      apply Z.leb_le.
      set (U := Zpos m * 2 ^ (e + 1074)) in *. set (W := 2 ^ 1074) in *.
      clearbody U W. lia.
    + change (0 <=? -2) with false. cbv iota. change (10 ^ (- -2)) with 100.
      pose proof (rounded_ulps_nearest N 100 (Zpos m) e ltac:(lia) ltac:(lia)
                    ltac:(lia) ltac:(lia)) as Hnear.
      destruct (float_of_ratio_spec s N 100 ltac:(lia) ltac:(lia)) as [Hfin _].
      set (M := rounded_ulps N 100) in *. clearbody M.
      set (U := Zpos m * 2 ^ (e + 1074)) in *. set (W := 2 ^ 1074) in *.
      assert (Hc : 100 * Z.abs (M - U) <= W /\ M < 2 ^ 2098).
      { rewrite Hbig. set (c := 2 ^ 2045) in *. set (a := 2 ^ 53) in *.
        assert (1 < a) by reflexivity. assert (0 < c) by reflexivity.
        clearbody U W c a. split; [ lia | nia ]. }
      destruct Hc as [Hc Hlt]. destruct (Hfin Hlt) as [F1 [F2 F3]].
      split; [ exact F1 | ]. split; [ exact F3 | ].
      unfold within_cent. rewrite F2, Hne, abs_cond_Zopp.
      apply Z.leb_le. exact Hc.
Qed.

(** ** Reading a tabular report back *)

Lemma strip_id (sp : ascii -> bool) (s : string) :
  all_chars (fun c => negb (sp c)) s = true ->
  rstrip_with sp (lstrip_with sp s) = s.
Proof.
  intros H.
  assert (L : lstrip_with sp s = s).
  { destruct s as [ | c s ]; [ reflexivity | ]. simpl in *.
    apply andb_true_iff in H. destruct H as [Hc _].
    apply negb_true_iff in Hc. now rewrite Hc. }
  rewrite L. clear L. induction s as [ | c s IH ]; [ reflexivity | ].
  simpl in *. apply andb_true_iff in H. destruct H as [Hc Hs].
  rewrite (IH Hs). apply negb_true_iff in Hc. rewrite Hc.
  destruct s; reflexivity.
Qed.

Lemma remove_underscores_id (s : string) :
  forall prev, (code prev =? 95) = false ->
    all_chars (fun c => negb (code c =? 95)) s = true ->
    remove_underscores prev s = Some s.
Proof.
  induction s as [ | c s IH ]; intros prev Hp H; simpl.
  - now rewrite Hp.
  - simpl in H. apply andb_true_iff in H. destruct H as [Hc Hs].
    apply negb_true_iff in Hc. rewrite Hc, Hp. simpl.
    rewrite (IH c Hc Hs). reflexivity.
Qed.

Lemma numeric_char_not_space (c : ascii) : numeric_char c = true -> negb (is_c_space c) = true.
Proof.
  unfold numeric_char, is_digit, is_c_space. intros H.
  apply negb_true_iff.
  repeat match goal with
         | |- context [?a <=? ?b] => destruct (Z.leb_spec a b)
         | |- context [?a =? ?b] => destruct (Z.eqb_spec a b)
         | H : context [?a <=? ?b] |- _ => destruct (Z.leb_spec a b)
         | H : context [?a =? ?b] |- _ => destruct (Z.eqb_spec a b)
         end; simpl in *; try reflexivity; try discriminate; lia.
Qed.

Lemma numeric_char_not_underscore (c : ascii) :
  numeric_char c = true -> negb (code c =? 95) = true.
Proof.
  unfold numeric_char, is_digit. intros H.
  apply negb_true_iff.
  repeat match goal with
         | |- context [?a <=? ?b] => destruct (Z.leb_spec a b)
         | |- context [?a =? ?b] => destruct (Z.eqb_spec a b)
         | H : context [?a <=? ?b] |- _ => destruct (Z.leb_spec a b)
         | H : context [?a =? ?b] |- _ => destruct (Z.eqb_spec a b)
         end; simpl in *; try reflexivity; try discriminate; lia.
Qed.

Lemma is_digit_numeric (c : ascii) : is_digit c = true -> numeric_char c = true.
Proof. unfold numeric_char. intros ->. reflexivity. Qed.

(** A numeral made of sign, digits and point passes the white-space and
    underscore steps of [float] and [int] unchanged. *)
Lemma numeric_text_clean (s : string) :
  all_chars numeric_char s = true ->
  rstrip_with is_c_space (lstrip_with is_c_space s) = s
  /\ remove_underscores (chr 0) s = Some s.
Proof.
  intros H. split.
  - apply strip_id. revert H. apply all_chars_impl. apply numeric_char_not_space.
  - apply remove_underscores_id; [ reflexivity | ].
    revert H. apply all_chars_impl. apply numeric_char_not_underscore.
Qed.

Lemma digits_head (n : Z) :
  0 <= n -> exists c t, digits n = String c t /\ is_digit c = true.
Proof.
  intros Hn. destruct (digits_spec n Hn) as [Hd [Hne _]].
  destruct (digits n) as [ | c t ]; [ now contradiction Hne | ].
  exists c, t. simpl in Hd. apply andb_true_iff in Hd. now split.
Qed.

Lemma parse_sign_digit (c : ascii) (t : string) :
  is_digit c = true -> parse_sign (String c t) = (false, String c t).
Proof.
  unfold is_digit, parse_sign. intros H. apply andb_true_iff in H.
  destruct H as [H1 H2]. apply Z.leb_le in H1, H2.
  destruct (Z.eqb_spec (code c) 45); [ lia | ].
  destruct (Z.eqb_spec (code c) 43); [ lia | reflexivity ].
Qed.

Lemma pad2_digits (f : Z) :
  0 <= f < 100 ->
  all_chars is_digit (pad2 f) = true /\ forall a, horner (pad2 f) a = 100 * a + f.
Proof.
  intros Hf. unfold pad2.
  assert (H1 : 0 <= f / 10 mod 10 <= 9) by (Z.div_mod_to_equations; lia).
  assert (H2 : 0 <= f mod 10 <= 9) by (Z.div_mod_to_equations; lia).
  split.
  - cbn [all_chars]. now rewrite !is_digit_digit_chr.
  - intros a. cbn [horner]. rewrite !digit_val_digit_chr by assumption.
    Z.div_mod_to_equations. lia.
Qed.

Lemma cents_text_numeric (n : Z) :
  0 <= n -> all_chars numeric_char (cents_text n) = true.
Proof.
  intros Hn. unfold cents_text.
  assert (H1 : 0 <= n / 100) by (Z.div_mod_to_equations; lia).
  assert (H2 : 0 <= n mod 100 < 100) by (Z.div_mod_to_equations; lia).
  destruct (digits_spec _ H1) as [Hd _]. destruct (pad2_digits _ H2) as [Hp _].
  rewrite !all_chars_app.
  rewrite (all_chars_impl _ _ _ is_digit_numeric Hd).
  rewrite (all_chars_impl _ _ _ is_digit_numeric Hp). reflexivity.
Qed.

Lemma parse_decimal_cents_text (s : bool) (n : Z) :
  0 <= n ->
  parse_decimal (sign_text s ++ cents_text n) = Some (float_of_decimal s n (-2)).
Proof.
  intros Hn.
  assert (H1 : 0 <= n / 100) by (Z.div_mod_to_equations; lia).
  assert (H2 : 0 <= n mod 100 < 100) by (Z.div_mod_to_equations; lia).
  destruct (digits_spec _ H1) as [Hd [_ Hh]].
  destruct (pad2_digits _ H2) as [Hp Hhp].
  destruct (digits_head _ H1) as [c [t [Ec Hc]]].
  assert (Hs : parse_sign (sign_text s ++ cents_text n)%string = (s, cents_text n)).
  { destruct s; [ reflexivity | ].
    unfold sign_text, cents_text. cbn [append]. rewrite Ec. cbn [append].
    apply parse_sign_digit. exact Hc. }
  unfold parse_decimal. rewrite Hs. unfold cents_text.
  rewrite (read_digits_run (digits (n / 100)) ("." ++ pad2 (n mod 100)) 0 0 Hd eq_refl).
  rewrite Hh.
  cbn [append]. change (code "." =? 46) with true. cbv iota.
  rewrite <- (string_app_nil_r (pad2 (n mod 100))).
  rewrite (read_digits_run (pad2 (n mod 100)) "" _ 0 Hp eq_refl). rewrite Hhp.
  change (String.length (pad2 (n mod 100))) with 2%nat.
  destruct (Z.eqb_spec (0 + Z.of_nat (String.length (digits (n / 100)))
                        + (0 + Z.of_nat 2)) 0) as [E | _].
  - lia.
  - cbn [parse_exponent]. f_equal. f_equal.
    rewrite Z.mul_0_l, Z.add_0_l. Z.div_mod_to_equations. lia.
Qed.

(** Reading back the [.2f] rendering of a non-negative number of
    hundredths gives the float nearest to it. *)
Lemma py_float_cents_text (s : bool) (n : Z) :
  0 <= n ->
  py_float (sign_text s ++ cents_text n) = Ok (float_of_decimal s n (-2)).
Proof.
  intros Hn. unfold py_float.
  assert (H : all_chars numeric_char (sign_text s ++ cents_text n)%string = true).
  { rewrite all_chars_app, (cents_text_numeric n Hn). destruct s; reflexivity. }
  destruct (numeric_text_clean _ H) as [-> ->].
  rewrite (parse_decimal_cents_text s n Hn). reflexivity.
Qed.

Lemma cents_nonneg (m : positive) (e : Z) : 0 <= cents m e.
Proof.
  unfold cents. apply div_rne_nonneg.
  - apply scaled_num_nonneg. lia.
  - apply scaled_den_pos. lia.
Qed.

(** [float(f"{x:.2f}")] is [round(x, 2)] for a finite [x]. *)
Lemma py_float_format_2f (x : float) :
  is_finite x = true -> py_float (format_2f x) = Ok (round2 x).
Proof.
  destruct x as [s | s | | s m e]; try discriminate; intros _.
  - unfold format_2f. rewrite py_float_cents_text by lia. reflexivity.
  - unfold format_2f, round2. apply py_float_cents_text. apply cents_nonneg.
Qed.

(** [int(str(n))] is [n]. *)
Lemma py_int_str_int (n : Z) : py_int (str_int n) = Ok n.
Proof.
  assert (pos : forall k, 0 <= k -> py_int (digits k) = Ok k).
  { intros k Hk. destruct (digits_spec k Hk) as [Hd [_ Hh]].
    destruct (digits_head k Hk) as [c [t [Ec Hc]]].
    unfold py_int.
    destruct (numeric_text_clean (digits k)
                (all_chars_impl _ _ _ is_digit_numeric Hd)) as [E1 E2].
    rewrite E1. rewrite Ec at 1. rewrite (parse_sign_digit c t Hc), <- Ec, E2.
    rewrite <- (string_app_nil_r (digits k)) at 1.
    rewrite (read_digits_run (digits k) "" 0 0 Hd eq_refl), Hh.
    destruct (Z.eqb_spec (0 + Z.of_nat (String.length (digits k))) 0) as [E | _].
    - rewrite Ec in E. cbn [String.length] in E. lia.
    - f_equal; lia. }
  unfold str_int. destruct (Z.ltb_spec n 0) as [Hneg | Hpos]; [ | now apply pos ].
  assert (Hk : 0 <= - n) by lia.
  destruct (digits_spec _ Hk) as [Hd [_ Hh]].
  assert (Hall : all_chars numeric_char (String "-" (digits (- n))) = true).
  { cbn [all_chars]. rewrite (all_chars_impl _ _ _ is_digit_numeric Hd). reflexivity. }
  unfold py_int. destruct (numeric_text_clean _ Hall) as [E1 _].
  rewrite E1. cbn [parse_sign]. change (code "-" =? 45) with true. cbv iota.
  destruct (numeric_text_clean (digits (- n))
              (all_chars_impl _ _ _ is_digit_numeric Hd)) as [_ E2].
  rewrite E2. rewrite <- (string_app_nil_r (digits (- n))) at 1.
  rewrite (read_digits_run (digits (- n)) "" 0 0 Hd eq_refl), Hh.
  destruct (digits_head _ Hk) as [c [t [Ec _]]].
  destruct (Z.eqb_spec (0 + Z.of_nat (String.length (digits (- n)))) 0) as [E | _].
  - rewrite Ec in E. cbn [String.length] in E. lia.
  - f_equal; lia.
Qed.

(** ** Round trip of the tabular export *)

Lemma round2_representable (x : float) :
  is_finite (round2 x) = true -> representable (round2 x).
Proof.
  destruct x as [s | s | | s m e]; try discriminate; intros H; [ exact I | ].
  unfold round2, float_of_decimal in *.
  pose proof (cents_nonneg m e) as HN. set (N := cents m e) in *. clearbody N.
  destruct (Z.eqb_spec N 0) as [E | HN0]; [ exact I | ].
  change (0 <=? -2) with false in *. cbv iota in *.
  change (10 ^ (- -2)) with 100 in *.
  destruct (float_of_ratio_spec s N 100 ltac:(lia) ltac:(lia)) as [Hfin Hinf].
  destruct (Z_lt_le_dec (rounded_ulps N 100) (2 ^ 2098)) as [Hlt | Hge].
  - now destruct (Hfin Hlt) as [_ [_ R]].
  - rewrite (Hinf Hge) in H. discriminate H.
Qed.

Lemma monthly_report_amounts (y m : Z) (self : ExpenseTracker) (report : Report) :
  monthly_report y m self = Ok report ->
  Forall (fun cv => exists x, vals_amount (snd cv) = round2 x) (categories report).
Proof.
  unfold monthly_report.
  destruct (list_expenses (Some y) (Some m) None None self) as [l | ]; [ | discriminate ].
  simpl. destruct (report_loop l [] zero) as [[totals total] | ]; [ | discriminate ].
  simpl. intros H. injection H as <-. simpl.
  apply Forall_forall. intros cv Hin. apply in_map_iff in Hin.
  destruct Hin as [cv0 [<- _]]. simpl. now exists (vals_amount (snd cv0)).
Qed.

(** [float] reads every text that the [.2f] format writes, as the float
    rounded to two decimals; an infinity and NaN as themselves. *)
Lemma py_float_format_2f_all (x : float) : py_float (format_2f x) = Ok (round2 x).
Proof.
  destruct (is_finite x) eqn:Hf; [ now apply py_float_format_2f | ].
  destruct x as [s | s | | s m e]; try discriminate; [ destruct s | ]; reflexivity.
Qed.

Lemma parse_category_rows_export (cats : list (string * vals)) (last : list string) :
  parse_category_rows (map csv_row cats ++ [[]; last])
  = Some (map (fun cv => (fst cv, mk_vals (round2 (vals_amount (snd cv)))
                                     (vals_count (snd cv)))) cats).
Proof.
  induction cats as [ | cv cats IH ]; [ reflexivity | ].
  cbn [map app]. unfold csv_row at 1. cbn [parse_category_rows].
  rewrite py_float_format_2f_all, py_int_str_int, IH. reflexivity.
Qed.

(** C9: for every report that [monthly_report] produces, reading the rows
    of the tabular export back gives, category by category and in the same
    order, the same category, the same count, and an amount within 0.01 of
    the report's; an amount that is an infinity or NaN, for which no
    distance is defined, reads back as itself. *)
Theorem report_csv_round_trip :
  forall year_arg month_arg self report,
    monthly_report year_arg month_arg self = Ok report ->
    exists l,
      parse_report_rows (export_report_csv report) = Some l
      /\ Forall2 reconstructs (categories report) l.
Proof.
  intros y m self report Hrep.
  pose proof (monthly_report_amounts y m self report Hrep) as Hround.
  rewrite export_report_csv_rows. cbn [parse_report_rows].
  rewrite parse_category_rows_export.
  eexists. split; [ reflexivity | ].
  induction Hround as [ | cv cats [x Hx] _ IH ]; cbn [map]; constructor; [ | exact IH ].
  unfold reconstructs. cbn [fst snd vals_amount vals_count].
  split; [ reflexivity | split; [ reflexivity | ] ].
  destruct (is_finite (vals_amount (snd cv))) eqn:Hf.
  - right. apply round2_close; [ exact Hf | ].
    rewrite Hx in *. now apply round2_representable.
  - left. destruct (vals_amount (snd cv)); try discriminate; reflexivity.
Qed.

Lemma report_csv_round_trip_witness :
  let e1 := mk_Expense (PyStr "u1") "2024-03-01" "100.00" "Food" "" in
  let e2 := mk_Expense (PyStr "u2") "2024-03-15" "50.01" "Food" "lunch" in
  let e3 := mk_Expense (PyStr "u3") "2024-03-07" "20.00" "Transport" "" in
  let report :=
    mk_Report 2024 3
      [("Food", mk_vals (S754_finite false 5278007657045688 (-45)) 2);
       ("Transport", mk_vals (S754_finite false 5629499534213120 (-48)) 1)]
      (S754_finite false 5981695098822328 (-45)) in
  exists l,
    parse_report_rows (export_report_csv report) = Some l
    /\ Forall2 reconstructs (categories report) l.
Proof.
  intros e1 e2 e3 report.
  apply (report_csv_round_trip 2024 3
           (mk_ExpenseTracker (header :: map expense_row [e1; e2; e3]) [e1; e2; e3])
           report).
  vm_compute. reflexivity.
Defined.

(** The round trip on a report with an infinite amount: two expenses of
    1e308 in one category sum to [inf]; the export writes [inf] and the
    rows read back are the report's categories. *)
Example report_csv_round_trip_inf :
  let e1 := mk_Expense (PyStr "u1") "2024-03-01" (format_2f (S754_finite false 5010420900022432 971)) "Food" "" in
  let e2 := mk_Expense (PyStr "u2") "2024-03-02" (format_2f (S754_finite false 5010420900022432 971)) "Food" "" in
  let self := mk_ExpenseTracker (header :: map expense_row [e1; e2]) [e1; e2] in
  let report := mk_Report 2024 3 [("Food", mk_vals (S754_infinity false) 2)]
                  (S754_infinity false) in
  fst (add_expense "u1" (mk_datetime 2024 3 1) "1e308" "Food" (Some "2024-03-01") ""
         (mk_ExpenseTracker [header] [])) = Ok e1
  /\ monthly_report 2024 3 self = Ok report
  /\ parse_report_rows (export_report_csv report) = Some (categories report).
Proof. vm_compute. repeat split. Qed.

(** ** Well-formed records *)

Lemma format_2f_two_decimals (x : float) :
  is_finite x = true -> two_decimals (format_2f x) = true.
Proof.
  intros Hx.
  assert (H : exists s n, 0 <= n /\ format_2f x = (sign_text s ++ cents_text n)%string).
  { destruct x as [s | s | | s m e]; try discriminate.
    - exists s, 0. split; [ lia | reflexivity ].
    - exists s, (cents m e). split; [ apply cents_nonneg | reflexivity ]. }
  destruct H as [s [n [Hn ->]]].
  assert (H1 : 0 <= n / 100) by (Z.div_mod_to_equations; lia).
  assert (H2 : 0 <= n mod 100 < 100) by (Z.div_mod_to_equations; lia).
  destruct (digits_spec _ H1) as [Hd _].
  destruct (digits_head _ H1) as [c [t [Ec Hc]]].
  destruct (pad2_digits _ H2) as [Hp _].
  assert (Hr : two_decimals (sign_text s ++ cents_text n)
               = match read_digits (cents_text n) 0 0 with
                 | (_, k, String p (String d1 (String d2 EmptyString))) =>
                     (0 <? k) && (code p =? 46) && is_digit d1 && is_digit d2
                 | _ => false
                 end).
  { unfold two_decimals. destruct s; [ reflexivity | ].
    unfold sign_text, cents_text. cbn [append]. rewrite Ec. cbn [append].
    unfold is_digit in Hc. apply andb_true_iff in Hc. destruct Hc as [Hc _].
    apply Z.leb_le in Hc. destruct (Z.eqb_spec (code c) 45); [ lia | reflexivity ]. }
  rewrite Hr. unfold cents_text.
  rewrite (read_digits_run (digits (n / 100)) ("." ++ pad2 (n mod 100)) 0 0 Hd eq_refl).
  unfold pad2 in *. cbn [append all_chars] in *.
  rewrite andb_true_r in Hp. apply andb_true_iff in Hp. destruct Hp as [-> ->].
  rewrite Ec. cbn [String.length]. reflexivity.
Qed.

(** ** The cells of the tabular export *)

(** C8 (amended): for a report whose category amounts and total are
    finite, the tabular export is the header row, one row per category in
    the order of the report's mapping, an empty row, and the row of the
    total.  A category row holds the category, the amount in the [.2f]
    format, which is a numeral with exactly two decimals that [float] reads
    as the amount rounded to two decimals, and the count as the decimal
    numeral that [int] reads as the count; the total is written like an
    amount. *)
Theorem export_report_csv_spec :
  forall report,
    finite_amounts (categories report) ->
    is_finite (total_spent report) = true ->
    exists rows total,
      export_report_csv report
      = ["Category"; "Total Amount"; "Count"] :: rows ++ [[]; ["Total"; total; ""]]
      /\ Forall2 (fun cv row =>
                    exists a n,
                      row = [fst cv; a; n]
                      /\ a = format_2f (vals_amount (snd cv))
                      /\ two_decimals a = true
                      /\ py_float a = Ok (round2 (vals_amount (snd cv)))
                      /\ n = str_int (vals_count (snd cv))
                      /\ py_int n = Ok (vals_count (snd cv)))
           (categories report) rows
      /\ total = format_2f (total_spent report)
      /\ two_decimals total = true
      /\ py_float total = Ok (round2 (total_spent report)).
Proof.
  intros report Hfin Htot.
  exists (map csv_row (categories report)), (format_2f (total_spent report)).
  split; [ apply export_report_csv_rows | ].
  split; [ | split; [ reflexivity | split;
    [ now apply format_2f_two_decimals | apply py_float_format_2f_all ] ] ].
  induction Hfin as [ | cv cats Hcv _ IH ]; cbn [map]; constructor; [ | exact IH ].
  exists (format_2f (vals_amount (snd cv))), (str_int (vals_count (snd cv))).
  split; [ reflexivity | ]. split; [ reflexivity | ].
  split; [ now apply format_2f_two_decimals | ].
  split; [ apply py_float_format_2f_all | ].
  split; [ reflexivity | apply py_int_str_int ].
Qed.

Lemma export_report_csv_spec_witness :
  let report :=
    mk_Report 2024 3
      [("Food", mk_vals (S754_finite false 5278007657045688 (-45)) 2);
       ("Transport", mk_vals (S754_finite false 5629499534213120 (-48)) 1)]
      (S754_finite false 5981695098822328 (-45)) in
  exists rows total,
    export_report_csv report
    = ["Category"; "Total Amount"; "Count"] :: rows ++ [[]; ["Total"; total; ""]]
    /\ Forall2 (fun cv row =>
                  exists a n,
                    row = [fst cv; a; n]
                    /\ a = format_2f (vals_amount (snd cv))
                    /\ two_decimals a = true
                    /\ py_float a = Ok (round2 (vals_amount (snd cv)))
                    /\ n = str_int (vals_count (snd cv))
                    /\ py_int n = Ok (vals_count (snd cv)))
         (categories report) rows
    /\ total = format_2f (total_spent report)
    /\ two_decimals total = true
    /\ py_float total = Ok (round2 (total_spent report)).
Proof.
  intros report. apply (export_report_csv_spec report).
  - repeat constructor.
  - reflexivity.
Defined.

(** C8, as stated, fails on a report with an amount that is not finite:
    two expenses of 1e308 in one category sum to [inf], and the export
    writes the cells [inf], which are not numerals with two decimals. *)
Lemma export_report_csv_counterexample :
  let e1 := mk_Expense (PyStr "u1") "2024-03-01" (format_2f (S754_finite false 5010420900022432 971)) "Food" "" in
  let e2 := mk_Expense (PyStr "u2") "2024-03-02" (format_2f (S754_finite false 5010420900022432 971)) "Food" "" in
  let self := mk_ExpenseTracker (header :: map expense_row [e1; e2]) [e1; e2] in
  let report := mk_Report 2024 3 [("Food", mk_vals (S754_infinity false) 2)]
                  (S754_infinity false) in
  fst (add_expense "u1" (mk_datetime 2024 3 1) "1e308" "Food" (Some "2024-03-01") ""
         (mk_ExpenseTracker [header] [])) = Ok e1
  /\ monthly_report 2024 3 self = Ok report
  /\ export_report_csv report
     = [["Category"; "Total Amount"; "Count"]; ["Food"; "inf"; "2"]; [];
        ["Total"; "inf"; ""]]
  /\ two_decimals "inf" = false.
Proof. vm_compute. repeat split. Qed.

(** ** The narrative export *)

(** C10 (amended): for a report whose year and month name a calendar month
    and whose amounts are not NaN, the narrative export is the title line
    with the full month name and the year (as a plain decimal number: March
    999 for the year 999), the separator line, an empty
    line, and then either the no-expenses message (no category) or one line
    per category in descending order of the amounts, an empty line and the
    line of the total. *)
Theorem export_report_text_spec :
  forall report,
    1 <= r_year report <= 9999 ->
    1 <= r_month report <= 12 ->
    no_nan_amounts (categories report) ->
    let month_name :=
      nth (Z.to_nat (r_month report - 1))
        ["January"; "February"; "March"; "April"; "May"; "June"; "July";
         "August"; "September"; "October"; "November"; "December"] "" in
    exists year_text body,
      export_report_text report
      = Ok (join newline
              (("Monthly Report - " ++ month_name ++ " " ++ year_text)%string
                 :: repeat_char "=" 40 :: "" :: body))
      /\ year_text = str_int (r_year report)
      /\ py_int year_text = Ok (r_year report)
      /\ (categories report = [] -> body = ["No expenses recorded for this month."])
      /\ (categories report <> [] ->
          exists sorted,
            Permutation sorted (categories report)
            /\ StronglySorted amount_descending sorted
            /\ body
               = map (fun cv =>
                        (fst cv ++ ": " ++ rupee ++ format_2f (vals_amount (snd cv))
                           ++ " (" ++ str_int (vals_count (snd cv)) ++ " items)")%string)
                   sorted
                 ++ [""; ("Total Spent: " ++ rupee ++ format_2f (total_spent report))%string]).
Proof.
  intros report Hy Hm Hn month_name. exists (str_int (r_year report)).
  unfold export_report_text, report_lines.
  assert (Hv : valid_date (r_year report) (r_month report) 1 = true).
  { unfold valid_date, days_in_month.
    repeat match goal with |- context [if ?b then _ else _] => destruct b end;
      repeat (apply andb_true_iff; split); apply Z.leb_le; lia. }
  rewrite (new_datetime_valid _ _ _ Hv). unfold bind at 2. cbv zeta.
  destruct (categories report) as [ | cv cats ] eqn:Ec.
  - exists ["No expenses recorded for this month."].
    split; [ reflexivity | ]. split; [ reflexivity | ].
    split; [ apply py_int_str_int | ]. split; [ reflexivity | ].
    intros H. now contradiction H.
  - rewrite fold_left_snoc. unfold bind.
    exists (map text_line (list_sort flt neg_amount false (cv :: cats))
            ++ [""; ("Total Spent: " ++ rupee ++ format_2f (total_spent report))%string]).
    split.
    { f_equal. f_equal. rewrite <- !app_assoc. reflexivity. }
    split; [ reflexivity | ]. split; [ apply py_int_str_int | ].
    split; [ discriminate | ]. intros _.
    exists (list_sort flt neg_amount false (cv :: cats)).
    split; [ apply list_sort_perm | ].
    split; [ now apply sort_by_neg_amount_sorted | reflexivity ].
Qed.

Lemma export_report_text_spec_witness :
  let report :=
    mk_Report 2024 3
      [("Transport", mk_vals (S754_finite false 5629499534213120 (-48)) 1);
       ("Food", mk_vals (S754_finite false 5278007657045688 (-45)) 2)]
      (S754_finite false 5981695098822328 (-45)) in
  exists year_text body,
    export_report_text report
    = Ok (join newline
            (("Monthly Report - " ++ "March" ++ " " ++ year_text)%string
               :: repeat_char "=" 40 :: "" :: body))
    /\ year_text = "2024"
    /\ py_int year_text = Ok 2024
    /\ (categories report = [] -> body = ["No expenses recorded for this month."])
    /\ (categories report <> [] ->
        exists sorted,
          Permutation sorted (categories report)
          /\ StronglySorted amount_descending sorted
          /\ body
             = map (fun cv =>
                      (fst cv ++ ": " ++ rupee ++ format_2f (vals_amount (snd cv))
                         ++ " (" ++ str_int (vals_count (snd cv)) ++ " items)")%string)
                 sorted
               ++ [""; ("Total Spent: " ++ rupee ++ format_2f (total_spent report))%string]).
Proof.
  intros report.
  apply (export_report_text_spec report); [ simpl; lia | simpl; lia | ].
  repeat constructor.
Defined.

(** C10, as stated, fails: a report for month 13, which [monthly_report]
    returns without complaint, makes the export raise [ValueError] when it
    builds the title; and with a NaN amount the category lines are not in
    descending order of the amounts (here 1.00 stands before 2.00). *)
Lemma export_report_text_counterexample :
  monthly_report 2024 13 (mk_ExpenseTracker [header] [])
  = Ok (mk_Report 2024 13 [] zero)
  /\ export_report_text (mk_Report 2024 13 [] zero) = Raise ValueError
  /\ report_lines
       (mk_Report 2024 3
          [("A", mk_vals (S754_finite false 4503599627370496 (-52)) 1);
           ("B", mk_vals S754_nan 1);
           ("C", mk_vals (S754_finite false 4503599627370496 (-51)) 1)]
          S754_nan)
     = Ok ["Monthly Report - March 2024"; repeat_char "=" 40; "";
           "A: ₹1.00 (1 items)"; "B: ₹nan (1 items)"; "C: ₹2.00 (1 items)"; "";
           "Total Spent: ₹nan"].
Proof. vm_compute. repeat split. Qed.

Lemma load_rows_well_formed (fieldnames : list string) (rows : list (list string)) :
  forall acc, Forall well_formed acc ->
    Forall well_formed (snd (load_rows fieldnames rows acc)).
Proof.
  induction rows as [ | row rows IH ]; intros acc Hacc; [ exact Hacc | ].
  destruct row as [ | f row ]; [ now apply IH | ].
  cbn [load_rows].
  destruct (bind (dict_item _ "amount") _) as [amt | ]; [ | now apply IH ].
  destruct (dict_item _ "date") as [date_str | ]; [ | exact Hacc ].
  destruct (strptime_value date_str) as [dt | ] eqn:Edt; [ | now apply IH ].
  destruct (dict_item _ "id") as [i | ]; [ | exact Hacc ].
  cbn [bind].
  destruct (get_stripped _ "category") as [c | ]; [ | exact Hacc ].
  cbn [bind].
  destruct (get_stripped _ "description") as [d | ]; [ | exact Hacc ].
  cbn [bind]. apply IH. apply Forall_app. split; [ exact Hacc | ].
  constructor; [ | constructor ]. split; simpl.
  - destruct date_str as [ | s ]; [ discriminate | ]. now exists dt.
  - now exists amt.
Qed.

Lemma load_well_formed (self : ExpenseTracker) :
  Forall well_formed (expenses (snd (load self))).
Proof.
  unfold load. destruct (data_file self) as [ | fieldnames rows ]; [ constructor | ].
  pose proof (load_rows_well_formed fieldnames rows [] (Forall_nil _)) as H.
  destruct (load_rows fieldnames rows []) as [r exps]. exact H.
Qed.

(** The date that [add_expense] is about to store is a calendar date, and
    of the year 1000 or later when the date entered, or today, is. *)
Lemma add_expense_date (today : datetime) (d : option string) (date_obj : datetime) :
  valid_date (year today) (month today) (day today) = true ->
  match d with None => Ok today | Some d0 => strptime d0 end = Ok date_obj ->
  valid_date (year date_obj) (month date_obj) (day date_obj) = true
  /\ (four_digit_year today d -> 1000 <= year date_obj).
Proof.
  intros Ht Ed. destruct d as [d0 | ].
  - split; [ now apply (strptime_valid d0) | ]. intros H. now apply H.
  - injection Ed as <-. split; [ exact Ht | ]. intros H. exact H.
Qed.

Lemma add_expense_well_formed uuid4 today a c d desc (self : ExpenseTracker) :
  valid_date (year today) (month today) (day today) = true ->
  four_digit_year today d ->
  Forall well_formed (expenses self) ->
  Forall well_formed (expenses (snd (add_expense uuid4 today a c d desc self))).
Proof.
  intros Ht Hy Hself. unfold add_expense.
  destruct (match d with None => Ok today | Some d0 => strptime d0 end)
    as [date_obj | ] eqn:Ed; [ | exact Hself ].
  destruct (py_float a) as [amt | ]; [ | exact Hself ].
  simpl. apply Forall_app. split; [ exact Hself | ].
  constructor; [ | constructor ]. split; simpl.
  - exists date_obj. destruct (add_expense_date today d date_obj Ht Ed) as [Hv H1000].
    apply strptime_strftime; [ exact Hv | now apply H1000 ].
  - now exists amt.
Qed.

(** In every reachable tracker each record has a date that parses and an
    amount that is the [.2f] rendering of a float. *)
Lemma reachable_well_formed (self : ExpenseTracker) :
  reachable self -> Forall well_formed (expenses self).
Proof.
  induction 1 as [ file self H | self r self' _ _ H
                 | self uuid4 today a c d desc r self' _ IH Ht Hy H
                 | self expense_id _ IH ].
  - unfold init in H. pose proof (load_well_formed (mk_ExpenseTracker (_ensure_file file) [])) as W.
    rewrite H in W. exact W.
  - pose proof (load_well_formed self) as W. rewrite H in W. exact W.
  - pose proof (add_expense_well_formed uuid4 today a c d desc self Ht Hy IH) as W.
    rewrite H in W. exact W.
  - unfold delete_expense.
    destruct (Nat.eqb _ _); simpl; apply Forall_forall; intros e He;
      apply filter_In in He; destruct He as [He _];
      rewrite Forall_forall in IH; now apply IH.
Qed.

(** After a date before the year 1000 has been added, the stored date no
    longer parses: [list_expenses] and [monthly_report] raise, and [load]
    drops the record while the file keeps its row. *)
Example year_999_breaks_listing :
  let today := mk_datetime 2026 11 3 in
  let r := add_expense "u1" today "5" "Food" (Some "0999-01-01") "" (snd (init None)) in
  fst r = Ok (mk_Expense (PyStr "u1") "999-01-01" "5.00" "Food" "")
  /\ list_expenses None None None None (snd r) = Raise ValueError
  /\ monthly_report 999 1 (snd r) = Raise ValueError
  /\ load (snd r)
     = (Ok tt, mk_ExpenseTracker [header; ["u1"; "999-01-01"; "5.00"; "Food"; ""]] []).
Proof. vm_compute. repeat split. Qed.

(** So the date parsing inside [list_expenses] never raises on a reachable
    tracker. *)
Lemma reachable_list_expenses (self : ExpenseTracker) year_arg month_arg category_arg limit :
  reachable self ->
  exists l, list_expenses year_arg month_arg category_arg limit self = Ok l.
Proof.
  intros H. apply reachable_well_formed in H.
  assert (Hd : dates_parse (expenses self)).
  { unfold dates_parse. rewrite Forall_forall in *. intros e He. now apply H. }
  unfold list_expenses. rewrite (filter_expenses_spec _ _ _ _ [] Hd). simpl.
  destruct limit as [k | ]; [ destruct (k =? 0) | ]; eexists; reflexivity.
Qed.

(** C7: the amount invariant is broken through [add_expense] and through
    [load]: [float] accepts the texts nan and inf (and overflows 1e999 to
    inf), and the [.2f] format renders them without decimals.  The tracker
    below is reachable, and its records carry the amounts nan and inf. *)
Theorem amount_invariant_broken :
  let today := mk_datetime 2026 11 3 in
  let r0 := init (Some [header; ["x1"; "2024-03-01"; "1e999"; "Food"; ""]]) in
  let r1 := add_expense "u1" today "nan" "Food" (Some "2024-03-02") "" (snd r0) in
  fst r0 = Ok tt
  /\ fst r1 = Ok (mk_Expense (PyStr "u1") "2024-03-02" "nan" "Food" "")
  /\ map amount (expenses (snd r1)) = ["inf"; "nan"]
  /\ map two_decimals (map amount (expenses (snd r1))) = [false; false]
  /\ data_file (snd r1)
     = [header; ["x1"; "2024-03-01"; "1e999"; "Food"; ""];
        ["u1"; "2024-03-02"; "nan"; "Food"; ""]].
Proof. vm_compute. repeat split. Qed.

(** * Further properties of the store and of the reports *)

(** ** Stripping is idempotent *)

Lemma lstrip_with_head (sp : ascii -> bool) (s : string) :
  lstrip_with sp s = EmptyString
  \/ exists c t, lstrip_with sp s = String c t /\ sp c = false.
Proof.
  induction s as [ | c s IH ]; simpl; [ now left | ].
  destruct (sp c) eqn:E; [ exact IH | ]. right. now exists c, s.
Qed.

Lemma rstrip_with_idem (sp : ascii -> bool) (s : string) :
  rstrip_with sp (rstrip_with sp s) = rstrip_with sp s.
Proof.
  induction s as [ | c s IH ]; simpl; [ reflexivity | ].
  destruct (rstrip_with sp s) as [ | c' t ] eqn:E.
  - destruct (sp c) eqn:Ec; simpl; [ reflexivity | now rewrite Ec ].
  - simpl. simpl in IH. rewrite IH. reflexivity.
Qed.

Lemma lstrip_rstrip_head (sp : ascii -> bool) (c : ascii) (t : string) :
  sp c = false ->
  lstrip_with sp (rstrip_with sp (String c t)) = rstrip_with sp (String c t).
Proof.
  intros Hc. simpl. destruct (rstrip_with sp t); rewrite ?Hc; simpl; rewrite ?Hc; reflexivity.
Qed.

Lemma strip_idem (s : string) : strip (strip s) = strip s.
Proof.
  unfold strip.
  destruct (lstrip_with_head is_unicode_space s) as [E | [c [t [E Hc]]]]; rewrite E.
  - reflexivity.
  - rewrite (lstrip_rstrip_head _ c t Hc). apply rstrip_with_idem.
Qed.

(** ** The stored amount text is stable *)

Lemma div_rne_unique (a b n : Z) :
  0 <= a -> 0 < b ->
  2 * Z.abs (n * b - a) < b \/ (2 * Z.abs (n * b - a) = b /\ Z.even n = true) ->
  div_rne a b = n.
Proof.
  intros Ha Hb H. unfold div_rne.
  pose proof (Z.div_mod a b ltac:(lia)) as E.
  pose proof (Z.mod_pos_bound a b Hb) as Hr.
  set (q := a / b) in *. set (r := a mod b) in *. clearbody q r.
  assert (Hn : n = q \/ n = q + 1).
  { destruct (Z_le_gt_dec n (q - 1)) as [H1 | H1].
    - assert (n * b <= (q - 1) * b) by (apply Z.mul_le_mono_nonneg_r; lia). lia.
    - destruct (Z_le_gt_dec (q + 2) n) as [H2 | H2]; [ | lia ].
      assert ((q + 2) * b <= n * b) by (apply Z.mul_le_mono_nonneg_r; lia). lia. }
  destruct (Z.compare_spec (2 * r) b) as [C | C | C].
  - destruct H as [H | [_ Hev]]; [ destruct Hn as [-> | ->]; lia | ].
    destruct Hn as [-> | ->].
    + now rewrite Hev.
    + replace (q + 1) with (Z.succ q) in Hev by lia.
      rewrite Z.even_succ in Hev. rewrite <- Z.negb_even in Hev.
      destruct (Z.even q); [ discriminate | reflexivity ].
  - destruct Hn as [-> | ->]; [ reflexivity | ]. destruct H as [H | [H _]]; lia.
  - destruct Hn as [-> | ->]; [ | reflexivity ]. destruct H as [H | [H _]]; lia.
Qed.

Lemma div_rne_tie_even (a b : Z) :
  0 <= a -> 0 < b ->
  2 * Z.abs (div_rne a b * b - a) = b -> Z.even (div_rne a b) = true.
Proof.
  intros Ha Hb. unfold div_rne.
  pose proof (Z.div_mod a b ltac:(lia)) as E.
  pose proof (Z.mod_pos_bound a b Hb) as Hr.
  set (q := a / b) in *. set (r := a mod b) in *. clearbody q r.
  destruct (Z.compare_spec (2 * r) b) as [C | C | C]; [ | lia | lia ].
  intros _. destruct (Z.even q) eqn:Ev; [ exact Ev | ].
  replace (q + 1) with (Z.succ q) by lia.
  rewrite Z.even_succ, <- Z.negb_even, Ev. reflexivity.
Qed.

(** The numerator and the denominator of the hundredths of [m * 2^e],
    against the same value in units of [2^-1074]. *)
Lemma cents_cross (m e : Z) :
  -1074 <= e ->
  scaled_num (100 * m) (- e) * 2 ^ 1074
  = 100 * (m * 2 ^ (e + 1074)) * scaled_den 1 (- e).
Proof.
  intros He. unfold scaled_num, scaled_den. rewrite Z.opp_involutive.
  destruct (Z_le_gt_dec 0 e) as [H | H].
  - rewrite (Z.max_r 0 e), (Z.max_l 0 (- e)) by lia.
    rewrite (Z.pow_add_r 2 e 1074) by lia. change (2 ^ 0) with 1. ring.
  - rewrite (Z.max_l 0 e), (Z.max_r 0 (- e)) by lia.
    replace (2 ^ 1074) with (2 ^ (e + 1074) * 2 ^ (- e)) at 1.
    + change (2 ^ 0) with 1. ring.
    + rewrite <- Z.pow_add_r by lia. f_equal. lia.
Qed.

Lemma float_of_ratio_sign (s : bool) (n d : Z) :
  match float_of_ratio s n d with
  | S754_zero s' | S754_infinity s' | S754_finite s' _ _ => s' = s
  | S754_nan => False
  end.
Proof.
  unfold float_of_ratio.
  destruct (div_rne _ _) as [ | p | p ]; try reflexivity.
  repeat match goal with |- context [if ?b then _ else _] => destruct b end;
    reflexivity.
Qed.

Lemma abs_transfer (w b p q : Z) :
  0 < w -> 0 < b -> w * p = b * q ->
  (2 * Z.abs q < w -> 2 * Z.abs p < b)
  /\ (2 * Z.abs q = w -> 2 * Z.abs p = b)
  /\ (2 * Z.abs p = b -> 2 * Z.abs q = w).
Proof.
  intros Hw Hb E.
  assert (E' : w * Z.abs p = b * Z.abs q).
  { rewrite !abs_scale by lia. now rewrite E. }
  set (P := Z.abs p) in *. set (Q := Z.abs q) in *.
  assert (0 <= P) by apply Z.abs_nonneg. assert (0 <= Q) by apply Z.abs_nonneg.
  clearbody P Q. repeat split; intros H1; nia.
Qed.

Lemma cond_Zopp_inj (s : bool) (a b : Z) : cond_Zopp s a = cond_Zopp s b -> a = b.
Proof. destruct s; simpl; lia. Qed.

(** Formatting the float read back from a [.2f] rendering gives the same
    rendering. *)
Lemma format_2f_round2 (x : float) :
  is_finite x = true -> representable x -> format_2f (round2 x) = format_2f x.
Proof.
  destruct x as [s | s | | s m e]; try discriminate; intros _ Hr; [ reflexivity | ].
  destruct Hr as [Hm He].
  destruct (cents_half m e ltac:(lia)) as [HN Hh].
  pose proof (cents_cross (Zpos m) e ltac:(lia)) as Hx.
  assert (Hev : 2 * Z.abs (cents m e * 2 ^ 1074 - 100 * (Zpos m * 2 ^ (e + 1074))) = 2 ^ 1074 ->
                Z.even (cents m e) = true).
  { intros Htie. unfold cents in *.
    set (a := scaled_num (100 * Zpos m) (- e)) in *.
    set (b := scaled_den 1 (- e)) in *.
    assert (Ha : 0 <= a) by (apply scaled_num_nonneg; lia).
    assert (Hb : 0 < b) by (apply scaled_den_pos; lia).
    apply (div_rne_tie_even a b Ha Hb).
    apply (abs_transfer (2 ^ 1074) b (div_rne a b * b - a)
             (div_rne a b * 2 ^ 1074 - 100 * (Zpos m * 2 ^ (e + 1074)))
             ltac:(reflexivity) Hb); [ | exact Htie ].
    lia. }
  unfold round2, float_of_decimal, format_2f at 2.
  set (N := cents m e) in *. clearbody N.
  assert (HW0 : 0 < 2 ^ 1074) by reflexivity.
  destruct (Z.eqb_spec N 0) as [E0 | HN0]; [ rewrite E0; reflexivity | ].
  change (0 <=? -2) with false. cbv iota. change (10 ^ (- -2)) with 100.
  pose proof (rounded_ulps_nearest N 100 (Zpos m) e ltac:(lia) ltac:(lia)
                ltac:(lia) ltac:(lia)) as Hnear.
  destruct (float_of_ratio_spec s N 100 ltac:(lia) ltac:(lia)) as [Hfin _].
  pose proof (float_of_ratio_sign s N 100) as Hsign.
  assert (HU : Zpos m * 2 ^ (e + 1074) <= (2 ^ 53 - 1) * 2 ^ 2045).
  { assert (2 ^ (e + 1074) <= 2 ^ 2045) by (apply Z.pow_le_mono_r; lia).
    assert (0 < 2 ^ (e + 1074)) by (apply Z.pow_pos_nonneg; lia).
    nia. }
  assert (HW : 2 ^ 1074 <= 2 ^ 2045) by (apply Z.pow_le_mono_r; lia).
  assert (Hbig : 2 ^ 2098 = 2 ^ 53 * 2 ^ 2045) by reflexivity.
  set (M := rounded_ulps N 100) in *. clearbody M.
  set (U := Zpos m * 2 ^ (e + 1074)) in *. set (W := 2 ^ 1074) in *.
  assert (Hlt : M < 2 ^ 2098).
  { rewrite Hbig. set (c := 2 ^ 2045) in *. set (a := 2 ^ 53) in *.
    assert (1 < a) by reflexivity. assert (0 < c) by reflexivity.
    clearbody U W c a. nia. }
  destruct (Hfin Hlt) as [F1 [F2 F3]]. clear Hfin Hlt Hbig HW HU.
  destruct (float_of_ratio s N 100) as [s' | s' | | s' p e']; try discriminate.
  - exfalso. simpl in F2. injection F2 as F2. symmetry in F2.
    rewrite <- (cond_Zopp_0 s) in F2. apply cond_Zopp_inj in F2.
    clearbody U W. subst M. nia.
  - subst s'. destruct F3 as [Hp He'].
    unfold ulps in F2. destruct (Z.ltb_spec e' (-1074)); [ lia | ].
    injection F2 as F2. apply cond_Zopp_inj in F2.
    assert (F2' : Zpos p * 2 ^ (e' + 1074) = M) by exact F2. clear F2.
    unfold format_2f. f_equal. f_equal.
    pose proof (cents_cross (Zpos p) e' ltac:(lia)) as Hx'. rewrite F2' in Hx'.
    unfold cents.
    set (a := scaled_num (100 * Zpos p) (- e')) in *.
    set (b := scaled_den 1 (- e')) in *.
    assert (Ha : 0 <= a) by (apply scaled_num_nonneg; lia).
    assert (Hb : 0 < b) by (apply scaled_den_pos; lia).
    apply (div_rne_unique a b N Ha Hb).
    destruct (abs_transfer W b (N * b - a) (N * W - 100 * M) HW0 Hb ltac:(lia))
      as [T1 [T2 _]].
    assert (Hcase : 2 * Z.abs (N * W - 100 * M) < W \/ 2 * Z.abs (N * W - 100 * M) = W).
    { clearbody U W a b. lia. }
    destruct Hcase as [Hc | Hc]; [ left; now apply T1 | right ].
    split; [ now apply T2 | ]. apply Hev. clearbody U W a b. lia.
Qed.

Lemma read_digits_nonneg (s : string) :
  forall acc n, 0 <= acc -> 0 <= fst (fst (read_digits s acc n)).
Proof.
  induction s as [ | c s IH ]; intros acc n Hacc; cbn [read_digits]; [ exact Hacc | ].
  destruct (is_digit c) eqn:Hc; [ | exact Hacc ].
  apply IH. unfold is_digit, digit_val in *. apply andb_true_iff in Hc.
  destruct Hc as [Hc _]. apply Z.leb_le in Hc. lia.
Qed.

Lemma float_of_decimal_representable (s : bool) (m e : Z) :
  0 <= m -> is_finite (float_of_decimal s m e) = true ->
  representable (float_of_decimal s m e).
Proof.
  intros Hm. unfold float_of_decimal.
  destruct (Z.eqb_spec m 0) as [_ | Hm0]; [ intros _; exact I | ].
  assert (ratio : forall n d, 0 < n -> 0 < d ->
            is_finite (float_of_ratio s n d) = true ->
            representable (float_of_ratio s n d)).
  { intros n d Hn Hd H.
    destruct (float_of_ratio_spec s n d Hn Hd) as [Hfin Hinf].
    destruct (Z_lt_le_dec (rounded_ulps n d) (2 ^ 2098)) as [Hlt | Hge].
    - now destruct (Hfin Hlt) as [_ [_ R]].
    - rewrite (Hinf Hge) in H. discriminate H. }
  destruct (Z.leb_spec 0 e) as [He | He]; apply ratio; try lia;
    try (apply Z.pow_pos_nonneg; lia);
    try (apply Z.mul_pos_pos; [ lia | apply Z.pow_pos_nonneg; lia ]).
Qed.

(** A finite float that [float(s)] returns is a value of the format. *)
Lemma py_float_representable (s : string) (x : float) :
  py_float s = Ok x -> is_finite x = true -> representable x.
Proof.
  unfold py_float.
  destruct (remove_underscores _ _) as [u | ]; [ | discriminate ].
  destruct (parse_decimal u) as [y | ] eqn:Ed.
  - intros H. injection H as <-. revert Ed. unfold parse_decimal.
    destruct (parse_sign u) as [sg s1].
    pose proof (read_digits_nonneg s1 0 0 ltac:(lia)) as H1.
    destruct (read_digits s1 0 0) as [[ip n1] s2]. simpl in H1.
    assert (H2 : forall r, 0 <= fst (fst (read_digits r ip 0)))
      by (intros r; now apply read_digits_nonneg).
    assert (H3 : 0 <= fst (fst (match s2 with
                                | String c r => if code c =? 46 then read_digits r ip 0
                                                else (ip, 0, s2)
                                | EmptyString => (ip, 0, s2)
                                end))).
    { destruct s2 as [ | c r ]; [ exact H1 | ].
      destruct (code c =? 46); [ apply H2 | exact H1 ]. }
    destruct (match s2 with
              | String c r => if code c =? 46 then read_digits r ip 0 else (ip, 0, s2)
              | EmptyString => (ip, 0, s2)
              end) as [[m n2] s3]. simpl in H3.
    destruct (n1 + n2 =? 0); [ discriminate | ].
    destruct (parse_exponent s3) as [ex s4].
    destruct s4; [ | discriminate ].
    intros H. injection H as <-. now apply float_of_decimal_representable.
  - destruct (parse_inf_or_nan u) as [y | ] eqn:Ei; [ | discriminate ].
    intros H. injection H as <-. revert Ei. unfold parse_inf_or_nan.
    destruct (parse_sign u) as [sg r].
    destruct ((lower r =? "inf")%string || (lower r =? "infinity")%string).
    + intros H. injection H as <-. discriminate.
    + destruct (lower r =? "nan")%string; [ | discriminate ].
      intros H. injection H as <-. discriminate.
Qed.

Lemma py_float_format_2f_any (x : float) :
  representable x \/ is_finite x = false ->
  exists y, py_float (format_2f x) = Ok y /\ format_2f y = format_2f x.
Proof.
  intros H. destruct (is_finite x) eqn:Hf.
  - destruct H as [Hr | H]; [ | discriminate ].
    exists (round2 x). split; [ now apply py_float_format_2f | ].
    now apply format_2f_round2.
  - destruct x as [s | s | | s m e]; try discriminate.
    + exists (S754_infinity s). destruct s; split; reflexivity.
    + exists S754_nan. split; reflexivity.
Qed.

(** X1: the amount text that the tracker stores is stable under reading
    and formatting again: for the float [x] that [float] makes of any
    accepted text, [float] accepts the [.2f] rendering of [x], and the
    rendering of the float read back is the same text. *)
Theorem stored_amount_stable :
  forall s x,
    py_float s = Ok x ->
    exists y, py_float (format_2f x) = Ok y /\ format_2f y = format_2f x.
Proof.
  intros s x H. apply py_float_format_2f_any.
  destruct (is_finite x) eqn:Hf; [ left | now right ].
  now apply (py_float_representable s).
Qed.

Lemma stored_amount_stable_witness :
  exists y,
    py_float (format_2f (S754_finite false 7037578105208177 (-47))) = Ok y
    /\ format_2f y = format_2f (S754_finite false 7037578105208177 (-47)).
Proof. apply (stored_amount_stable "50.005"). vm_compute. reflexivity. Defined.

(** ** Loading a file of complete rows *)

Lemma DictReader_row_header (i d a c desc : string) (rest : list string) :
  DictReader_row header (i :: d :: a :: c :: desc :: rest)
  = [("id", PyStr i); ("date", PyStr d); ("amount", PyStr a);
     ("category", PyStr c); ("description", PyStr desc)].
Proof.
  unfold DictReader_row, header. cbn [List.length skipn].
  rewrite skipn_nil. reflexivity.
Qed.

Lemma load_rows_header (rows : list (list string)) :
  forall acc,
    Forall (fun row => row = [] \/ (5 <= List.length row)%nat) rows ->
    load_rows header rows acc = (Ok tt, acc ++ kept_rows rows).
Proof.
  induction rows as [ | row rows IH ]; intros acc H.
  - simpl. now rewrite app_nil_r.
  - inversion H as [ | row' rows' Hrow Hrows ]; subst.
    destruct Hrow as [-> | Hlen]; [ simpl; now apply IH | ].
    destruct row as [ | i [ | d [ | a [ | c [ | desc rest ] ] ] ] ];
      try (simpl in Hlen; lia).
    cbn [load_rows]. rewrite DictReader_row_header.
    change (dict_item _ "amount") with (Ok (PyStr a)).
    change (dict_item _ "date") with (Ok (PyStr d)).
    change (dict_item _ "id") with (Ok (PyStr i)).
    change (get_stripped _ "category") with (Ok (strip c)).
    change (get_stripped _ "description") with (Ok (strip desc)).
    cbn [bind py_float_value strptime_value csv_field].
    unfold kept_rows. cbn [flat_map row_expense]. fold (kept_rows rows).
    destruct (py_float a) as [amt | ]; [ | now apply IH ].
    destruct (strptime d) as [dt | ]; [ | now apply IH ].
    rewrite (IH _ Hrows), <- app_assoc. reflexivity.
Qed.

Lemma load_header_file (rows : list (list string)) (exps0 : list Expense) :
  Forall (fun row => row = [] \/ (5 <= List.length row)%nat) rows ->
  load (mk_ExpenseTracker (header :: rows) exps0)
  = (Ok tt, mk_ExpenseTracker (header :: rows) (kept_rows rows)).
Proof.
  intros H. unfold load. cbn [data_file].
  rewrite (load_rows_header rows [] H). reflexivity.
Qed.



(** ** Deleting an expense *)

Lemma kept_rows_ids (rows : list (list string)) (e : Expense) :
  In e (kept_rows rows) ->
  exists row i, In row rows /\ hd_error row = Some i /\ id e = PyStr i.
Proof.
  unfold kept_rows. induction rows as [ | row rows IH ]; [ intros [] | ].
  cbn [flat_map]. intros H. apply in_app_or in H. destruct H as [H | H].
  - destruct (row_expense row) as [e' | ] eqn:E; [ | destruct H ].
    destruct H as [<- | []].
    destruct row as [ | i [ | d [ | a [ | c [ | desc rest ] ] ] ] ]; try discriminate.
    cbn [row_expense] in E.
    destruct (py_float a); [ | discriminate ].
    destruct (strptime d); [ | discriminate ].
    injection E as <-. exists (i :: d :: a :: c :: desc :: rest), i.
    repeat split. now left.
  - destruct (IH H) as [row' [i [Hin Hrow]]]. exists row', i.
    split; [ now right | exact Hrow ].
Qed.

(** C2 (amended): [delete_expense] returns [true] exactly when a record
    with that id is present.  Then the records with that id are gone from
    memory, the others stay in order, and the file is rewritten as the
    header row followed by one row of five cells for each remaining record
    (an id that is [None] is written as the empty text); when every record
    in memory carries a text as its id, no row of the rewritten file has the
    deleted id in its first cell, and loading the file again brings back no
    record with that id.  When it returns [false] memory and file are
    unchanged. *)
Theorem delete_expense_spec :
  forall expense_id self,
    let r := fst (delete_expense expense_id self) in
    let self' := snd (delete_expense expense_id self) in
    (r = true <-> exists e, In e (expenses self) /\ id e = PyStr expense_id)
    /\ (r = true ->
        (forall e, In e (expenses self') -> id e <> PyStr expense_id)
        /\ expenses self' = filter (fun e => ne_str (id e) expense_id) (expenses self)
        /\ exists rows,
             data_file self' = ["id"; "date"; "amount"; "category"; "description"] :: rows
             /\ Forall2 (fun e row =>
                           row = [match id e with PyStr i => i | PyNone => "" end;
                                  date e; amount e; category e; description e])
                  (expenses self') rows
             /\ (Forall (fun e => exists i, id e = PyStr i) (expenses self) ->
                 Forall (fun row => hd_error row <> Some expense_id) rows
                 /\ fst (load self') = Ok tt
                 /\ forall e, In e (expenses (snd (load self'))) ->
                               id e <> PyStr expense_id))
    /\ (r = false -> self' = self).
Proof.
  intros expense_id self. unfold delete_expense.
  set (kept := filter (fun e => ne_str (id e) expense_id) (expenses self)).
  destruct (Nat.eqb (List.length (expenses self)) (List.length kept)) eqn:E; simpl.
  - apply Nat.eqb_eq in E. symmetry in E. apply filter_length_eq in E.
    fold kept in E. split; [ | split ].
    + split; [ discriminate | ].
      intros [e [Hin Hid]]. rewrite <- E in Hin. unfold kept in Hin.
      apply filter_In in Hin. destruct Hin as [_ Hne].
      rewrite Hid in Hne. simpl in Hne. rewrite String.eqb_refl in Hne. discriminate.
    + discriminate.
    + intros _. rewrite E. destruct self; reflexivity.
  - apply Nat.eqb_neq in E. split; [ | split ].
    + split; [ | reflexivity ]. intros _.
      assert (H : exists e, In e (expenses self) /\ ne_str (id e) expense_id = false).
      { unfold kept in E. clear kept. induction (expenses self) as [ | a l IH ].
        - now contradiction E.
        - simpl in E. destruct (ne_str (id a) expense_id) eqn:Ea.
          + destruct IH as [e [Hin He]].
            * simpl in E. intros Heq. apply E. simpl. now rewrite Heq.
            * exists e. split; [ now right | exact He ].
          + exists a. split; [ now left | exact Ea ]. }
      destruct H as [e [Hin He]]. exists e. split; [ exact Hin | ].
      now apply ne_str_false.
    + intros _. split; [ | split; [ reflexivity | ] ].
      { intros e Hin Hid. unfold kept in Hin. apply filter_In in Hin.
        destruct Hin as [_ Hne]. apply ne_str_false in Hid. congruence. }
      exists (map expense_row kept). split; [ reflexivity | ]. split.
      { clear E. induction kept as [ | e l IH ]; cbn [map]; constructor; [ | exact IH ].
        destruct e as [[ | i] d a c desc]; reflexivity. }
      intros Hstr.
      assert (Hrows : Forall (fun row => hd_error row <> Some expense_id)
                        (map expense_row kept)).
      { apply Forall_forall. intros row Hrow. apply in_map_iff in Hrow.
        destruct Hrow as [e [<- He]]. unfold kept in He. apply filter_In in He.
        destruct He as [He Hne]. rewrite Forall_forall in Hstr.
        destruct (Hstr e He) as [i Hi]. cbn [expense_row hd_error]. rewrite Hi in *.
        cbn [csv_field ne_str] in *. intros Heq. injection Heq as ->.
        rewrite String.eqb_refl in Hne. discriminate. }
      split; [ exact Hrows | ].
      rewrite (load_header_file (map expense_row kept) kept).
      * cbn [fst snd expenses]. split; [ reflexivity | ].
        intros e He Hid. apply kept_rows_ids in He.
        destruct He as [row [i [Hin [Hhd Hi]]]].
        rewrite Forall_forall in Hrows. apply (Hrows row Hin).
        rewrite Hhd. congruence.
      * apply Forall_forall. intros row Hin. apply in_map_iff in Hin.
        destruct Hin as [e [<- _]]. right. simpl. lia.
    + discriminate.
Qed.

Lemma delete_expense_spec_witness :
  let e1 := mk_Expense (PyStr "u1") "2024-03-01" "1.00" "Food" "x" in
  let e2 := mk_Expense (PyStr "u2") "2024-03-02" "2.00" "Bills" "" in
  let e3 := mk_Expense (PyStr "u1x") "2024-03-03" "3.00" "Food" "" in
  let self := mk_ExpenseTracker (header :: map expense_row [e1; e2; e3]) [e1; e2; e3] in
  let self' := snd (delete_expense "u1" self) in
  fst (delete_expense "u1" self) = true
  /\ expenses self' = [e2; e3]
  /\ data_file self'
     = [["id"; "date"; "amount"; "category"; "description"];
        ["u2"; "2024-03-02"; "2.00"; "Bills"; ""];
        ["u1x"; "2024-03-03"; "3.00"; "Food"; ""]]
  /\ fst (load self') = Ok tt
  /\ forall e, In e (expenses (snd (load self'))) -> id e <> PyStr "u1".
Proof.
  intros e1 e2 e3 self self'.
  destruct (delete_expense_spec "u1" self) as [Hiff [Htrue _]].
  assert (Hr : fst (delete_expense "u1" self) = true) by reflexivity.
  destruct (Htrue Hr) as [_ [_ [rows [_ [_ Hfile]]]]].
  assert (Hstr : Forall (fun e => exists i, id e = PyStr i) (expenses self))
    by (repeat constructor; eexists; reflexivity).
  destruct (Hfile Hstr) as [_ [Hload Hids]].
  split; [ reflexivity | ]. split; [ reflexivity | ]. split; [ reflexivity | ].
  split; [ exact Hload | exact Hids ].
Defined.

(** C2, as stated, fails beside a record whose id is [None]: under a header
    that names the id column last, a row without that cell is loaded with
    the id [None], which the rewrite writes as the empty text.  After
    [delete_expense("")] has removed the record with the empty id and
    returned [true], the rewritten file has a row with the empty id, and
    loading it brings back a record with the id that was deleted. *)
Lemma delete_expense_counterexample :
  let file := [["date"; "amount"; "category"; "description"; "id"];
               ["2024-03-01"; "1"; "Food"; "x"];
               ["2024-03-02"; "2"; "Food"; "y"; ""]] in
  let self := snd (init (Some file)) in
  let self' := snd (delete_expense "" self) in
  fst (init (Some file)) = Ok tt
  /\ expenses self = [mk_Expense PyNone "2024-03-01" "1.00" "Food" "x";
                      mk_Expense (PyStr "") "2024-03-02" "2.00" "Food" "y"]
  /\ fst (delete_expense "" self) = true
  /\ data_file self'
     = [["id"; "date"; "amount"; "category"; "description"];
        [""; "2024-03-01"; "1.00"; "Food"; "x"]]
  /\ load self'
     = (Ok tt, mk_ExpenseTracker (data_file self')
                 [mk_Expense (PyStr "") "2024-03-01" "1.00" "Food" "x"]).
Proof. vm_compute. repeat split. Qed.

(** ** Memory and file stay in sync *)

Lemma row_expense_storable (e : Expense) :
  storable e -> row_expense (expense_row e) = Some e.
Proof.
  destruct e as [i d a c desc]. unfold storable. simpl.
  intros [[i' ->] [[dt Hd] [[x [Ha Hf]] [Hc Hdesc]]]].
  simpl. rewrite Ha, Hd, Hf, Hc, Hdesc. reflexivity.
Qed.

Lemma kept_rows_storable (l : list Expense) :
  Forall storable l -> kept_rows (map expense_row l) = l.
Proof.
  induction 1 as [ | e l He Hl IH ]; [ reflexivity | ].
  unfold kept_rows in *. cbn [map flat_map].
  rewrite (row_expense_storable e He), IH. reflexivity.
Qed.

Lemma load_in_sync (self : ExpenseTracker) :
  in_sync self -> Forall storable (expenses self) -> load self = (Ok tt, self).
Proof.
  destruct self as [file exps]. unfold in_sync. simpl. intros -> Hs.
  rewrite load_header_file.
  - now rewrite (kept_rows_storable exps Hs).
  - apply Forall_forall. intros row Hin. apply in_map_iff in Hin.
    destruct Hin as [e [<- _]]. right. simpl. lia.
Qed.

Lemma add_expense_storable uuid4 today a c d desc (self : ExpenseTracker) :
  valid_date (year today) (month today) (day today) = true ->
  four_digit_year today d ->
  Forall storable (expenses self) ->
  Forall storable (expenses (snd (add_expense uuid4 today a c d desc self))).
Proof.
  intros Ht Hy Hself. unfold add_expense.
  destruct (match d with None => Ok today | Some d0 => strptime d0 end)
    as [date_obj | ] eqn:Ed; [ | exact Hself ].
  destruct (py_float a) as [amt | ] eqn:Ea; [ | exact Hself ].
  simpl. apply Forall_app. split; [ exact Hself | ].
  constructor; [ | constructor ]. unfold storable. simpl.
  split; [ now exists uuid4 | ]. split; [ | split; [ | split; apply strip_idem ] ].
  - exists date_obj. destruct (add_expense_date today d date_obj Ht Ed) as [Hv H1000].
    apply strptime_strftime; [ exact Hv | now apply H1000 ].
  - apply py_float_format_2f_any.
    destruct (is_finite amt) eqn:Hf; [ left | now right ].
    now apply (py_float_representable a).
Qed.

Lemma add_expense_in_sync uuid4 today a c d desc (self : ExpenseTracker) :
  in_sync self -> in_sync (snd (add_expense uuid4 today a c d desc self)).
Proof.
  unfold in_sync, add_expense. intros H.
  destruct (match d with None => Ok today | Some d0 => strptime d0 end);
    [ | exact H ].
  destruct (py_float a); [ | exact H ].
  simpl. rewrite H, map_app. reflexivity.
Qed.

Lemma delete_expense_in_sync (expense_id : string) (self : ExpenseTracker) :
  in_sync self -> in_sync (snd (delete_expense expense_id self)).
Proof.
  unfold in_sync, delete_expense. intros H.
  destruct (Nat.eqb _ _) eqn:E; simpl; [ | reflexivity ].
  apply Nat.eqb_eq in E. symmetry in E. apply filter_length_eq in E.
  rewrite E. exact H.
Qed.

Lemma delete_expense_storable (expense_id : string) (self : ExpenseTracker) :
  Forall storable (expenses self) ->
  Forall storable (expenses (snd (delete_expense expense_id self))).
Proof.
  intros H. unfold delete_expense.
  destruct (Nat.eqb _ _); simpl; apply Forall_forall; intros e He;
    apply filter_In in He; destruct He as [He _];
    rewrite Forall_forall in H; now apply H.
Qed.

Lemma built_invariant (self : ExpenseTracker) :
  built self -> in_sync self /\ Forall storable (expenses self).
Proof.
  induction 1 as [ | self _ [IH1 IH2] | self uuid4 today a c d desc _ [IH1 IH2] Ht Hy _ _ _
                 | self expense_id _ [IH1 IH2] ].
  - split; [ reflexivity | constructor ].
  - rewrite (load_in_sync self IH1 IH2). now split.
  - split; [ now apply add_expense_in_sync | now apply add_expense_storable ].
  - split; [ now apply delete_expense_in_sync | now apply delete_expense_storable ].
Qed.

Lemma four_digit_year_entered (today : datetime) (d : string) (dt : datetime) :
  strptime d = Ok dt -> 1000 <= year dt -> four_digit_year today (Some d).
Proof.
  intros H Hy dt' H'. rewrite H in H'. injection H' as <-. exact Hy.
Qed.

(** X3: memory and file stay in sync: in every tracker made from a new
    file by adding, deleting and loading, where no date before the year
    1000 is added and the ids, categories and descriptions are within the
    field size limit of the [csv] reader, the file is the header row
    followed by the rows of the records in memory, in their order. *)
Theorem built_in_sync :
  forall self,
    built self -> data_file self = header :: map expense_row (expenses self).
Proof. intros self H. now apply built_invariant. Qed.

Lemma built_in_sync_witness :
  let today := mk_datetime 2026 11 3 in
  let self := snd (delete_expense "u1"
                     (snd (add_expense "u2" today "7" "Bills" None ""
                             (snd (add_expense "u1" today "12.5" " Food " (Some "2024-3-5") ""
                                     (snd (init None))))))) in
  data_file self = header :: map expense_row (expenses self).
Proof.
  intros today self. apply built_in_sync.
  apply built_delete.
  apply built_add;
    [ | reflexivity | simpl; lia
      | unfold within_field_size, field_size_limit; simpl; lia
      | unfold within_field_size, field_size_limit; simpl; lia
      | unfold within_field_size, field_size_limit; simpl; lia ].
  apply built_add;
    [ | reflexivity
      | apply (four_digit_year_entered _ _ (mk_datetime 2024 3 5));
        [ reflexivity | simpl; lia ]
      | unfold within_field_size, field_size_limit; simpl; lia
      | unfold within_field_size, field_size_limit; simpl; lia
      | unfold within_field_size, field_size_limit; simpl; lia ].
  apply built_new.
Defined.

(** X4: reloading changes nothing: on every tracker made from a new file
    by adding, deleting and loading, where no date before the year 1000 is
    added and the ids, categories and descriptions are within the field
    size limit of the [csv] reader, [load] raises nothing and leaves the
    tracker, memory and file, exactly as it was. *)
Theorem built_reload :
  forall self, built self -> load self = (Ok tt, self).
Proof.
  intros self H. destruct (built_invariant self H) as [H1 H2].
  now apply load_in_sync.
Qed.

Lemma built_reload_witness :
  let today := mk_datetime 2026 11 3 in
  let self := snd (add_expense "u2" today "1e400" "Bills" None " rent "
                     (snd (add_expense "u1" today "50.005" " Food " (Some "2024-3-5") ""
                             (snd (init None))))) in
  load self = (Ok tt, self).
Proof.
  intros today self. apply built_reload.
  apply built_add;
    [ | reflexivity | simpl; lia
      | unfold within_field_size, field_size_limit; simpl; lia
      | unfold within_field_size, field_size_limit; simpl; lia
      | unfold within_field_size, field_size_limit; simpl; lia ].
  apply built_add;
    [ | reflexivity
      | apply (four_digit_year_entered _ _ (mk_datetime 2024 3 5));
        [ reflexivity | simpl; lia ]
      | unfold within_field_size, field_size_limit; simpl; lia
      | unfold within_field_size, field_size_limit; simpl; lia
      | unfold within_field_size, field_size_limit; simpl; lia ].
  apply built_new.
Defined.

(** ** Deleting twice, and deleting what was added *)

Lemma filter_idem {A : Type} (f : A -> bool) (l : list A) :
  filter f (filter f l) = filter f l.
Proof.
  induction l as [ | a l IH ]; simpl; [ reflexivity | ].
  destruct (f a) eqn:E; simpl; [ rewrite E, IH | ]; auto.
Qed.

(** X5: deleting the same id a second time finds nothing: the second call
    returns [false] and leaves the tracker as the first call left it. *)
Theorem delete_expense_twice :
  forall expense_id self,
    let self1 := snd (delete_expense expense_id self) in
    delete_expense expense_id self1 = (false, self1).
Proof.
  intros expense_id self self1. subst self1. unfold delete_expense at 1.
  set (s1 := snd (delete_expense expense_id self)).
  assert (E : filter (fun e => ne_str (id e) expense_id) (expenses s1) = expenses s1).
  { unfold s1, delete_expense. destruct (Nat.eqb _ _); simpl; apply filter_idem. }
  rewrite E, Nat.eqb_refl. destruct s1; reflexivity.
Qed.

(** X6: deleting what was just added undoes the addition: on a tracker
    whose file is in sync with memory and that holds no record with the
    new id, a successful [add_expense] followed by [delete_expense] of the
    new id returns [true] and restores memory and file. *)
Theorem add_then_delete :
  forall uuid4 today a c d desc self new self',
    in_sync self ->
    (forall e, In e (expenses self) -> id e <> PyStr uuid4) ->
    add_expense uuid4 today a c d desc self = (Ok new, self') ->
    delete_expense uuid4 self' = (true, self).
Proof.
  intros uuid4 today a c d desc self new self' Hsync Hfresh Hadd.
  unfold add_expense in Hadd.
  destruct (match d with None => Ok today | Some d0 => strptime d0 end);
    [ | discriminate ].
  destruct (py_float a); [ | discriminate ].
  injection Hadd as <- <-. unfold delete_expense. cbn [expenses _append_to_file].
  rewrite filter_app. cbn [filter id ne_str].
  rewrite String.eqb_refl. cbn [negb]. rewrite app_nil_r.
  assert (E : filter (fun e => ne_str (id e) uuid4) (expenses self) = expenses self).
  { apply filter_all. apply Forall_forall. intros e He.
    destruct (ne_str (id e) uuid4) eqn:N; [ reflexivity | ].
    apply ne_str_false in N. now apply Hfresh in He. }
  rewrite E, length_app. cbn [List.length].
  destruct (Nat.eqb_spec (List.length (expenses self) + 1) (List.length (expenses self)));
    [ lia | ].
  unfold in_sync in Hsync. rewrite <- Hsync. destruct self; reflexivity.
Qed.

Lemma add_then_delete_witness :
  let today := mk_datetime 2026 11 3 in
  let e1 := mk_Expense (PyStr "u1") "2024-03-01" "100.00" "Food" "" in
  let self := mk_ExpenseTracker [header; expense_row e1] [e1] in
  delete_expense "u2" (snd (add_expense "u2" today "7" "Bills" None "" self)) = (true, self).
Proof.
  intros today e1 self.
  apply (add_then_delete "u2" today "7" "Bills" None "" self
           (mk_Expense (PyStr "u2") "2026-11-03" "7.00" "Bills" "")).
  - reflexivity.
  - intros e [<- | []]. discriminate.
  - vm_compute. reflexivity.
Defined.

(** ** Listing: what is kept, ties, and the limit *)

Lemma filter_expenses_dates (y m : option Z) (c : option string) (l : list Expense) :
  forall results r, filter_expenses y m c l results = Ok r -> dates_parse l.
Proof.
  induction l as [ | e l IH ]; intros results r H; [ constructor | ].
  cbn [filter_expenses] in H.
  destruct (strptime (date e)) as [dt | ] eqn:E; [ | discriminate ].
  cbn [bind] in H.
  constructor; [ now exists dt | ].
  destruct (match y with Some y0 => negb (year dt =? y0) | None => false end);
    [ now apply (IH _ _ H) | ].
  destruct (match m with Some m0 => negb (month dt =? m0) | None => false end);
    [ now apply (IH _ _ H) | ].
  destruct (match c with
            | Some c0 => negb (lower (category e) =? lower c0)%string
            | None => false
            end); now apply (IH _ _ H).
Qed.

Lemma list_expenses_unlimited (y m : option Z) (c : option string)
    (self : ExpenseTracker) (l : list Expense) :
  list_expenses y m c None self = Ok l ->
  l = list_sort String.ltb date true (filter (matches y m c) (expenses self)).
Proof.
  unfold list_expenses.
  destruct (filter_expenses y m c (expenses self) []) as [res | ] eqn:E;
    [ | discriminate ].
  cbn [bind]. intros H. injection H as <-.
  rewrite (filter_expenses_spec y m c (expenses self) [] (filter_expenses_dates _ _ _ _ _ _ E)) in E.
  injection E as <-. reflexivity.
Qed.

Section Stability.
Context {A : Type}.
Variable key : A -> string.

Lemma insert_filter_key (d : string) (x : A) (l : list A) :
  filter (fun a => (key a =? d)%string) (insert String.ltb key x l)
  = filter (fun a => (key a =? d)%string) (x :: l).
Proof.
  induction l as [ | b l IH ]; [ reflexivity | ].
  cbn [insert]. destruct (String.ltb (key b) (key x)) eqn:L; [ | reflexivity ].
  cbn [filter] in *. rewrite IH.
  destruct (String.eqb_spec (key x) d) as [Hx | ]; [ | reflexivity ].
  destruct (String.eqb_spec (key b) d) as [Hb | ]; [ | reflexivity ].
  rewrite Hx, Hb in L. unfold String.ltb in L.
  pose proof (String.compare_antisym d d) as R.
  destruct (String.compare d d); simpl in R; discriminate.
Qed.

Lemma sort_stable_filter_key (d : string) (l : list A) :
  filter (fun a => (key a =? d)%string) (sort_stable String.ltb key l)
  = filter (fun a => (key a =? d)%string) l.
Proof.
  induction l as [ | x l IH ]; [ reflexivity | ].
  cbn [sort_stable]. rewrite insert_filter_key. cbn [filter]. now rewrite IH.
Qed.

Lemma filter_rev (f : A -> bool) (l : list A) : filter f (rev l) = rev (filter f l).
Proof.
  induction l as [ | x l IH ]; [ reflexivity | ].
  cbn [rev filter]. rewrite filter_app, IH. cbn [filter].
  destruct (f x); [ reflexivity | now rewrite app_nil_r ].
Qed.

Lemma list_sort_filter_key (d : string) (reverse : bool) (l : list A) :
  filter (fun a => (key a =? d)%string) (list_sort String.ltb key reverse l)
  = filter (fun a => (key a =? d)%string) l.
Proof.
  unfold list_sort. destruct reverse; [ | apply sort_stable_filter_key ].
  now rewrite filter_rev, sort_stable_filter_key, filter_rev, rev_involutive.
Qed.
End Stability.

(** X7: the sort of [list_expenses] is stable: the records of one date
    come out in the order in which they stand in memory. *)
Theorem list_expenses_stable :
  forall year_arg month_arg category_arg self l d,
    list_expenses year_arg month_arg category_arg None self = Ok l ->
    filter (fun e => (date e =? d)%string) l
    = filter (fun e => (date e =? d)%string)
        (filter (matches year_arg month_arg category_arg) (expenses self)).
Proof.
  intros y m c self l d H. rewrite (list_expenses_unlimited y m c self l H).
  apply list_sort_filter_key.
Qed.

Lemma list_expenses_stable_witness :
  let e1 := mk_Expense (PyStr "a") "2024-03-05" "1.00" "Food" "first" in
  let e2 := mk_Expense (PyStr "b") "2024-03-09" "2.00" "Food" "" in
  let e3 := mk_Expense (PyStr "c") "2024-03-05" "3.00" "Bills" "second" in
  let self := mk_ExpenseTracker [] [e1; e2; e3] in
  filter (fun e => (date e =? "2024-03-05")%string) [e2; e1; e3]
  = filter (fun e => (date e =? "2024-03-05")%string)
      (filter (matches None None None) (expenses self)).
Proof.
  intros e1 e2 e3 self.
  apply (list_expenses_stable None None None self [e2; e1; e3] "2024-03-05").
  vm_compute. reflexivity.
Defined.

(** X8: a limit other than zero returns a prefix of the unlimited
    listing: its first [k] records for a positive [k] (all of them when
    there are fewer), and all but the last [-k] for a negative [k] (none
    when there are no more than [-k]). *)
Theorem list_expenses_limit_prefix :
  forall year_arg month_arg category_arg k self l,
    k <> 0 ->
    list_expenses year_arg month_arg category_arg None self = Ok l ->
    exists l',
      list_expenses year_arg month_arg category_arg (Some k) self = Ok l'
      /\ l' = firstn (List.length l') l
      /\ Z.of_nat (List.length l')
         = if k <? 0 then Z.max 0 (Z.of_nat (List.length l) + k)
           else Z.min k (Z.of_nat (List.length l)).
Proof.
  intros y m c k self l Hk. unfold list_expenses.
  destruct (filter_expenses y m c (expenses self) []) as [res | ]; cbn [bind];
    [ | discriminate ].
  intros H. injection H as <-.
  change (list_sort String.ltb date true res)
    with (rev (sort_stable String.ltb date (rev res))).
  generalize (rev (sort_stable String.ltb date (rev res))). intros s.
  destruct (Z.eqb_spec k 0) as [ | _ ]; [ contradiction | ].
  exists (slice_to s k). split; [ reflexivity | ].
  unfold slice_to. destruct (Z.ltb_spec k 0).
  - rewrite length_firstn. split.
    + f_equal. rewrite Nat.min_l; [ reflexivity | ]. lia.
    + lia.
  - rewrite length_firstn. split.
    + destruct (Nat.le_ge_cases (Z.to_nat k) (List.length s)).
      * now rewrite Nat.min_l.
      * rewrite Nat.min_r by assumption. now rewrite !firstn_all2 by lia.
    + lia.
Qed.

Lemma list_expenses_limit_prefix_witness :
  let e1 := mk_Expense (PyStr "a") "2024-03-05" "1.00" "Food" "" in
  let e2 := mk_Expense (PyStr "b") "2024-03-09" "2.00" "Food" "" in
  let e3 := mk_Expense (PyStr "c") "2024-02-05" "3.00" "Bills" "" in
  let self := mk_ExpenseTracker [] [e1; e2; e3] in
  exists l',
    list_expenses None None None (Some (-1)) self = Ok l'
    /\ l' = firstn (List.length l') [e2; e1; e3]
    /\ Z.of_nat (List.length l')
       = if -1 <? 0 then Z.max 0 (Z.of_nat (List.length [e2; e1; e3]) + -1)
         else Z.min (-1) (Z.of_nat (List.length [e2; e1; e3])).
Proof.
  intros e1 e2 e3 self.
  apply (list_expenses_limit_prefix None None None (-1) self [e2; e1; e3]).
  - lia.
  - vm_compute. reflexivity.
Defined.

(** ** The categories of a monthly report *)

Lemma totals_add_keys (t : list (string * vals)) (c : string) (a : float) (k : string) :
  In k (map fst (totals_add t c a)) <-> In k (map fst t) \/ k = c.
Proof.
  induction t as [ | [c0 v] t IH ]; cbn [totals_add map fst In].
  - split; [ intros [<- | []]; now right | intros [[] | ->]; now left ].
  - destruct (String.eqb_spec c c0) as [-> | Hne]; cbn [map fst In].
    + split; [ tauto | intros [H | ->]; [ exact H | now left ] ].
    + rewrite IH. tauto.
Qed.

Lemma totals_add_NoDup (t : list (string * vals)) (c : string) (a : float) :
  NoDup (map fst t) -> NoDup (map fst (totals_add t c a)).
Proof.
  induction t as [ | [c0 v] t IH ]; cbn [totals_add map fst]; intros H.
  - constructor; [ intros [] | constructor ].
  - destruct (String.eqb_spec c c0) as [-> | Hne]; cbn [map fst]; [ exact H | ].
    inversion H as [ | ? ? Hnin Hnd ]; subst. constructor; [ | now apply IH ].
    rewrite totals_add_keys. intros [Hin | ->]; [ now apply Hnin | now apply Hne ].
Qed.

Lemma totals_add_count (t : list (string * vals)) (c : string) (a : float) (k : string) :
  count_of (totals_add t c a) k = count_of t k + (if (c =? k)%string then 1 else 0).
Proof.
  unfold count_of. induction t as [ | [c0 v] t IH ]; cbn [totals_add find fst snd].
  - destruct (c =? k)%string; reflexivity.
  - destruct (String.eqb_spec c c0) as [-> | Hne]; cbn [find fst snd vals_count].
    + destruct (c0 =? k)%string; cbn [snd vals_count]; lia.
    + destruct (String.eqb_spec c0 k) as [-> | ]; [ | exact IH ].
      destruct (String.eqb_spec c k); [ contradiction | lia ].
Qed.

Lemma totals_add_sum (t : list (string * vals)) (c : string) (a : float) :
  sum_counts (totals_add t c a) = sum_counts t + 1.
Proof.
  unfold sum_counts. induction t as [ | [c0 v] t IH ]; cbn [totals_add fold_right snd vals_count].
  - lia.
  - destruct (c =? c0)%string; cbn [fold_right snd vals_count]; lia.
Qed.

Lemma count_cat_cons (k : string) (e : Expense) (l : list Expense) :
  count_cat k (e :: l) = (if (category e =? k)%string then 1 else 0) + count_cat k l.
Proof.
  unfold count_cat. cbn [filter]. destruct (category e =? k)%string; cbn [List.length]; lia.
Qed.

Lemma report_loop_categories (l : list Expense) :
  forall t tot t' tot',
    report_loop l t tot = Ok (t', tot') ->
    (NoDup (map fst t) -> NoDup (map fst t'))
    /\ (forall k, In k (map fst t') <-> In k (map fst t) \/ In k (map category l))
    /\ (forall k, count_of t' k = count_of t k + count_cat k l)
    /\ sum_counts t' = sum_counts t + Z.of_nat (List.length l).
Proof.
  induction l as [ | e l IH ]; intros t tot t' tot' H; cbn [report_loop] in H.
  - injection H as <- <-. cbn [map In List.length]. unfold count_cat. cbn [filter List.length].
    repeat split; try tauto; lia.
  - destruct (py_float (amount e)) as [amt | ]; [ | discriminate ]. cbn [bind] in H.
    destruct (IH _ _ _ _ H) as [H1 [H2 [H3 H4]]]. repeat split.
    + intros Hn. now apply H1, totals_add_NoDup.
    + intros Hk. apply H2 in Hk. rewrite totals_add_keys in Hk. cbn [map In].
      destruct Hk as [[Hk | ->] | Hk]; auto.
    + intros Hk. apply H2. rewrite totals_add_keys. cbn [map In] in Hk.
      destruct Hk as [Hk | [<- | Hk]]; auto.
    + intros k. rewrite H3, totals_add_count, count_cat_cons. lia.
    + rewrite H4, totals_add_sum. cbn [List.length]. lia.
Qed.

Lemma map_fst_round_vals (t : list (string * vals)) : map fst (map round_vals t) = map fst t.
Proof. rewrite map_map. apply map_ext. now intros [c v]. Qed.

Lemma sum_counts_round_vals (t : list (string * vals)) :
  sum_counts (map round_vals t) = sum_counts t.
Proof.
  unfold sum_counts. induction t as [ | [c v] t IH ]; cbn [map fold_right]; [ reflexivity | ].
  rewrite IH. reflexivity.
Qed.

Lemma count_of_In (t : list (string * vals)) (cv : string * vals) :
  NoDup (map fst t) -> In cv t -> count_of t (fst cv) = vals_count (snd cv).
Proof.
  unfold count_of. induction t as [ | [c0 v0] t IH ]; intros Hn Hin; [ destruct Hin | ].
  cbn [map fst] in Hn. inversion Hn as [ | ? ? Hnin Hnd ]; subst.
  cbn [find fst]. destruct Hin as [<- | Hin].
  - cbn [fst snd]. now rewrite String.eqb_refl.
  - destruct (String.eqb_spec c0 (fst cv)) as [-> | ]; [ | now apply IH ].
    exfalso. apply Hnin. now apply in_map.
Qed.

Lemma monthly_report_inv (y m : Z) (self : ExpenseTracker) (report : Report) :
  monthly_report y m self = Ok report ->
  exists l t tot,
    list_expenses (Some y) (Some m) None None self = Ok l
    /\ report_loop l [] zero = Ok (t, tot)
    /\ report = mk_Report y m (map round_vals t) (round2 tot).
Proof.
  unfold monthly_report.
  destruct (list_expenses (Some y) (Some m) None None self) as [l | ]; cbn [bind];
    [ | discriminate ].
  destruct (report_loop l [] zero) as [[t tot] | ] eqn:E; cbn [bind fst snd];
    [ | discriminate ].
  intros H. injection H as <-. exists l, t, tot. now rewrite E.
Qed.

(** X9: the categories of a monthly report are those of the records
    listed for the month, each one once. *)
Theorem monthly_report_keys :
  forall y m self report l,
    monthly_report y m self = Ok report ->
    list_expenses (Some y) (Some m) None None self = Ok l ->
    NoDup (map fst (categories report))
    /\ forall c, In c (map fst (categories report)) <-> In c (map category l).
Proof.
  intros y m self report l H Hl.
  destruct (monthly_report_inv y m self report H) as [l0 [t [tot [Hl0 [Hloop ->]]]]].
  rewrite Hl in Hl0. injection Hl0 as <-.
  destruct (report_loop_categories l _ _ _ _ Hloop) as [H1 [H2 _]].
  cbn [categories]. rewrite map_fst_round_vals. split.
  - apply H1. constructor.
  - intros c. rewrite H2. cbn [map In]. tauto.
Qed.

Lemma monthly_report_keys_witness :
  let e1 := mk_Expense (PyStr "a") "2024-03-05" "1.00" "Food" "" in
  let e2 := mk_Expense (PyStr "b") "2024-03-09" "2.00" "Bills" "" in
  let e3 := mk_Expense (PyStr "c") "2024-03-05" "3.00" "Food" "" in
  let e4 := mk_Expense (PyStr "d") "2024-04-01" "4.00" "Rent" "" in
  let self := mk_ExpenseTracker [] [e1; e2; e3; e4] in
  let report := mk_Report 2024 3
                  [("Bills", mk_vals (round2 (float_of_decimal false 2 0)) 1);
                   ("Food", mk_vals (round2 (float_of_decimal false 4 0)) 2)]
                  (round2 (float_of_decimal false 6 0)) in
  NoDup (map fst (categories report))
  /\ forall c, In c (map fst (categories report)) <-> In c (map category [e2; e1; e3]).
Proof.
  intros e1 e2 e3 e4 self report.
  apply (monthly_report_keys 2024 3 self report [e2; e1; e3]); vm_compute; reflexivity.
Defined.

(** X10: the count of each category of a monthly report is the number of
    listed records in that category, and the counts add up to the number
    of listed records. *)
Theorem monthly_report_counts :
  forall y m self report l,
    monthly_report y m self = Ok report ->
    list_expenses (Some y) (Some m) None None self = Ok l ->
    (forall c v, In (c, v) (categories report) -> vals_count v = count_cat c l)
    /\ sum_counts (categories report) = Z.of_nat (List.length l).
Proof.
  intros y m self report l H Hl.
  destruct (monthly_report_inv y m self report H) as [l0 [t [tot [Hl0 [Hloop ->]]]]].
  rewrite Hl in Hl0. injection Hl0 as <-.
  destruct (report_loop_categories l _ _ _ _ Hloop) as [H1 [_ [H3 H4]]].
  cbn [categories]. split.
  - intros c v Hin. apply in_map_iff in Hin. destruct Hin as [cv [E Hin]].
    unfold round_vals in E. injection E as <- <-.
    rewrite <- (count_of_In t cv (H1 (NoDup_nil _)) Hin), H3. reflexivity.
  - rewrite sum_counts_round_vals, H4. reflexivity.
Qed.

Lemma monthly_report_counts_witness :
  let e1 := mk_Expense (PyStr "a") "2024-03-05" "1.00" "Food" "" in
  let e2 := mk_Expense (PyStr "b") "2024-03-09" "2.00" "Bills" "" in
  let e3 := mk_Expense (PyStr "c") "2024-03-05" "3.00" "Food" "" in
  let e4 := mk_Expense (PyStr "d") "2024-04-01" "4.00" "Rent" "" in
  let self := mk_ExpenseTracker [] [e1; e2; e3; e4] in
  let report := mk_Report 2024 3
                  [("Bills", mk_vals (round2 (float_of_decimal false 2 0)) 1);
                   ("Food", mk_vals (round2 (float_of_decimal false 4 0)) 2)]
                  (round2 (float_of_decimal false 6 0)) in
  (forall c v, In (c, v) (categories report) -> vals_count v = count_cat c [e2; e1; e3])
  /\ sum_counts (categories report) = Z.of_nat (List.length [e2; e1; e3]).
Proof.
  intros e1 e2 e3 e4 self report.
  apply (monthly_report_counts 2024 3 self report [e2; e1; e3]); vm_compute; reflexivity.
Defined.

(** ** Reports of trackers that the operations produce *)

Lemma py_float_format_2f_total (x : float) : exists y, py_float (format_2f x) = Ok y.
Proof.
  destruct (is_finite x) eqn:Hf.
  - exists (round2 x). now apply py_float_format_2f.
  - destruct x as [s | s | | s m e]; try discriminate.
    + exists (S754_infinity s). destruct s; reflexivity.
    + exists S754_nan. reflexivity.
Qed.

Lemma report_loop_total (l : list Expense) :
  Forall (fun e => parses_as_number (amount e)) l ->
  forall t tot, exists r, report_loop l t tot = Ok r.
Proof.
  induction 1 as [ | e l [x Hx] _ IH ]; intros t tot; cbn [report_loop].
  - now eexists.
  - rewrite Hx. cbn [bind]. apply IH.
Qed.

Lemma list_expenses_In (y m : option Z) (c : option string) (self : ExpenseTracker)
    (l : list Expense) (e : Expense) :
  list_expenses y m c None self = Ok l ->
  In e l -> In e (expenses self) /\ matches y m c e = true.
Proof.
  intros H Hin. rewrite (list_expenses_unlimited y m c self l H) in Hin.
  apply (Permutation_in _ (list_sort_perm String.ltb date true _)) in Hin.
  now apply filter_In in Hin.
Qed.

(** X11: on a tracker that the operations produce from any file, when no
    date before the year 1000 is added, [list_expenses] and
    [monthly_report] return for every choice of arguments; neither raises. *)
Theorem reachable_reports :
  forall self,
    reachable self ->
    (forall year_arg month_arg category_arg limit,
        exists l, list_expenses year_arg month_arg category_arg limit self = Ok l)
    /\ (forall y m, exists report, monthly_report y m self = Ok report).
Proof.
  intros self H. split.
  - intros y m c limit. now apply reachable_list_expenses.
  - intros y m. unfold monthly_report.
    destruct (reachable_list_expenses self (Some y) (Some m) None None H) as [l Hl].
    rewrite Hl. cbn [bind].
    destruct (report_loop_total l) with (t := @nil (string * vals)) (tot := zero)
      as [r Hr].
    + apply Forall_forall. intros e He.
      destruct (list_expenses_In _ _ _ _ _ _ Hl He) as [Hin _].
      pose proof (reachable_well_formed self H) as Hw. rewrite Forall_forall in Hw.
      destruct (Hw e Hin) as [_ [x ->]]. apply py_float_format_2f_total.
    + rewrite Hr. cbn [bind]. now eexists.
Qed.

Lemma reachable_reports_witness :
  let self := snd (init (Some [header; ["x1"; "2024-03-01"; "1e999"; "Food"; ""];
                               ["x2"; "2024-3-1"; "nan"; " food"; ""]; ["x3"; "yesterday"]])) in
  (forall year_arg month_arg category_arg limit,
      exists l, list_expenses year_arg month_arg category_arg limit self = Ok l)
  /\ (forall y m, exists report, monthly_report y m self = Ok report).
Proof.
  intros self. apply reachable_reports.
  apply (reachable_init
           (Some [header; ["x1"; "2024-03-01"; "1e999"; "Food"; ""];
                  ["x2"; "2024-3-1"; "nan"; " food"; ""]; ["x3"; "yesterday"]])).
  vm_compute. reflexivity.
Defined.

Lemma report_loop_nil (l : list Expense) (t : list (string * vals)) (tot tot' : float) :
  report_loop l t tot = Ok ([], tot') -> l = [] /\ t = [] /\ tot' = tot.
Proof.
  intros H. destruct (report_loop_categories l _ _ _ _ H) as [_ [_ [_ H4]]].
  destruct l as [ | e l ].
  - cbn [report_loop] in H. injection H as -> ->. auto.
  - exfalso. cbn [report_loop] in H.
    destruct (py_float (amount e)) as [amt | ]; [ | discriminate ]. cbn [bind] in H.
    destruct (report_loop_categories l _ _ _ _ H) as [_ [H2 _]].
    destruct (proj2 (H2 (category e))) as [].
    left. apply totals_add_keys. now right.
Qed.

Lemma filter_none {A : Type} (f : A -> bool) (l : list A) :
  Forall (fun x => f x = false) l -> filter f l = [].
Proof.
  induction 1 as [ | x l0 Hx _ IH ]; [ reflexivity | ].
  cbn [filter]. now rewrite Hx.
Qed.

(** X12: a monthly report has no categories exactly when no record in
    memory falls in the month, and its total is then [0.0]. *)
Theorem monthly_report_empty :
  forall y m self report,
    monthly_report y m self = Ok report ->
    (categories report = []
     <-> Forall (fun e => matches (Some y) (Some m) None e = false) (expenses self))
    /\ (categories report = [] -> total_spent report = zero).
Proof.
  intros y m self report H.
  destruct (monthly_report_inv y m self report H) as [l [t [tot [Hl [Hloop ->]]]]].
  cbn [categories total_spent].
  pose proof (list_expenses_unlimited _ _ _ _ _ Hl) as El.
  assert (Hnil : map round_vals t = [] -> l = [] /\ tot = zero).
  { intros E. destruct t; [ | discriminate ].
    destruct (report_loop_nil _ _ _ _ Hloop) as [-> [_ ->]]. auto. }
  split; [ split | ].
  - intros E. destruct (Hnil E) as [-> _].
    apply Forall_forall. intros e He.
    destruct (matches (Some y) (Some m) None e) eqn:M; [ | reflexivity ].
    assert (Hin : In e (filter (matches (Some y) (Some m) None) (expenses self)))
      by (apply filter_In; auto).
    apply (Permutation_in _ (Permutation_sym (list_sort_perm String.ltb date true _))) in Hin.
    rewrite <- El in Hin. destruct Hin.
  - intros Hf.
    assert (E : filter (matches (Some y) (Some m) None) (expenses self) = []).
    { now apply filter_none. }
    rewrite E in El. cbn in El. subst l.
    cbn [report_loop] in Hloop. injection Hloop as <- <-. reflexivity.
  - intros E. destruct (Hnil E) as [_ ->]. reflexivity.
Qed.

Lemma monthly_report_empty_witness :
  let e1 := mk_Expense (PyStr "a") "2024-03-05" "1.00" "Food" "" in
  let self := mk_ExpenseTracker [] [e1] in
  let report := mk_Report 2024 4 [] zero in
  (categories report = []
   <-> Forall (fun e => matches (Some 2024) (Some 4) None e = false) (expenses self))
  /\ (categories report = [] -> total_spent report = zero).
Proof.
  intros e1 self report. apply (monthly_report_empty 2024 4 self report).
  vm_compute. reflexivity.
Defined.

(** ** Exporting *)

Lemma valid_date_first (y m d : Z) : valid_date y m d = true -> valid_date y m 1 = true.
Proof.
  unfold valid_date, days_in_month. intros H.
  repeat (apply andb_prop in H; destruct H as [H ?]).
  repeat (apply andb_true_intro; split); try assumption; try reflexivity.
  destruct (m =? 2); [ destruct (is_leap y); reflexivity | ].
  destruct ((m =? 4) || (m =? 6) || (m =? 9) || (m =? 11)); reflexivity.
Qed.

Lemma valid_date_first_iff (y m : Z) :
  valid_date y m 1 = true <-> 1 <= y <= 9999 /\ 1 <= m <= 12.
Proof.
  unfold valid_date, days_in_month. split.
  - intros H. repeat (apply andb_prop in H; destruct H as [H ?]). lia.
  - intros H. repeat (apply andb_true_intro; split); try (apply Z.leb_le; lia).
    destruct (m =? 2); [ destruct (is_leap y); reflexivity | ].
    destruct ((m =? 4) || (m =? 6) || (m =? 9) || (m =? 11)); reflexivity.
Qed.

Lemma c_int_iff (n : Z) : c_int n = true <-> - 2 ^ 31 <= n < 2 ^ 31.
Proof.
  unfold c_int. rewrite andb_true_iff, Z.leb_le, Z.ltb_lt. reflexivity.
Qed.

Lemma export_report_text_cases (report : Report) :
  (valid_date (r_year report) (r_month report) 1 = true
   -> exists text, export_report_text report = Ok text)
  /\ (c_int (r_year report) && c_int (r_month report) = true
      -> valid_date (r_year report) (r_month report) 1 = false
      -> export_report_text report = Raise ValueError)
  /\ (c_int (r_year report) && c_int (r_month report) = false
      -> export_report_text report = Raise OverflowError).
Proof.
  unfold export_report_text, report_lines. split; [ | split ].
  - intros H. rewrite (new_datetime_valid _ _ _ H). cbn [bind].
    destruct (categories report); cbn [bind]; now eexists.
  - intros Hc Hv. unfold new_datetime. change (c_int 1) with true.
    rewrite andb_true_r, Hc, Hv. reflexivity.
  - intros Hc. unfold new_datetime. change (c_int 1) with true.
    rewrite andb_true_r, Hc. reflexivity.
Qed.

(** X13: the export that the menu reaches cannot fail on the date: for a
    report of [monthly_report] with at least one category, which is when
    the menu exports, [export_report_text] returns its text. *)
Theorem export_after_report :
  forall y m self report,
    monthly_report y m self = Ok report ->
    categories report <> [] ->
    exists text, export_report_text report = Ok text.
Proof.
  intros y m self report H Hne.
  destruct (monthly_report_inv y m self report H) as [l [t [tot [Hl [Hloop E]]]]].
  apply (proj1 (export_report_text_cases report)). subst report.
  cbn [r_year r_month categories] in *.
  destruct l as [ | e l ].
  - cbn [report_loop] in Hloop. injection Hloop as <- <-. now destruct Hne.
  - destruct (list_expenses_In _ _ _ _ _ e Hl (or_introl eq_refl)) as [_ M].
    unfold matches in M. destruct (strptime (date e)) as [dt | ] eqn:Ed; [ | discriminate ].
    apply strptime_valid in Ed.
    rewrite andb_true_r in M. apply andb_prop in M. destruct M as [My Mm].
    apply Z.eqb_eq in My. apply Z.eqb_eq in Mm. subst y m.
    now apply (valid_date_first _ _ (day dt)).
Qed.

Lemma export_after_report_witness :
  let e1 := mk_Expense (PyStr "a") "2024-03-05" "1.00" "Food" "" in
  let self := mk_ExpenseTracker [] [e1] in
  let report := mk_Report 2024 3 [("Food", mk_vals (round2 (float_of_decimal false 1 0)) 1)]
                  (round2 (float_of_decimal false 1 0)) in
  exists text, export_report_text report = Ok text.
Proof.
  intros e1 self report. apply (export_after_report 2024 3 self report).
  - vm_compute. reflexivity.
  - discriminate.
Defined.

(** X14: [export_report_text] returns its text exactly for a report of a
    year in 1..9999 and a month in 1..12.  For any other report it raises
    and writes nothing: [OverflowError] when the year or the month does not
    fit a C [int], [ValueError] otherwise. *)
Theorem export_report_text_raises :
  forall report,
    let in_calendar := 1 <= r_year report <= 9999 /\ 1 <= r_month report <= 12 in
    let in_c_int := - 2 ^ 31 <= r_year report < 2 ^ 31
                    /\ - 2 ^ 31 <= r_month report < 2 ^ 31 in
    ((exists text, export_report_text report = Ok text) <-> in_calendar)
    /\ (export_report_text report = Raise ValueError <-> in_c_int /\ ~ in_calendar)
    /\ (export_report_text report = Raise OverflowError <-> ~ in_c_int).
Proof.
  intros report in_calendar in_c_int. subst in_calendar in_c_int.
  rewrite <- valid_date_first_iff, <- !c_int_iff, <- andb_true_iff.
  destruct (export_report_text_cases report) as [H1 [H2 H3]].
  destruct (c_int (r_year report) && c_int (r_month report)) eqn:Hc.
  - destruct (valid_date (r_year report) (r_month report) 1) eqn:Hv.
    + destruct (H1 eq_refl) as [text E]. rewrite E. repeat split; try discriminate.
      * intros _. now exists text.
      * intros [_ N]. now destruct N.
      * intros N. now destruct N.
    + rewrite (H2 eq_refl eq_refl). repeat split; try discriminate.
      * intros [text E]. discriminate.
      * intros N. now destruct N.
  - assert (Hv : valid_date (r_year report) (r_month report) 1 = false).
    { destruct (valid_date (r_year report) (r_month report) 1) eqn:Hv; [ | reflexivity ].
      apply valid_date_first_iff in Hv.
      assert (Hc' : c_int (r_year report) && c_int (r_month report) = true).
      { apply andb_true_iff. rewrite !c_int_iff. lia. }
      rewrite Hc in Hc'. discriminate. }
    rewrite Hv, (H3 eq_refl). repeat split; try discriminate.
    + intros [text E]. discriminate.
    + intros [N _]. discriminate.
Qed.

(** X15: the rounding of [monthly_report] does not show in the exports:
    a category whose amount is a binary64 float, an infinity or NaN gives
    the same CSV row and the same text line before and after [round(x, 2)]. *)
Theorem rounding_invisible :
  forall cv,
    representable (vals_amount (snd cv)) \/ is_finite (vals_amount (snd cv)) = false ->
    csv_row (round_vals cv) = csv_row cv /\ text_line (round_vals cv) = text_line cv.
Proof.
  intros [c [x n]] H. cbn [snd vals_amount] in H.
  assert (E : format_2f (round2 x) = format_2f x).
  { destruct (is_finite x) eqn:Hf.
    - destruct H as [Hr | H]; [ now apply format_2f_round2 | discriminate ].
    - destruct x; try discriminate; reflexivity. }
  unfold csv_row, text_line, round_vals. cbn [fst snd vals_amount vals_count].
  now rewrite E.
Qed.

Lemma rounding_invisible_witness :
  let x := S754_finite false 7037578105208177 (-47) in
  csv_row (round_vals ("Food", mk_vals x 2)) = csv_row ("Food", mk_vals x 2)
  /\ text_line (round_vals ("Food", mk_vals x 2)) = text_line ("Food", mk_vals x 2).
Proof.
  intros x. apply (rounding_invisible ("Food", mk_vals x 2)).
  left. cbn. split; [ reflexivity | lia ].
Defined.

(** ** Loading a file with short rows *)

Lemma load_rows_truncated (rows : list (list string)) :
  forall acc,
    load_rows header rows acc
    = (if existsb truncated rows then Raise AttributeError else Ok tt,
       acc ++ kept_rows (before_truncated rows)).
Proof.
  induction rows as [ | row rows IH ]; intros acc.
  - simpl. now rewrite app_nil_r.
  - destruct row as [ | i [ | d [ | a [ | c [ | desc rest ] ] ] ] ].
    + cbn [load_rows existsb truncated before_truncated orb]. unfold kept_rows.
      cbn [flat_map row_expense app]. apply IH.
    + cbn [load_rows existsb truncated before_truncated orb]. unfold kept_rows.
      cbn [flat_map row_expense app]. fold (kept_rows (before_truncated rows)).
      change (dict_item (DictReader_row header [i]) "amount") with (Ok PyNone).
      cbn [bind py_float_value]. apply IH.
    + cbn [load_rows existsb truncated before_truncated orb]. unfold kept_rows.
      cbn [flat_map row_expense app]. fold (kept_rows (before_truncated rows)).
      change (dict_item (DictReader_row header [i; d]) "amount") with (Ok PyNone).
      cbn [bind py_float_value]. apply IH.
    + cbn [load_rows existsb truncated before_truncated].
      change (dict_item (DictReader_row header [i; d; a]) "amount") with (Ok (PyStr a)).
      change (dict_item (DictReader_row header [i; d; a]) "date") with (Ok (PyStr d)).
      change (dict_item (DictReader_row header [i; d; a]) "id") with (Ok (PyStr i)).
      change (get_stripped (DictReader_row header [i; d; a]) "category")
        with (@Raise string AttributeError).
      cbn [bind py_float_value strptime_value].
      destruct (py_float a) as [amt | ].
      * destruct (strptime d) as [dt | ].
        -- cbn [orb]. unfold kept_rows. cbn [flat_map]. now rewrite app_nil_r.
        -- cbn [orb]. unfold kept_rows. cbn [flat_map row_expense app].
           fold (kept_rows (before_truncated rows)). apply IH.
      * cbn [orb]. unfold kept_rows. cbn [flat_map row_expense app].
        fold (kept_rows (before_truncated rows)). apply IH.
    + cbn [load_rows existsb truncated before_truncated].
      change (dict_item (DictReader_row header [i; d; a; c]) "amount") with (Ok (PyStr a)).
      change (dict_item (DictReader_row header [i; d; a; c]) "date") with (Ok (PyStr d)).
      change (dict_item (DictReader_row header [i; d; a; c]) "id") with (Ok (PyStr i)).
      change (get_stripped (DictReader_row header [i; d; a; c]) "category")
        with (Ok (strip c)).
      change (get_stripped (DictReader_row header [i; d; a; c]) "description")
        with (@Raise string AttributeError).
      cbn [bind py_float_value strptime_value].
      destruct (py_float a) as [amt | ].
      * destruct (strptime d) as [dt | ].
        -- cbn [orb]. unfold kept_rows. cbn [flat_map]. now rewrite app_nil_r.
        -- cbn [orb]. unfold kept_rows. cbn [flat_map row_expense app].
           fold (kept_rows (before_truncated rows)). apply IH.
      * cbn [orb]. unfold kept_rows. cbn [flat_map row_expense app].
        fold (kept_rows (before_truncated rows)). apply IH.
    + cbn [load_rows existsb truncated before_truncated orb].
      rewrite DictReader_row_header.
      change (dict_item _ "amount") with (Ok (PyStr a)).
      change (dict_item _ "date") with (Ok (PyStr d)).
      change (dict_item _ "id") with (Ok (PyStr i)).
      change (get_stripped _ "category") with (Ok (strip c)).
      change (get_stripped _ "description") with (Ok (strip desc)).
      cbn [bind py_float_value strptime_value csv_field].
      unfold kept_rows. cbn [flat_map row_expense].
      fold (kept_rows (before_truncated rows)).
      destruct (py_float a) as [amt | ]; [ | now apply IH ].
      destruct (strptime d) as [dt | ]; [ | now apply IH ].
      rewrite IH, <- app_assoc. reflexivity.
Qed.

(** X16: under the standard header [load] raises exactly when the file
    has a row of three or four fields whose amount and date parse, and
    what it raises is [AttributeError]; rows of one or two fields are
    skipped like blank ones.  Memory then holds the records of the rows
    before the first such row, and the file is not touched. *)
Theorem load_truncated_rows :
  forall rows exps0,
    load (mk_ExpenseTracker (header :: rows) exps0)
    = (if existsb truncated rows then Raise AttributeError else Ok tt,
       mk_ExpenseTracker (header :: rows) (kept_rows (before_truncated rows))).
Proof.
  intros rows exps0. unfold load. cbn [data_file].
  rewrite (load_rows_truncated rows []). reflexivity.
Qed.

(** ** The delete entry of the menu *)

Lemma id_matches_nil (eid : string) (l : list Expense) :
  id_matches eid l = Ok [] ->
  Forall (fun e => exists i, id e = PyStr i /\ startswith i eid = false) l.
Proof.
  induction l as [ | e l IH ]; intros H; [ constructor | ].
  cbn [id_matches] in H. destruct (id e) as [ | i ] eqn:Ei; [ discriminate | ].
  destruct (id_matches eid l) as [rest | ]; [ | discriminate ]. cbn [bind] in H.
  destruct (startswith i eid) eqn:Es; [ discriminate | ].
  injection H as ->. constructor; [ now exists i | now apply IH ].
Qed.

Lemma id_matches_single (eid : string) (l : list Expense) (m : Expense) :
  id_matches eid l = Ok [m] ->
  exists l1 l2 i,
    l = l1 ++ m :: l2
    /\ id m = PyStr i /\ startswith i eid = true
    /\ Forall (fun e => exists j, id e = PyStr j /\ startswith j eid = false) (l1 ++ l2).
Proof.
  induction l as [ | e l IH ]; intros H; [ discriminate | ].
  cbn [id_matches] in H. destruct (id e) as [ | i ] eqn:Ei; [ discriminate | ].
  destruct (id_matches eid l) as [rest | ] eqn:Er; [ | discriminate ]. cbn [bind] in H.
  destruct (startswith i eid) eqn:Es.
  - injection H as -> ->. exists [], l, i. repeat split; try assumption.
    now apply id_matches_nil.
  - injection H as ->. destruct (IH eq_refl) as [l1 [l2 [i0 [-> [H1 [H2 H3]]]]]].
    exists (e :: l1), l2, i0. repeat split; try assumption.
    cbn [app]. constructor; [ now exists i | exact H3 ].
Qed.

Lemma delete_single (eid i : string) (l1 l2 : list Expense) (m : Expense) :
  id m = PyStr i -> startswith i eid = true ->
  Forall (fun e => exists j, id e = PyStr j /\ startswith j eid = false) (l1 ++ l2) ->
  filter (fun e => ne_str (id e) i) (l1 ++ m :: l2) = l1 ++ l2.
Proof.
  intros Hm Hs Hf. rewrite filter_app. cbn [filter]. rewrite Hm. cbn [ne_str].
  rewrite String.eqb_refl. cbn [negb]. rewrite <- filter_app.
  apply filter_all. apply Forall_forall. intros e He.
  rewrite Forall_forall in Hf. destruct (Hf e He) as [j [Ej Hj]].
  rewrite Ej. cbn [ne_str]. destruct (String.eqb_spec j i) as [-> | ]; [ | reflexivity ].
  rewrite Hs in Hj. discriminate.
Qed.

Lemma menu_delete_cases (entry answer : string) (tracker : ExpenseTracker) :
  let r := menu_delete entry answer tracker in
  (snd r = tracker /\ fst r <> Ok ["Deleted."] /\ fst r <> Ok ["Failed to delete."])
  \/ (fst r = Ok ["Deleted."]
      /\ exists l1 m l2 i,
           expenses tracker = l1 ++ m :: l2
           /\ id m = PyStr i /\ startswith i (strip entry) = true
           /\ snd r = mk_ExpenseTracker (header :: map expense_row (l1 ++ l2)) (l1 ++ l2)).
Proof.
  unfold menu_delete.
  destruct (strip entry) as [ | c0 s0 ] eqn:Ee;
    [ left; repeat split; discriminate | ].
  rewrite <- Ee.
  destruct (id_matches (strip entry) (expenses tracker)) as [[ | m [ | m' ms]] | ] eqn:Em;
    try (left; repeat split; discriminate).
  destruct (lower (strip answer) =? "y")%string;
    [ | left; repeat split; discriminate ].
  destruct (id_matches_single _ _ _ Em) as [l1 [l2 [i [Hl [Hi [Hs Hf]]]]]].
  right. rewrite Hi. cbn [csv_field]. unfold delete_expense.
  rewrite Hl, (delete_single (strip entry) i l1 l2 m Hi Hs Hf), !length_app.
  cbn [List.length].
  destruct (Nat.eqb_spec (List.length l1 + S (List.length l2))
              (List.length l1 + List.length l2)); [ lia | ].
  cbn [fst snd]. split; [ reflexivity | ]. now exists l1, m, l2, i.
Qed.

(** X17: the delete entry of the menu never reports a failed deletion;
    and unless it reports a deletion, it leaves memory and file as they
    were. *)
Theorem menu_delete_never_fails :
  forall entry answer tracker,
    fst (menu_delete entry answer tracker) <> Ok ["Failed to delete."]
    /\ (fst (menu_delete entry answer tracker) = Ok ["Deleted."]
        \/ snd (menu_delete entry answer tracker) = tracker).
Proof.
  intros entry answer tracker.
  destruct (menu_delete_cases entry answer tracker) as [[H1 [H2 H3]] | [H _]].
  - split; [ exact H3 | now right ].
  - split; [ rewrite H; discriminate | now left ].
Qed.

(** X18: when the delete entry of the menu reports a deletion, exactly
    one record has left memory, its id starts with the text entered, the
    other records keep their order, and the file is rewritten from them. *)
Theorem menu_delete_deleted :
  forall entry answer tracker tracker',
    menu_delete entry answer tracker = (Ok ["Deleted."], tracker') ->
    exists l1 m l2 i,
      expenses tracker = l1 ++ m :: l2
      /\ id m = PyStr i /\ startswith i (strip entry) = true
      /\ expenses tracker' = l1 ++ l2
      /\ data_file tracker' = header :: map expense_row (l1 ++ l2).
Proof.
  intros entry answer tracker tracker' H.
  destruct (menu_delete_cases entry answer tracker) as [[_ [H2 _]] | [_ H1]].
  - rewrite H in H2. now destruct H2.
  - destruct H1 as [l1 [m [l2 [i [E1 [E2 [E3 E4]]]]]]]. rewrite H in E4. cbn [snd] in E4.
    exists l1, m, l2, i. subst tracker'. repeat split; assumption.
Qed.

Lemma menu_delete_deleted_witness :
  let e1 := mk_Expense (PyStr "1f3a9c2e-aaaa") "2024-03-05" "1.00" "Food" "" in
  let e2 := mk_Expense (PyStr "7b20d4c1-bbbb") "2024-03-09" "2.00" "Bills" "" in
  let e3 := mk_Expense (PyStr "1f9e0000-cccc") "2024-03-05" "3.00" "Food" "" in
  let tracker := mk_ExpenseTracker (header :: map expense_row [e1; e2; e3]) [e1; e2; e3] in
  exists l1 m l2 i,
    expenses tracker = l1 ++ m :: l2
    /\ id m = PyStr i /\ startswith i (strip " 7b20d4c1 ") = true
    /\ expenses (mk_ExpenseTracker (header :: map expense_row [e1; e3]) [e1; e3]) = l1 ++ l2
    /\ data_file (mk_ExpenseTracker (header :: map expense_row [e1; e3]) [e1; e3])
       = header :: map expense_row (l1 ++ l2).
Proof.
  intros e1 e2 e3 tracker.
  apply (menu_delete_deleted " 7b20d4c1 " " Y " tracker).
  vm_compute. reflexivity.
Defined.

(** ** What [add_expense] stores *)

(** X19: a successful [add_expense] stores the date in the form that
    [strftime] writes.  For a date of the year 1000 or later that text
    parses to the very date that was entered (or to today); for an earlier
    year, which [strptime] accepts with four digits, the stored text has
    fewer than four digits of the year and [strptime] rejects it.  The
    category and the description are stored stripped, so that stripping
    them again changes nothing. *)
Theorem add_expense_normal_form :
  forall uuid4 today a c d desc self new self',
    valid_date (year today) (month today) (day today) = true ->
    add_expense uuid4 today a c d desc self = (Ok new, self') ->
    (exists dt,
        match d with Some d0 => strptime d0 = Ok dt | None => dt = today end
        /\ date new = strftime dt
        /\ (1000 <= year dt -> strptime (date new) = Ok dt)
        /\ (year dt < 1000 -> strptime (date new) = Raise ValueError))
    /\ strip (category new) = category new
    /\ strip (description new) = description new
    /\ id new = PyStr uuid4.
Proof.
  intros uuid4 today a c d desc self new self' Ht H. unfold add_expense in H.
  destruct (match d with None => Ok today | Some d0 => strptime d0 end)
    as [date_obj | ] eqn:Ed; [ | discriminate ].
  destruct (py_float a) as [amt | ]; [ | discriminate ].
  injection H as <- <-. cbn [date category description id].
  split; [ | split; [ apply strip_idem | split; [ apply strip_idem | reflexivity ] ] ].
  destruct (add_expense_date today d date_obj Ht Ed) as [Hv _].
  exists date_obj. split; [ | split; [ reflexivity | split ] ].
  - destruct d as [d0 | ]; [ exact Ed | ]. now injection Ed as <-.
  - now apply strptime_strftime.
  - now apply strptime_strftime_short.
Qed.

Lemma add_expense_normal_form_witness :
  let today := mk_datetime 2026 11 3 in
  let new := mk_Expense (PyStr "u1") "999-03-05" "12.50" "Food" "lunch" in
  (exists dt,
      strptime "0999-3-5" = Ok dt
      /\ date new = strftime dt
      /\ (1000 <= year dt -> strptime (date new) = Ok dt)
      /\ (year dt < 1000 -> strptime (date new) = Raise ValueError))
  /\ strip (category new) = category new
  /\ strip (description new) = description new
  /\ id new = PyStr "u1".
Proof.
  intros today new.
  apply (add_expense_normal_form "u1" today " 12.5 " " Food " (Some "0999-3-5") "lunch "
           (snd (init None)) new
           (mk_ExpenseTracker [header; expense_row new] [new])).
  - reflexivity.
  - vm_compute. reflexivity.
Defined.

(** X20: for an amount text that [float] reads as a finite number,
    [add_expense] stores a numeral with exactly two decimals, and reading
    the stored text gives that number rounded to two decimals. *)
Theorem add_expense_finite_amount :
  forall uuid4 today a c d desc self new self' x,
    add_expense uuid4 today a c d desc self = (Ok new, self') ->
    py_float a = Ok x -> is_finite x = true ->
    two_decimals (amount new) = true
    /\ py_float (amount new) = Ok (round2 x)
    /\ within_cent (round2 x) x = true.
Proof.
  intros uuid4 today a c d desc self new self' x H Hx Hf. unfold add_expense in H.
  destruct (match d with None => Ok today | Some d0 => strptime d0 end);
    [ | discriminate ].
  rewrite Hx in H. injection H as <- <-. cbn [amount].
  split; [ now apply format_2f_two_decimals | ].
  split; [ now apply py_float_format_2f | ].
  apply round2_close; [ exact Hf | now apply (py_float_representable a) ].
Qed.

Lemma add_expense_finite_amount_witness :
  let today := mk_datetime 2026 11 3 in
  let new := mk_Expense (PyStr "u1") "2026-11-03" "50.01" "Food" "" in
  let x := S754_finite false 7037578105208177 (-47) in
  two_decimals (amount new) = true
  /\ py_float (amount new) = Ok (round2 x)
  /\ within_cent (round2 x) x = true.
Proof.
  intros today new x.
  apply (add_expense_finite_amount "u1" today "50.005" "Food" None ""
           (snd (init None)) new
           (mk_ExpenseTracker [header; expense_row new] [new]) x).
  - vm_compute. reflexivity.
  - vm_compute. reflexivity.
  - reflexivity.
Defined.
